(** * DisobedientRobots: the browser-automation runner [llm_runner.py]

    A shallow embedding of the text utilities, the element locator, the
    prompt/response exchange, the headless/headful test flow and the batch
    loop of [src/llm_runner.py], with the properties the specification
    states about them.

    Python [str] values are sequences of Unicode code points; they are
    modelled as lists of naturals (type [N]).  The browser is modelled by
    the answers it gives to the calls the runner makes. *)

From Stdlib Require Import PeanoNat NArith List Bool Lia Ascii String.
Import ListNotations.

Open Scope N_scope.

(** ** Python strings *)

Definition codepoint := N.
Definition pystr := list codepoint.

(** An ASCII literal of the source as a [pystr]. *)
Fixpoint lit (s : string) : pystr :=
  match s with
  | EmptyString => []
  | String a r => N_of_ascii a :: lit r
  end.

Definition SPACE : codepoint := 32.
Definition UNDERSCORE : codepoint := 95.
Definition HYPHEN : codepoint := 45.

(** [in_range lo hi c]: [lo <= c <= hi]. *)
Definition in_range (lo hi c : codepoint) : bool := (lo <=? c) && (c <=? hi).

(** Python's whitespace ([str.isspace], the class [\s] of [re] on [str]
    patterns, and the characters [str.strip()] removes). *)
Definition isspace (c : codepoint) : bool :=
  in_range 9 13 c || in_range 28 32 c || (c =? 133) || (c =? 160)
  || (c =? 5760) || in_range 8192 8202 c || (c =? 8232) || (c =? 8233)
  || (c =? 8239) || (c =? 8287) || (c =? 12288).

Definition is_ascii (c : codepoint) : bool := c <=? 127.

Definition ascii_alnum (c : codepoint) : bool :=
  in_range 48 57 c || in_range 65 90 c || in_range 97 122 c.

(** [str.isalnum] on one character.  ASCII and Latin-1 are written out
    (letters, the superscript digits and the vulgar fractions of Latin-1
    are alphanumeric for Python); [alnum_high] is the Unicode character
    database's answer above U+00FF. *)
Definition latin1_alnum (c : codepoint) : bool :=
  (c =? 170) || (c =? 178) || (c =? 179) || (c =? 181) || (c =? 185)
  || (c =? 186) || in_range 188 190 c || in_range 192 214 c
  || in_range 216 246 c || in_range 248 255 c.

Definition isalnum (alnum_high : codepoint -> bool) (c : codepoint) : bool :=
  if c <=? 127 then ascii_alnum c
  else if c <=? 255 then latin1_alnum c
  else alnum_high c.

(** The lone surrogates U+D800..U+DFFF, which a Python [str] may hold
    ([json.load] returns them for an escape such as "\ud83d") and which
    cannot be encoded as UTF-8. *)
Definition is_surrogate (c : codepoint) : bool := in_range 55296 57343 c.

(** [text.encode("utf-8")] succeeds.  The files of [save_response] are
    opened with this encoding; standard output is taken to use it too
    (Python's default outside a legacy console), so that [print(text)]
    raises [UnicodeEncodeError] exactly when [encodable text] is
    false. *)
Definition encodable (text : pystr) : bool :=
  negb (existsb is_surrogate text).

(** [s.lstrip()], [s.rstrip()], [s.strip()] *)
Fixpoint lstrip (s : pystr) : pystr :=
  match s with
  | [] => []
  | c :: r => if isspace c then lstrip r else s
  end.

Definition rstrip (s : pystr) : pystr := rev (lstrip (rev s)).

Definition strip (s : pystr) : pystr := rstrip (lstrip s).

(** ** Utils *)

(** [sanitize_name]:
    ["".join(c if c.isalnum() or c in "-_" else "_" for c in name)] *)
Definition sanitize_char (alnum_high : codepoint -> bool) (c : codepoint)
  : codepoint :=
  if isalnum alnum_high c || ((c =? HYPHEN) || (c =? UNDERSCORE))
  then c else UNDERSCORE.

Definition sanitize_name (alnum_high : codepoint -> bool) (name : pystr)
  : pystr :=
  map (sanitize_char alnum_high) name.

(** [re.sub(r'[\U00010000-\U0010ffff]', '', text)] *)
Definition remove_astral (text : pystr) : pystr :=
  filter (fun c => negb (in_range 65536 1114111 c)) text.

(** [re.sub(r'[^\x00-\x7F]+', '', text)] *)
Definition remove_non_ascii (text : pystr) : pystr :=
  filter is_ascii text.

(** [re.sub(r'\s+', ' ', text)]: every maximal run of whitespace becomes
    one space.  [in_run] tells that the previous character belonged to the
    run being replaced. *)
Fixpoint sub_ws (in_run : bool) (text : pystr) : pystr :=
  match text with
  | [] => []
  | c :: r =>
      if isspace c
      then (if in_run then sub_ws true r else SPACE :: sub_ws true r)
      else c :: sub_ws false r
  end.

Definition collapse_ws (text : pystr) : pystr := sub_ws false text.

(** [clean_text] *)
Definition clean_text (text : pystr) : pystr :=
  let text := remove_astral text in
  let text := remove_non_ascii text in
  strip (collapse_ws text).

(** The response text of the specification's example, with U+1F600 for the
    emoji and U+000A for the newlines. *)
Definition example_response : pystr :=
  lit "Hi " ++ [128512] ++ lit " there" ++ [10; 10] ++ lit "  now".

(** ** Exceptions, results and the trace of browser actions *)

Inductive exn :=
| RuntimeError (msg : string)
| TimeoutError (msg : string)
| UnboundLocalError (var : string)
| TypeError (msg : string)
| AttributeError (msg : string)
| OSError (msg : string)
| UnicodeEncodeError (msg : string)
| BrowserError (msg : string).

Inductive result (A : Type) :=
| Ok (a : A)
| Raise (e : exn).
Arguments Ok {A} a.
Arguments Raise {A} e.

(** How an element is looked up in a frame: [fr.get_by_role(r)] or
    [fr.locator(sel)]. *)
Inductive query :=
| ByRole (role : string)
| Css (sel : string).

(** A frame answers, for each query, whether its first match becomes
    visible within the timeout of [wait_for]. *)
Record Frame := mkFrame {
  frame_id : N;
  visible : query -> bool
}.

(** [Locator]: the value [fr.get_by_role(..).first] or
    [fr.locator(..).first], that is the frame and the query. *)
Record Locator := mkLocator {
  loc_frame : N;
  loc_query : query
}.

(** The page as it answers during one exchange.  [region sel] lists the
    inner texts of the elements matching [sel], in document order, at
    the moment the response is read. *)
Record Page := mkPage {
  main_frame : Frame;
  frames : list Frame;
  click_raises : bool;
  region : string -> list pystr
}.

(** A provider entry of [config.yaml], with the keys the runner reads.
    [None] is an absent key.  [cmd_test] and [cmd_batch] print the name
    in their banner before anything else, outside their [try] blocks:
    the flows modelled below are those that follow this print, of a
    provider whose name was printed. *)
Record Llm := mkLlm {
  llm_name : pystr;
  llm_url : string;
  input_selector : option string;
  wait_time : option N;
  response_selector : option string
}.

(** A file written by [save_response]. *)
Record SavedFile := mkSaved {
  sf_dir : list pystr;
  sf_filename : pystr;
  sf_provider : pystr;
  sf_timestamp : pystr;
  sf_honeypot : option pystr;
  sf_prompt : pystr;
  sf_response : pystr
}.

Inductive event :=
| EProbe (l : Locator) (timeout : N)
| EClick (l : Locator)
| EType (text : pystr) (delay : N)
| EPress (key : string)
| EWait (ms : N)
| EInnerTextOfLast (sel : string)
| ELaunch (headless : bool)
| ELaunchPersistent (headless : bool)
| ENewContext
| ENewPage
| EGoto (url : string)
| ECloseContext
| ECloseBrowser
| EStop
| EPrompt (hp_name : pystr) (prompt : pystr)
| EMkdir (dir : list pystr)
| ESave (f : SavedFile).

Definition trace := list event.

(** Computations that act on the browser: the actions performed, and a
    value or the exception raised. *)
Definition M (A : Type) : Type := (trace * result A)%type.

Definition ret {A} (a : A) : M A := ([], Ok a).
Definition raise {A} (e : exn) : M A := ([], Raise e).
Definition emit (ev : event) : M unit := ([ev], Ok tt).

Definition bind {A B} (m : M A) (k : A -> M B) : M B :=
  match m with
  | (t, Ok a) => let (t', r) := k a in (t ++ t', r)
  | (t, Raise e) => (t, Raise e)
  end.

(** [try: m  except Exception as e: h e] *)
Definition try_except {A} (m : M A) (h : exn -> M A) : M A :=
  match m with
  | (t, Ok a) => (t, Ok a)
  | (t, Raise e) => let (t', r) := h e in (t ++ t', r)
  end.

(** [try: m  finally: fin]; an exception of [fin] replaces the outcome
    of [m]. *)
Definition try_finally {A} (m : M A) (fin : M unit) : M A :=
  let (t, r) := m in
  match fin with
  | (t', Ok _) => (t ++ t', r)
  | (t', Raise e) => (t ++ t', Raise e)
  end.

Declare Scope runner_scope.
Delimit Scope runner_scope with runner.
Notation "x <- m ;; k" := (bind m (fun x => k))
  (at level 61, m at next level, right associativity) : runner_scope.
Notation "m ;;; k" := (bind m (fun _ => k))
  (at level 61, right associativity) : runner_scope.
Open Scope runner_scope.

(** ** Element finders *)

(** [frames_in_read_order]: the main frame, then every frame of
    [page.frames] that is not the main frame. *)
Definition frames_in_read_order (page : Page) : list Frame :=
  main_frame page
    :: filter (fun f => negb (frame_id f =? frame_id (main_frame page)))
         (frames page).

Definition candidates : list string :=
  [ "textarea"%string;
    "div[contenteditable='true']"%string;
    "input[type='text']"%string;
    "[aria-label*='message' i]"%string;
    "#prompt-textarea"%string ].

(** The inner loop of [find_input]: [for sel in candidates]. *)
Fixpoint try_candidates (fr : Frame) (sels : list string)
  : trace * option Locator :=
  match sels with
  | [] => ([], None)
  | sel :: rest =>
      let loc := mkLocator (frame_id fr) (Css sel) in
      if visible fr (Css sel)
      then ([EProbe loc 1000], Some loc)
      else let (t, r) := try_candidates fr rest in
           (EProbe loc 1000 :: t, r)
  end.

(** The outer loop of [find_input]: [for fr in frames_in_read_order(page)]. *)
Fixpoint scan_frames (frs : list Frame) : trace * option Locator :=
  match frs with
  | [] => ([], None)
  | fr :: rest =>
      let loc := mkLocator (frame_id fr) (ByRole "textbox") in
      if visible fr (ByRole "textbox")
      then ([EProbe loc 5000], Some loc)
      else
        match try_candidates fr candidates with
        | (t, Some l) => (EProbe loc 5000 :: t, Some l)
        | (t, None) =>
            let (t', r) := scan_frames rest in
            (EProbe loc 5000 :: t ++ t', r)
        end
  end.

(** [find_input]; the argument [input_selector] is the provider's hint as
    the caller passes it. *)
Definition find_input (page : Page) (input_selector : option string)
  : M Locator :=
  match scan_frames (frames_in_read_order page) with
  | (t, Some loc) => (t, Ok loc)
  | (t, None) => (t, Raise (RuntimeError " Input field not found"))
  end.

(** ** Core flows *)

(** Truth value of a Python [str], and of an [Optional[str]]. *)
Definition truthy (s : pystr) : bool :=
  match s with [] => false | _ :: _ => true end.

Definition truthy_opt (r : option pystr) : bool :=
  match r with None => false | Some s => truthy s end.

Fixpoint last_opt {A} (l : list A) : option A :=
  match l with
  | [] => None
  | [a] => Some a
  | _ :: r => last_opt r
  end.

(** [await inp.click()] *)
Definition click (page : Page) (inp : Locator) : M unit :=
  emit (EClick inp) ;;;
  if click_raises page then raise (TimeoutError "click") else ret tt.

(** [await page.locator(sel).last.inner_text()]: the text of the last
    match; with no match the call times out. *)
Definition inner_text_of_last (page : Page) (sel : string) : M pystr :=
  emit (EInnerTextOfLast sel) ;;;
  match last_opt (region page sel) with
  | Some text => ret text
  | None => raise (TimeoutError "inner_text")
  end.

(** [llm.get("wait_time", 10000)] and [llm.get("response_selector", ".markdown")] *)
Definition get_wait_time (llm : Llm) : N :=
  match wait_time llm with Some w => w | None => 10000 end.

Definition get_response_selector (llm : Llm) : string :=
  match response_selector llm with Some s => s | None => ".markdown"%string end.

(** The part of [send_prompt] that follows the read of the response
    region: [text] is the inner text already stripped. *)
Definition extract (text : pystr) : option pystr :=
  if truthy text && Nat.ltb 1 (List.length text)
  then Some (clean_text text)
  else None.

(** [send_prompt] *)
Definition send_prompt (page : Page) (llm : Llm) (prompt : pystr)
  : M (option pystr) :=
  try_except
    (inp <- find_input page (input_selector llm) ;;
     click page inp ;;;
     emit (EType prompt 30) ;;;
     emit (EWait 300) ;;;
     emit (EPress "Enter") ;;;
     emit (EWait 100) ;;;
     emit (EPress "Enter") ;;;
     emit (EWait 100) ;;;
     emit (EPress "Enter") ;;;
     emit (EWait (get_wait_time llm)) ;;;
     raw <- inner_text_of_last page (get_response_selector llm) ;;
     ret (extract (strip raw)))
    (fun _ => ret None).

(** ** The prompt source *)

(** The value [json.load] / [yaml.safe_load] returns.  A [dict] keeps
    its keys in insertion order and holds each key once. *)
Local Unset Elimination Schemes.
Inductive json :=
| JNull
| JBool (b : bool)
| JNum (n : N)
| JStr (s : pystr)
| JList (l : list json)
| JDict (d : list (pystr * json)).
Local Set Elimination Schemes.

Fixpoint pystr_eqb (a b : pystr) : bool :=
  match a, b with
  | [], [] => true
  | x :: a', y :: b' => (x =? y) && pystr_eqb a' b'
  | _, _ => false
  end.

(** [d.get(k)] *)
Fixpoint dict_get (d : list (pystr * json)) (k : pystr) : option json :=
  match d with
  | [] => None
  | (k', v) :: r => if pystr_eqb k' k then Some v else dict_get r k
  end.

(** [d[k] = v]: an existing key keeps its place and takes the new value,
    a new key goes last. *)
Fixpoint dict_set (d : list (pystr * json)) (k : pystr) (v : json)
  : list (pystr * json) :=
  match d with
  | [] => [(k, v)]
  | (k', v') :: r =>
      if pystr_eqb k' k then (k', v) :: r else (k', v') :: dict_set r k v
  end.

Fixpoint is_prefix (p s : pystr) : bool :=
  match p, s with
  | [], _ => true
  | x :: p', y :: s' => (x =? y) && is_prefix p' s'
  | _ :: _, [] => false
  end.

(** [needle in s] for two strings. *)
Fixpoint is_infix (needle s : pystr) : bool :=
  is_prefix needle s
  || match s with
     | [] => false
     | _ :: s' => is_infix needle s'
     end.

Definition is_str (needle : pystr) (x : json) : bool :=
  match x with JStr s => pystr_eqb s needle | _ => false end.

Definition is_list (x : json) : bool :=
  match x with JList _ => true | _ => false end.

(** [key in data] *)
Definition py_in (key : pystr) (data : json) : result bool :=
  match data with
  | JDict d => Ok (match dict_get d key with Some _ => true | None => false end)
  | JList l => Ok (existsb (is_str key) l)
  | JStr s => Ok (is_infix key s)
  | _ => Raise (TypeError "argument is not iterable")
  end.

(** [data[key]] with a string key *)
Definition py_subscript (data : json) (key : pystr) : result json :=
  match data with
  | JDict d =>
      match dict_get d key with
      | Some v => Ok v
      | None => Raise (RuntimeError "KeyError")
      end
  | _ => Raise (TypeError "indices must be integers")
  end.

(** The elements a [for] loop over the value visits. *)
Definition py_iter (v : json) : result (list json) :=
  match v with
  | JList l => Ok l
  | JDict d => Ok (map (fun kv => JStr (fst kv)) d)
  | JStr s => Ok (map (fun c => JStr [c]) s)
  | _ => Raise (TypeError "object is not iterable")
  end.

(** [h.get(key, default)] *)
Definition py_get (h : json) (key : pystr) (default : json) : result json :=
  match h with
  | JDict d =>
      Ok (match dict_get d key with Some v => v | None => default end)
  | _ => Raise (AttributeError "get")
  end.

Fixpoint digits (u : Decimal.uint) : pystr :=
  match u with
  | Decimal.Nil => []
  | Decimal.D0 r => 48 :: digits r
  | Decimal.D1 r => 49 :: digits r
  | Decimal.D2 r => 50 :: digits r
  | Decimal.D3 r => 51 :: digits r
  | Decimal.D4 r => 52 :: digits r
  | Decimal.D5 r => 53 :: digits r
  | Decimal.D6 r => 54 :: digits r
  | Decimal.D7 r => 55 :: digits r
  | Decimal.D8 r => 56 :: digits r
  | Decimal.D9 r => 57 :: digits r
  end.

(** [f"honeypot_{i}"] *)
Definition default_name (i : N) : pystr :=
  lit "honeypot_" ++ digits (N.to_uint i).

(** [[(h.get("name", f"honeypot_{i}"), h.get("prompts", []))
      for i, h in enumerate(items, i)]] *)
Fixpoint named_entries (items : list json) (i : N)
  : result (list (json * json)) :=
  match items with
  | [] => Ok []
  | h :: rest =>
      match py_get h (lit "name") (JStr (default_name i)) with
      | Raise e => Raise e
      | Ok name =>
          match py_get h (lit "prompts") (JList []) with
          | Raise e => Raise e
          | Ok prompts =>
              match named_entries rest (i + 1) with
              | Raise e => Raise e
              | Ok t => Ok ((name, prompts) :: t)
              end
          end
      end
  end.

(** The three branches of [cmd_batch] that turn the loaded data into
    [honeypots]; [Ok None] is the branch "Unrecognized JSON format". *)
Definition load_honeypots (data : json)
  : result (option (list (json * json))) :=
  match py_in (lit "honeypots") data with
  | Raise e => Raise e
  | Ok true =>
      match py_subscript data (lit "honeypots") with
      | Raise e => Raise e
      | Ok v =>
          match py_iter v with
          | Raise e => Raise e
          | Ok items =>
              match named_entries items 1 with
              | Raise e => Raise e
              | Ok hps => Ok (Some hps)
              end
          end
      end
  | Ok false =>
      match data with
      | JDict d =>
          if forallb (fun kv => is_list (snd kv)) d
          then Ok (Some (map (fun kv => (JStr (fst kv), snd kv)) d))
          else Ok None
      | JList l =>
          match named_entries l 1 with
          | Raise e => Raise e
          | Ok hps => Ok (Some hps)
          end
      | _ => Ok None
      end
  end.

(** ** Saving, the test flow and the batch flow *)

Section Runner.

(** The Unicode database's [isalnum] above U+00FF, see [isalnum]. *)
Variable alnum_high : codepoint -> bool.

(** The texts [save_response] writes to the file besides the two
    timestamps: the provider, the persona when there is one, the prompt
    and the response. *)
Definition written_text (llm_name prompt response : pystr)
    (honeypot_name : option pystr) : pystr :=
  llm_name
    ++ match honeypot_name with
       | Some hp => if truthy hp then hp else []
       | None => []
       end
    ++ prompt ++ response.

(** [save_response].  [stamp] and [iso] are the two readings of
    [datetime.now()].  The directories are created first
    ([mkdir(exist_ok=True)]); then the file is opened with ["w"] and
    written: [io_fails] tells that the file system refuses this, and
    the writes raise on a text that UTF-8 cannot encode.  [ESave] is the
    file completely written. *)
Definition save_response (io_fails : bool) (stamp iso : pystr)
    (llm_name prompt response : pystr) (honeypot_name : option pystr)
  : M unit :=
  let filename :=
    sanitize_name alnum_high llm_name ++ lit "_" ++ stamp ++ lit ".txt" in
  let labelled := truthy_opt honeypot_name in
  let dir :=
    match honeypot_name with
    | Some hp =>
        if truthy hp
        then [lit "responses"; sanitize_name alnum_high hp]
        else [lit "responses"]
    | None => [lit "responses"]
    end in
  emit (EMkdir [lit "responses"]) ;;;
  (if labelled then emit (EMkdir dir) else ret tt) ;;;
  if io_fails then raise (OSError "responses") else
  if negb (encodable (written_text llm_name prompt response honeypot_name))
  then raise (UnicodeEncodeError "write") else
  emit (ESave
    {| sf_dir := dir;
       sf_filename := filename;
       sf_provider := llm_name;
       sf_timestamp := iso;
       sf_honeypot := if labelled then honeypot_name else None;
       sf_prompt := prompt;
       sf_response := response |}).

(** What one browser (headless or headful) answers to [cmd_test]. *)
Record BrowserWorld := mkBrowserWorld {
  launch_raises : bool;
  new_context_raises : bool;
  new_page_raises : bool;
  goto_raises : bool;
  bw_page : Page
}.

Record TestWorld := mkTestWorld {
  state_exists : bool;
  browser_of : bool -> BrowserWorld;
  tw_save_fails : bool;
  tw_stamp : pystr;
  tw_iso : pystr
}.

Definition step (ev : event) (raises : bool) (what : string) : M unit :=
  emit ev ;;; if raises then raise (BrowserError what) else ret tt.

(** The statements both [try] blocks of [cmd_test] share: launch, new
    context, new page, navigation, exchange, and the save on success.
    The value is the response of [send_prompt]. *)
Definition attempt (w : TestWorld) (headless : bool) (llm : Llm)
    (prompt : pystr) (save : bool) (honeypot_name : option pystr)
  : M (option pystr) :=
  let b := browser_of w headless in
  step (ELaunch headless) (launch_raises b) "launch" ;;;
  step ENewContext (new_context_raises b) "new_context" ;;;
  step ENewPage (new_page_raises b) "new_page" ;;;
  step (EGoto (llm_url llm)) (goto_raises b) "goto" ;;;
  response <- send_prompt (bw_page b) llm prompt ;;
  if truthy_opt response
  then
    (if save
     then save_response (tw_save_fails w) (tw_stamp w) (tw_iso w)
            (llm_name llm) prompt
            (match response with Some r => r | None => [] end)
            honeypot_name
     else ret tt) ;;;
    ret response
  else ret response.

(** [cmd_test].  The first [try] yields [Some true] when it returns
    [True] and [None] when control falls through to the headful part.
    Its [finally] reads the local [context], which is unbound when the
    headless launch or the context creation raised. *)
Definition cmd_test (w : TestWorld) (llm : Llm) (prompt : pystr)
    (save : bool) (honeypot_name : option pystr) : M bool :=
  if negb (state_exists w) then ret false else
  let hl := browser_of w true in
  let context_bound := negb (launch_raises hl || new_context_raises hl) in
  first <-
    try_finally
      (try_except
         (response <- attempt w true llm prompt save honeypot_name ;;
          if truthy_opt response then ret (Some true) else ret None)
         (fun _ => ret None))
      (if context_bound
       then emit ECloseContext ;;; emit ECloseBrowser
       else raise (UnboundLocalError "context")) ;;
  match first with
  | Some b => ret b
  | None =>
      try_finally
        (response <- attempt w false llm prompt save honeypot_name ;;
         if truthy_opt response then ret true else ret false)
        (emit ECloseContext ;;; emit ECloseBrowser ;;; emit EStop)
  end.

(** What the browser, the file system and the clock answer during a
    batch: [page_at k], [save_fails_at k], [stamp_at k] and [iso_at k]
    are the answers during the exchange number [k] (from 0). *)
Record BatchWorld := mkBatchWorld {
  profile_exists : bool;
  launch_persistent_raises : bool;
  batch_goto_raises : bool;
  page_at : nat -> Page;
  save_fails_at : nat -> bool;
  stamp_at : nat -> pystr;
  iso_at : nat -> pystr
}.

(** The locals [success_count] and [failed_count] of [cmd_batch];
    [sent] counts the calls of [send_prompt] made so far. *)
Record BatchState := mkBatchState {
  success_count : nat;
  failed_count : nat;
  sent : nat
}.

(** The outcome of a piece of the loop: the actions, the locals, and the
    exception that left the loop, if any. *)
Definition LoopResult : Type := (trace * BatchState * option exn)%type.

(** The body of [for p_idx, prompt in enumerate(prompts, 1)], without
    the delay that follows it.  The iteration first prints the line
    "Sending prompt..." and the first 80 characters of the prompt; the
    second print raises when that text cannot be encoded, and
    [send_prompt] is then not called.  [EPrompt] marks an iteration
    whose two lines were printed. *)
Definition prompt_body (w : BatchWorld) (llm : Llm) (hp_name : pystr)
    (prompt : pystr) (st : BatchState) : LoopResult :=
  let k := sent st in
  let st1 := mkBatchState (success_count st) (failed_count st) (S k) in
  if negb (encodable (firstn 80%nat prompt))
  then ([], st, Some (UnicodeEncodeError "print")) else
  match send_prompt (page_at w k) llm prompt with
  | (t1, Raise e) => (EPrompt hp_name prompt :: t1, st1, Some e)
  | (t1, Ok response) =>
      if truthy_opt response
      then
        match save_response (save_fails_at w k) (stamp_at w k) (iso_at w k)
                (llm_name llm) prompt
                (match response with Some r => r | None => [] end)
                (Some hp_name) with
        | (t2, Raise e) => (EPrompt hp_name prompt :: t1 ++ t2, st1, Some e)
        | (t2, Ok _) =>
            (EPrompt hp_name prompt :: t1 ++ t2,
             mkBatchState (S (success_count st)) (failed_count st) (S k),
             None)
        end
      else
        (EPrompt hp_name prompt :: t1,
         mkBatchState (success_count st) (S (failed_count st)) (S k),
         None)
  end.

(** [for p_idx, prompt in enumerate(prompts, 1)]; the test
    [p_idx < len(prompts)] holds when prompts remain. *)
Fixpoint run_prompts (w : BatchWorld) (llm : Llm) (delay : N)
    (hp_name : pystr) (prompts : list pystr) (st : BatchState)
  : LoopResult :=
  match prompts with
  | [] => ([], st, None)
  | prompt :: rest =>
      match prompt_body w llm hp_name prompt st with
      | (t, st', Some e) => (t, st', Some e)
      | (t, st', None) =>
          let pause :=
            match rest with [] => [] | _ :: _ => [EWait (delay * 1000)] end in
          let '(t', st'', e) := run_prompts w llm delay hp_name rest st' in
          (t ++ pause ++ t', st'', e)
      end
  end.

(** [for hp_idx, (hp_name, prompts) in enumerate(honeypots, 1)]; the
    iteration first prints a header that holds the persona's name, and
    that print raises when the name cannot be encoded. *)
Fixpoint run_honeypots (w : BatchWorld) (llm : Llm) (delay : N)
    (honeypots : list (pystr * list pystr)) (st : BatchState)
  : LoopResult :=
  match honeypots with
  | [] => ([], st, None)
  | (hp_name, prompts) :: rest =>
      if negb (encodable hp_name)
      then ([], st, Some (UnicodeEncodeError "print")) else
      match run_prompts w llm delay hp_name prompts st with
      | (t, st', Some e) => (t, st', Some e)
      | (t, st', None) =>
          let pause :=
            match rest with [] => [] | _ :: _ => [EWait (delay * 2000)] end in
          let '(t', st'', e) := run_honeypots w llm delay rest st' in
          (t ++ pause ++ t', st'', e)
      end
  end.

(** The dictionary [cmd_batch] returns; the early returns have no key
    ["llm"]. *)
Record Summary := mkSummary {
  s_llm : option pystr;
  s_success : nat;
  s_failed : nat;
  s_total : nat
}.

(** [sum(len(prompts) for _, prompts in honeypots)] *)
Definition total_prompts (honeypots : list (pystr * list pystr)) : nat :=
  fold_right (fun hp acc => (List.length (snd hp) + acc)%nat) 0%nat honeypots.

(** [cmd_batch] from the point where [honeypots] is built.  The [try]
    block is the navigation and the two loops; its [except] prints, its
    [finally] waits and closes. *)
Definition batch_run (w : BatchWorld) (llm : Llm)
    (honeypots : list (pystr * list pystr)) (delay : N) : M Summary :=
  step (ELaunchPersistent true) (launch_persistent_raises w)
    "launch_persistent" ;;;
  emit ENewPage ;;;
  let start := mkBatchState 0 0 0 in
  let '(t, st, _) :=
    if batch_goto_raises w
    then ([EGoto (llm_url llm)], start, Some (BrowserError "goto"))
    else
      let '(t, st, e) := run_honeypots w llm delay honeypots start in
      (EGoto (llm_url llm) :: t, st, e) in
  (t ++ [EWait 2000; ECloseContext; EStop],
   Ok (mkSummary (Some (llm_name llm)) (success_count st) (failed_count st)
         (total_prompts honeypots))).

(** The honeypots whose names are strings and whose prompts are lists of
    strings; the loops are modelled for these. *)
Definition as_str (x : json) : option pystr :=
  match x with JStr s => Some s | _ => None end.

Fixpoint as_strs (l : list json) : option (list pystr) :=
  match l with
  | [] => Some []
  | x :: r =>
      match as_str x, as_strs r with
      | Some s, Some t => Some (s :: t)
      | _, _ => None
      end
  end.

Fixpoint typed_honeypots (hps : list (json * json))
  : option (list (pystr * list pystr)) :=
  match hps with
  | [] => Some []
  | (JStr name, JList ps) :: r =>
      match as_strs ps, typed_honeypots r with
      | Some l, Some t => Some ((name, l) :: t)
      | _, _ => None
      end
  | _ :: _ => None
  end.

(** [cmd_batch], given the value loaded from the prompts file.  [None]:
    the prompt source has a honeypot whose name is not a string or whose
    prompts are not a list of strings, which this model leaves out. *)
Definition cmd_batch (w : BatchWorld) (llm : Llm) (data : json) (delay : N)
  : option (M Summary) :=
  if negb (profile_exists w)
  then Some (ret (mkSummary None 0 0 0))
  else
    match load_honeypots data with
    | Raise e => Some (raise e)
    | Ok None => Some (ret (mkSummary None 0 0 0))
    | Ok (Some hps) =>
        match typed_honeypots hps with
        | Some honeypots => Some (batch_run w llm honeypots delay)
        | None => None
        end
    end.

End Runner.

(** ** The specification's vocabulary *)

(** The words of a text: its maximal runs of characters that are not
    whitespace, in order. *)
Fixpoint spec_words (s : pystr) : list pystr :=
  match s with
  | [] => []
  | c :: r =>
      if isspace c then spec_words r
      else
        match r with
        | [] => [[c]]
        | d :: _ =>
            if isspace d then [c] :: spec_words r
            else
              match spec_words r with
              | w :: ws => (c :: w) :: ws
              | [] => [[c]]
              end
        end
  end.

(** A word is not empty and holds no whitespace. *)
Definition is_word (w : pystr) : Prop :=
  w <> [] /\ Forall (fun c => isspace c = false) w.

(** The words separated by single spaces. *)
Fixpoint spec_join (ws : list pystr) : pystr :=
  match ws with
  | [] => []
  | w :: rest =>
      match rest with
      | [] => w
      | _ :: _ => w ++ SPACE :: spec_join rest
      end
  end.

(** Normalization as the specification words it: drop what is not
    ASCII, collapse whitespace runs, trim the edges. *)
Definition spec_normalize (text : pystr) : pystr :=
  spec_join (spec_words (filter is_ascii text)).

(** An ASCII alphanumeric, ['-'] or ['_']. *)
Definition ascii_safe (c : codepoint) : bool :=
  ascii_alnum c || (c =? HYPHEN) || (c =? UNDERSCORE).

(** What [sanitize_name] leaves in place. *)
Definition kept (alnum_high : codepoint -> bool) (c : codepoint) : bool :=
  isalnum alnum_high c || (c =? HYPHEN) || (c =? UNDERSCORE).

(** The probes of [find_input] in the order the loops make them: frame
    by frame, the text-box role first and then the literal selectors. *)
Definition probe_plan (frs : list Frame) : list (Frame * query) :=
  flat_map (fun fr =>
    (fr, ByRole "textbox") :: map (fun sel => (fr, Css sel)) candidates) frs.

Definition locator_of (p : Frame * query) : Locator :=
  mkLocator (frame_id (fst p)) (snd p).

(** The actions of an exchange once the input is found: click, type,
    three Enter presses with their pauses, one wait of the configured
    length, one read of the last match of the response selector. *)
Definition exchange_actions (llm : Llm) (prompt : pystr) (inp : Locator)
  : trace :=
  [ EClick inp; EType prompt 30; EWait 300; EPress "Enter"; EWait 100;
    EPress "Enter"; EWait 100; EPress "Enter";
    EWait (get_wait_time llm);
    EInnerTextOfLast (get_response_selector llm) ].

(** The prompts whose iteration started, and the files written, in the
    order of the trace. *)
Definition prompts_of (t : trace) : list (pystr * pystr) :=
  flat_map (fun ev => match ev with EPrompt n p => [(n, p)] | _ => [] end) t.

Definition saves_of (t : trace) : list SavedFile :=
  flat_map (fun ev => match ev with ESave f => [f] | _ => [] end) t.

Definition is_headful_launch (ev : event) : bool :=
  match ev with ELaunch false => true | _ => false end.

(** Persona-then-prompt order: the (persona, prompt) pairs of the prompt
    source, personas in their order and prompts in theirs. *)
Definition flat_prompts (honeypots : list (pystr * list pystr))
  : list (pystr * pystr) :=
  flat_map (fun hp => map (pair (fst hp)) (snd hp)) honeypots.

(** The grouping label a saved file carries. *)
Definition label (hp_name : pystr) : option pystr :=
  if truthy hp_name then Some hp_name else None.

(** What the page of an exchange decides, read off the page itself:
    the input the locator ends on (the first visible probe of the plan),
    whether the prompt gets typed and submitted (an input is found and
    the click on it succeeds), and the reply: the last text of the
    response region, trimmed, normalized when it has more than one
    character. *)
Definition input_found (page : Page) : option Locator :=
  match find (fun p => visible (fst p) (snd p))
          (probe_plan (frames_in_read_order page)) with
  | Some p => Some (locator_of p)
  | None => None
  end.

Definition submits (page : Page) : bool :=
  match input_found page with
  | Some _ => negb (click_raises page)
  | None => false
  end.

Definition reply (page : Page) (llm : Llm) : option pystr :=
  if submits page
  then
    match last_opt (region page (get_response_selector llm)) with
    | Some raw =>
        if Nat.ltb 1 (List.length (strip raw))
        then Some (clean_text (strip raw))
        else None
    | None => None
    end
  else None.

(** The file a successful exchange of the batch leaves: under
    [responses/<persona>] (under [responses] for an empty persona name),
    named after the provider and the second of the write. *)
Definition record_file (alnum_high : codepoint -> bool)
    (stamp iso llm_name : pystr) (np : pystr * pystr) (response : pystr)
  : SavedFile :=
  {| sf_dir := if truthy (fst np)
               then [lit "responses"; sanitize_name alnum_high (fst np)]
               else [lit "responses"];
     sf_filename :=
       sanitize_name alnum_high llm_name ++ lit "_" ++ stamp ++ lit ".txt";
     sf_provider := llm_name;
     sf_timestamp := iso;
     sf_honeypot := label (fst np);
     sf_prompt := snd np;
     sf_response := response |}.

(** The record of exchange number [k] for the (persona, prompt) pair
    [np]: there is one when the reply is not empty, the file system
    accepts the write and the texts can be encoded. *)
Definition record_at (alnum_high : codepoint -> bool) (w : BatchWorld)
    (llm : Llm) (k : nat) (np : pystr * pystr) : option SavedFile :=
  match reply (page_at w k) llm with
  | Some (c :: x) =>
      if save_fails_at w k
         || negb (encodable (written_text (llm_name llm) (snd np) (c :: x)
                               (Some (fst np))))
      then None
      else Some (record_file alnum_high (stamp_at w k) (iso_at w k)
                   (llm_name llm) np (c :: x))
  | _ => None
  end.

(** The file [save_response] writes, and the actions it performs on the
    file system. *)
Definition written_file (alnum_high : codepoint -> bool)
    (stamp iso llm_name prompt response : pystr)
    (honeypot_name : option pystr) : SavedFile :=
  {| sf_dir := match honeypot_name with
               | Some hp =>
                   if truthy hp
                   then [lit "responses"; sanitize_name alnum_high hp]
                   else [lit "responses"]
               | None => [lit "responses"]
               end;
     sf_filename :=
       sanitize_name alnum_high llm_name ++ lit "_" ++ stamp ++ lit ".txt";
     sf_provider := llm_name;
     sf_timestamp := iso;
     sf_honeypot := if truthy_opt honeypot_name then honeypot_name else None;
     sf_prompt := prompt;
     sf_response := response |}.

Definition is_file_action (ev : event) : bool :=
  match ev with EMkdir _ | ESave _ => true | _ => false end.

(** The creations of a directory; each call of [save_response] begins
    with the one of [responses]. *)
Definition is_mkdir (ev : event) : bool :=
  match ev with EMkdir _ => true | _ => false end.

(** The actions of a trace that announce a prompt, submit it (the typing
    and the presses of Enter) or record its response. *)
Definition is_mark (ev : event) : bool :=
  match ev with
  | EPrompt _ _ | EType _ _ | EPress _ | ESave _ => true
  | _ => false
  end.

Definition marks (t : trace) : trace := filter is_mark t.

Definition submit_marks (prompt : pystr) : trace :=
  [EType prompt 30; EPress "Enter"; EPress "Enter"; EPress "Enter"].

(** What exchange number [k] contributes for the pair [np]: the prompt
    is announced, submitted when the page lets it, and its record
    written when there is one. *)
Definition block (alnum_high : codepoint -> bool) (w : BatchWorld)
    (llm : Llm) (k : nat) (np : pystr * pystr) : trace :=
  EPrompt (fst np) (snd np)
    :: (if submits (page_at w k) then submit_marks (snd np) else [])
    ++ match record_at alnum_high w llm k np with
       | Some f => [ESave f]
       | None => []
       end.

(** The blocks of the pairs [l], one after the other; the first exchange
    is number [k]. *)
Fixpoint blocks (alnum_high : codepoint -> bool) (w : BatchWorld)
    (llm : Llm) (l : list (pystr * pystr)) (k : nat) : trace :=
  match l with
  | [] => []
  | np :: r =>
      block alnum_high w llm k np ++ blocks alnum_high w llm r (S k)
  end.

(** The records of the pairs [l], in order. *)
Fixpoint records (alnum_high : codepoint -> bool) (w : BatchWorld)
    (llm : Llm) (l : list (pystr * pystr)) (k : nat) : list SavedFile :=
  match l with
  | [] => []
  | np :: r =>
      match record_at alnum_high w llm k np with
      | Some f => f :: records alnum_high w llm r (S k)
      | None => records alnum_high w llm r (S k)
      end
  end.

(** The sink as a directory tree: a file is opened with ["w"], so that a
    write to a path that exists replaces the file.  [sink saves] lists
    the files left by the writes [saves], made in this order. *)
Fixpoint path_eqb (a b : list pystr) : bool :=
  match a, b with
  | [], [] => true
  | x :: a', y :: b' => pystr_eqb x y && path_eqb a' b'
  | _, _ => false
  end.

Definition same_path (f g : SavedFile) : bool :=
  path_eqb (sf_dir f) (sf_dir g) && pystr_eqb (sf_filename f) (sf_filename g).

Fixpoint sink_put (files : list SavedFile) (f : SavedFile)
  : list SavedFile :=
  match files with
  | [] => [f]
  | g :: r => if same_path g f then f :: r else g :: sink_put r f
  end.

Definition sink (saves : list SavedFile) : list SavedFile :=
  fold_left sink_put saves [].

(** What [save_response] does for the texts of a test, step by step: the
    directories are created, then the file is written unless the file
    system refuses or a text cannot be encoded. *)
Definition save_actions (alnum_high : codepoint -> bool) (io_fails : bool)
    (stamp iso llm_name prompt response : pystr)
    (honeypot_name : option pystr) : trace * result unit :=
  let f :=
    written_file alnum_high stamp iso llm_name prompt response
      honeypot_name in
  let dirs :=
    EMkdir [lit "responses"]
      :: (if truthy_opt honeypot_name then [EMkdir (sf_dir f)] else []) in
  if io_fails then (dirs, Raise (OSError "responses"))
  else if encodable (written_text llm_name prompt response honeypot_name)
       then (dirs ++ [ESave f], Ok tt)
       else (dirs, Raise (UnicodeEncodeError "write")).



(** A prompt source all of whose persona names and prompts can be
    encoded. *)
Definition encodable_source (honeypots : list (pystr * list pystr)) : bool :=
  forallb (fun hp => encodable (fst hp) && forallb encodable (snd hp))
    honeypots.

(** The actions [send_prompt] performs on the page. *)
Definition is_page_action (ev : event) : bool :=
  match ev with
  | EProbe _ _ | EClick _ | EType _ _ | EPress _ | EWait _
  | EInnerTextOfLast _ => true
  | _ => false
  end.

Definition record_of (f : SavedFile) : option pystr * pystr * pystr :=
  (sf_honeypot f, sf_prompt f, sf_response f).

(** ** Concrete inputs *)

(** A Unicode table in which nothing above U+00FF is alphanumeric. *)
Definition no_high_alnum : codepoint -> bool := fun _ => false.

(** The name "é" (U+00E9). *)
Definition name_e_acute : pystr := [233].

(** A frame whose text box is visible, and a page made of it whose
    response region holds the given texts. *)
Definition textbox_frame : Frame :=
  mkFrame 0 (fun q =>
    match q with
    | ByRole r => String.eqb r "textbox"
    | Css _ => false
    end).

Definition page_with (texts : list pystr) : Page :=
  mkPage textbox_frame [textbox_frame] false (fun _ => texts).

Definition plain_llm : Llm :=
  mkLlm (lit "demo") "https://chat.example/" None (Some 5000) (Some ".reply"%string).

(** A page whose only visible input is the one the provider's profile
    names, and that profile. *)
Definition hinted_frame : Frame :=
  mkFrame 0 (fun q =>
    match q with
    | Css s => String.eqb s "#chat-input"
    | ByRole _ => false
    end).

Definition hinted_page : Page :=
  mkPage hinted_frame [hinted_frame] false (fun _ => []).

Definition hinted_llm : Llm :=
  mkLlm (lit "demo") "https://chat.example/" (Some "#chat-input"%string)
    None None.

(** The response text "a" followed by the emoji U+1F600. *)
Definition text_a_emoji : pystr := [97; 128512].

(** A page on which no input is found, and the worlds of a test run in
    which the headless browser shows that page and the headful one a
    page with a response. *)
Definition blank_frame : Frame := mkFrame 0 (fun _ => false).

Definition blank_page : Page :=
  mkPage blank_frame [blank_frame] false (fun _ => []).

Definition escalating_world : TestWorld :=
  mkTestWorld true
    (fun headless =>
       mkBrowserWorld false false false false
         (if headless then blank_page else page_with [lit "Hello there"]))
    false (lit "20250101_120000") (lit "2025-01-01T12:00:00").

(** A batch world whose page never shows an input. *)
Definition silent_world : BatchWorld :=
  mkBatchWorld true false false (fun _ => blank_page) (fun _ => false)
    (fun _ => lit "20250101_120000") (fun _ => lit "2025-01-01T12:00:00").

Definition one_prompt : list (pystr * list pystr) :=
  [(lit "alice", [lit "Who is Alice?"])].

(** A saved record holds a non-empty, normalized response. *)
Definition normalized_record (f : SavedFile) : Prop :=
  truthy (sf_response f) = true
  /\ clean_text (sf_response f) = sf_response f.

(** What a piece of the batch loop that was to handle the (persona,
    prompt) pairs [l] from the state [st] has done: it went through the
    first [n] of them, and what it announced, submitted and recorded are
    their blocks, in order; the counters moved by one per exchange,
    unless the exchange ended on an exception of [save_response]; a
    piece that was not cut short went through all of [l]; no headful
    browser was launched. *)
Definition loop_inv (alnum_high : codepoint -> bool) (w : BatchWorld)
    (llm : Llm) (l : list (pystr * pystr)) (st : BatchState)
    (res : LoopResult) : Prop :=
  let '(t, st', e) := res in
  exists n : nat,
    (n <= List.length l)%nat
    /\ marks t = blocks alnum_high w llm (firstn n l) (sent st)
    /\ sent st' = (sent st + n)%nat
    /\ success_count st' = (success_count st + List.length (saves_of t))%nat
    /\ match e with
       | None =>
           n = List.length l
           /\ (success_count st' + failed_count st'
               = success_count st + failed_count st + n)%nat
       | Some x =>
           (x = UnicodeEncodeError "print"
            /\ (success_count st' + failed_count st'
                = success_count st + failed_count st + n)%nat)
           \/ (x <> UnicodeEncodeError "print"
               /\ (1 <= n)%nat
               /\ (success_count st' + failed_count st' + 1
                   = success_count st + failed_count st + n)%nat
               /\ exists np c r,
                    nth_error l (n - 1) = Some np
                    /\ reply (page_at w (sent st + n - 1)) llm = Some (c :: r)
                    /\ record_at alnum_high w llm (sent st + n - 1) np = None)
       end
    /\ existsb is_headful_launch t = false
    /\ Forall normalized_record (saves_of t).

(** A batch world whose page always answers and whose clock does not
    move, and a persona with two prompts. *)
Definition same_second_world : BatchWorld :=
  mkBatchWorld true false false (fun _ => page_with [lit "An answer."])
    (fun _ => false)
    (fun _ => lit "20250101_120000") (fun _ => lit "2025-01-01T12:00:00").

Definition two_prompts : list (pystr * list pystr) :=
  [(lit "alice", [lit "Who is Alice?"; lit "Where does Alice work?"])].

(** A batch world whose page always answers and whose clock moves by a
    second per exchange (the stamps are told apart by their length). *)
Definition ticking_world : BatchWorld :=
  mkBatchWorld true false false (fun _ => page_with [lit "An answer."])
    (fun _ => false)
    (fun k => lit "20250101_1200" ++ repeat 48 k)
    (fun _ => lit "2025-01-01T12:00:00").

(** A batch world whose page answers every second exchange, starting
    with the first, and a prompt source of two personas. *)
Definition replying_world : BatchWorld :=
  mkBatchWorld true false false
    (fun k => if Nat.even k then page_with [lit "An answer."] else blank_page)
    (fun _ => false)
    (fun _ => lit "20250101_120000") (fun _ => lit "2025-01-01T12:00:00").

Definition two_personas : list (pystr * list pystr) :=
  [ (lit "alice", [lit "Who is Alice?"; lit "Where does Alice work?"]);
    (lit "bob", [lit "Who is Bob?"]) ].

(** The three encodings of a prompt set [ps] (personas with their
    prompt lists, in order) that the prompt source may use: the mapping
    from persona to prompts, built key by key as the loader of the file
    does; the list of objects with "name" and "prompts"; and that list
    under the key "honeypots". *)
Definition json_prompts (l : list pystr) : json := JList (map JStr l).

Definition encode_mapping (ps : list (pystr * list pystr)) : json :=
  JDict (fold_left (fun d np => dict_set d (fst np) (json_prompts (snd np)))
           ps []).

Definition encode_entry (np : pystr * list pystr) : json :=
  JDict [ (lit "name", JStr (fst np));
          (lit "prompts", json_prompts (snd np)) ].

Definition encode_list (ps : list (pystr * list pystr)) : json :=
  JList (map encode_entry ps).

Definition encode_wrapped (ps : list (pystr * list pystr)) : json :=
  JDict [ (lit "honeypots", encode_list ps) ].

(** The [honeypots] list the three branches are to build for [ps]. *)
Definition canonical (ps : list (pystr * list pystr)) : list (json * json) :=
  map (fun np => (JStr (fst np), json_prompts (snd np))) ps.

(** A prompt set with one persona, named "honeypots". *)
Definition persona_named_honeypots : list (pystr * list pystr) :=
  [(lit "honeypots", [lit "hello"])].

(** ** Further vocabulary *)

(** The time [find_input] may spend waiting: the sum of the timeouts of
    its probes, in milliseconds. *)
Definition probe_timeouts (t : trace) : N :=
  fold_right (fun ev acc =>
    match ev with EProbe _ ms => ms + acc | _ => acc end) 0 t.

(** The characters a path component must not hold: NUL, ['.'], ['/'],
    [':'] and the backslash. *)
Definition path_special (c : codepoint) : bool :=
  (c =? 0) || (c =? 46) || (c =? 47) || (c =? 58) || (c =? 92).

(** The locators [find_input] probes for a plan: those of the plan up to
    and including the first visible one. *)
Fixpoint probes_until (plan : list (Frame * query)) : list Locator :=
  match plan with
  | [] => []
  | p :: rest =>
      locator_of p
        :: (if visible (fst p) (snd p) then [] else probes_until rest)
  end.

(** The locators probed, in the order of the trace. *)
Definition probed (t : trace) : list Locator :=
  flat_map (fun ev => match ev with EProbe l _ => [l] | _ => [] end) t.

(** A frame in which nothing is visible but a second one whose text box
    is, and the page made of a blank top-level document and that frame
    nested in it. *)
Definition nested_textbox_frame : Frame :=
  mkFrame 7 (fun q =>
    match q with
    | ByRole r => String.eqb r "textbox"
    | Css _ => false
    end).

Definition nested_page : Page :=
  mkPage blank_frame [blank_frame; nested_textbox_frame] false
    (fun _ => [lit "A reply."]).

(** The actions that close a context or a browser or stop the driver. *)
Definition is_teardown (ev : event) : bool :=
  match ev with
  | ECloseContext | ECloseBrowser | EStop => true
  | _ => false
  end.

(** A test world whose headless browser cannot be launched; the headful
    one would show a response. *)
Definition launch_failing_world : TestWorld :=
  mkTestWorld true
    (fun headless =>
       mkBrowserWorld headless false false false
         (page_with [lit "Hello there"]))
    false (lit "20250101_120000") (lit "2025-01-01T12:00:00").

(** A test world whose headless browser already shows a response. *)
Definition answering_world : TestWorld :=
  mkTestWorld true
    (fun _ => mkBrowserWorld false false false false
                (page_with [lit "Hello there"]))
    false (lit "20250101_120000") (lit "2025-01-01T12:00:00").

(** A batch world whose page always answers and whose file system
    refuses the write of the second exchange. *)
Definition full_disk_world : BatchWorld :=
  mkBatchWorld true false false (fun _ => page_with [lit "An answer."])
    (fun k => Nat.eqb k 1)
    (fun _ => lit "20250101_120000") (fun _ => lit "2025-01-01T12:00:00").

Definition is_dict (x : json) : bool :=
  match x with JDict _ => true | _ => false end.

(** A list source whose second entry has no name, and a wrapped source
    that carries a further key beside "honeypots". *)
Definition second_unnamed : list json :=
  [ encode_entry (lit "alice", [lit "Who is Alice?"]);
    JDict [ (lit "prompts", json_prompts [lit "Who is there?"]) ] ].

Definition wrapped_with_comment : list (pystr * json) :=
  [ (lit "comment", JStr (lit "first run"));
    (lit "honeypots", JList second_unnamed) ].

(** ** The command line *)

(** What leaves [main]: an exception of a run, the [KeyError] of the
    summary loop, the [FileNotFoundError] of opening the summary file
    under a directory [responses] that does not exist, or the refusal to
    write the summary file. *)
Inductive main_error :=
| RunError (e : exn)
| KeyError (key : string)
| ResponsesDirMissing
| SummaryWriteError.

(** How [main] ends on the commands [batch] and [batch-all]: with the
    message that no provider has the given name, with the message that
    the prompts file does not exist, with the summary written, or with
    an exception. *)
Inductive main_end :=
| NoProvider
| NoPromptsFile
| Saved (all_results : list Summary)
| Failed (e : main_error).

(** [if args.name: llms = [x for x in llms if x.get("name") == args.name]];
    [None] is the early return "No provider named ...". *)
Definition select_llms (name : option pystr) (llms : list Llm)
  : option (list Llm) :=
  match name with
  | Some n =>
      if truthy n
      then
        match filter (fun x => pystr_eqb (llm_name x) n) llms with
        | [] => None
        | x :: l => Some (x :: l)
        end
      else Some llms
  | None => Some llms
  end.

(** [for res in all_results: print(res['llm'])...]: the names printed,
    and whether the loop reached the end of the list. *)
Fixpoint print_summaries (results : list Summary) : list pystr * bool :=
  match results with
  | [] => ([], true)
  | s :: rest =>
      match s_llm s with
      | None => ([], false)
      | Some n => let (p, ok) := print_summaries rest in (n :: p, ok)
      end
  end.

(** [results[llm["name"]] = ok] *)
Fixpoint results_set (d : list (pystr * bool)) (k : pystr) (v : bool)
  : list (pystr * bool) :=
  match d with
  | [] => [(k, v)]
  | (k', v') :: r =>
      if pystr_eqb k' k then (k', v) :: r else (k', v') :: results_set r k v
  end.

Section Cli.

Variable alnum_high : codepoint -> bool.

(** [for llm in llms: result = await cmd_batch(...);
     all_results.append(result)]; provider number [i] (from 0) runs in
    the world [worlds i].  An exception of a run leaves the loop. *)
Fixpoint batch_all (worlds : nat -> BatchWorld) (i : nat) (llms : list Llm)
    (data : json) (delay : N) : option (M (list Summary)) :=
  match llms with
  | [] => Some (ret [])
  | llm :: rest =>
      match cmd_batch alnum_high (worlds i) llm data delay with
      | None => None
      | Some (t, Raise e) => Some (t, Raise e)
      | Some (t, Ok s) =>
          match batch_all worlds (S i) rest data delay with
          | None => None
          | Some (t', Raise e) => Some (t ++ t', Raise e)
          | Some (t', Ok l) => Some (t ++ t', Ok (s :: l))
          end
      end
  end.

(** The branch [batch] / [batch-all] of [main]: the actions on the
    browsers, the provider names the summary loop printed, and how
    [main] ended.  [prompts_exist]: the prompts file exists;
    [responses_dir]: the directory [responses] exists when [main]
    starts; [summary_write_fails]: the file system refuses the summary
    file.  [main] opens the summary file under [responses] without
    creating the directory: it is there at that point when it was there
    at the start or a call of [save_response] created it. *)
Definition main_batch (name : option pystr) (llms : list Llm)
    (prompts_exist responses_dir summary_write_fails : bool)
    (worlds : nat -> BatchWorld) (data : json) (delay : N)
  : option (trace * list pystr * main_end) :=
  match select_llms name llms with
  | None => Some ([], [], NoProvider)
  | Some sel =>
      if negb prompts_exist then Some ([], [], NoPromptsFile) else
      match batch_all worlds 0 sel data delay with
      | None => None
      | Some (t, Raise e) => Some (t, [], Failed (RunError e))
      | Some (t, Ok results) =>
          let (names, complete) := print_summaries results in
          if negb complete then Some (t, names, Failed (KeyError "llm"))
          else if negb (responses_dir || existsb is_mkdir t)
               then Some (t, names, Failed ResponsesDirMissing)
               else if summary_write_fails
                    then Some (t, names, Failed SummaryWriteError)
                    else Some (t, names, Saved results)
      end
  end.

(** [for llm in llms: ok = await cmd_test(...); results[llm["name"]] = ok]
    of the branch [test] / [test-all], from the dictionary [results]. *)
Fixpoint test_all (worlds : nat -> TestWorld) (i : nat) (llms : list Llm)
    (prompt : pystr) (save : bool) (results : list (pystr * bool))
  : M (list (pystr * bool)) :=
  match llms with
  | [] => ret results
  | llm :: rest =>
      ok <- cmd_test alnum_high (worlds i) llm prompt save None ;;
      test_all worlds (S i) rest prompt save
        (results_set results (llm_name llm) ok)
  end.

End Cli.

(** [working] and [failed] of the test summary. *)
Definition working (results : list (pystr * bool)) : list pystr :=
  map fst (filter (fun kv => snd kv) results).

Definition failed (results : list (pystr * bool)) : list pystr :=
  map fst (filter (fun kv => negb (snd kv)) results).

(** The providers of a run with the numbers of their worlds. *)
Definition numbered (i : nat) (llms : list Llm) : list (nat * Llm) :=
  combine (seq i (List.length llms)) llms.

(** Three providers, and batch worlds of which the second has no
    profile. *)
Definition three_llms : list Llm :=
  [ mkLlm (lit "alpha") "https://alpha.example/" None (Some 5000) None;
    mkLlm (lit "beta") "https://beta.example/" None (Some 5000) None;
    mkLlm (lit "gamma") "https://gamma.example/" None (Some 5000) None ].

Definition second_without_profile (i : nat) : BatchWorld :=
  mkBatchWorld (negb (Nat.eqb i 1)) false false
    (fun _ => page_with [lit "An answer."]) (fun _ => false)
    (fun _ => lit "20250101_120000") (fun _ => lit "2025-01-01T12:00:00").

(** Batch worlds of which the second cannot launch its browser. *)
Definition second_cannot_launch (i : nat) : BatchWorld :=
  mkBatchWorld true (Nat.eqb i 1) false
    (fun _ => page_with [lit "An answer."]) (fun _ => false)
    (fun _ => lit "20250101_120000") (fun _ => lit "2025-01-01T12:00:00").

(** The launches of a persistent browser in a trace: one per provider
    whose batch got as far as the browser. *)
Definition is_persistent_launch (ev : event) : bool :=
  match ev with ELaunchPersistent _ => true | _ => false end.

Definition persistent_launches (t : trace) : nat :=
  List.length (filter is_persistent_launch t).

(** What the summary of provider number [i] says of the provider: its
    name when the profile exists, nothing when it does not. *)
Definition summary_name (worlds : nat -> BatchWorld) (p : nat * Llm)
  : option pystr :=
  if profile_exists (worlds (fst p)) then Some (llm_name (snd p)) else None.

(** A test world in which neither browser finds an input, two providers
    of the same name, and the worlds in which the first of them is
    answered and the second is not. *)
Definition mute_world : TestWorld :=
  mkTestWorld true
    (fun _ => mkBrowserWorld false false false false blank_page)
    false (lit "20250101_120000") (lit "2025-01-01T12:00:00").

Definition twin_llms : list Llm := [plain_llm; plain_llm].

Definition first_answers (i : nat) : TestWorld :=
  if Nat.eqb i 0 then answering_world else mute_world.

(** ** The prompt generator, [generate_prompts.py] *)

(** [s.replace(old, new)] for a non-empty [old]: the occurrences of
    [old] are replaced from the left, without overlap.  [skip] counts
    the characters of a replaced occurrence still to pass over. *)
Fixpoint replace_from (old new s : pystr) (skip : nat) : pystr :=
  match s with
  | [] => []
  | c :: r =>
      match skip with
      | S k => replace_from old new r k
      | O =>
          if is_prefix old s
          then new ++ replace_from old new r (List.length old - 1)
          else c :: replace_from old new r 0
      end
  end.

Definition py_replace (old new s : pystr) : pystr := replace_from old new s 0.

(** An entry of the list [researchers]. *)
Record Researcher := mkResearcher {
  r_name : pystr;
  r_work : pystr;
  r_institute : pystr;
  r_group : pystr
}.

Section Generate.

(** [str.lower] of the Unicode database. *)
Variable lower : pystr -> pystr.

(** [f"persona_{researcher['name'].lower().replace(' ', '_')
                                          .replace('-', '_')}"] *)
Definition persona_key (r : Researcher) : pystr :=
  lit "persona_"
    ++ py_replace [HYPHEN] [UNDERSCORE]
         (py_replace [SPACE] [UNDERSCORE] (lower (r_name r))).

(** The three replacements that fill a template, in the order of the
    script. *)
Definition fill (template : pystr) (r : Researcher) : pystr :=
  py_replace (lit "{I}") (r_institute r)
    (py_replace (lit "{Y}") (r_work r)
       (py_replace (lit "{X}") (r_name r) template)).

(** The list [prompts] of one researcher. *)
Definition prompts_for (templates : list pystr) (r : Researcher)
  : list pystr :=
  map (fun template => fill template r) templates.

(** The (key, prompts) assignments of the loop, in order. *)
Definition persona_entries (templates : list pystr)
    (researchers : list Researcher) : list (pystr * list pystr) :=
  map (fun r => (persona_key r, prompts_for templates r)) researchers.

(** [prompts_by_persona] as written to [prompts.json] and read back: the
    dictionary built by [prompts_by_persona[persona_key] = prompts]. *)
Definition prompts_by_persona (templates : list pystr)
    (researchers : list Researcher) : json :=
  encode_mapping (persona_entries templates researchers).

(** [len(researchers) * len(templates)], the total the script prints. *)
Definition printed_total (templates : list pystr)
    (researchers : list Researcher) : nat :=
  (List.length researchers * List.length templates)%nat.

End Generate.

(** ASCII lowering, enough for names without other letters. *)
Definition ascii_lower (s : pystr) : pystr :=
  map (fun c => if (65 <=? c) && (c <=? 90) then c + 32 else c) s.

Definition two_researchers : list Researcher :=
  [ mkResearcher (lit "Kiran Schmidt-Hus") (lit "Responsible AI")
      (lit "Embedded Institute") (lit "robots.txt 2nd");
    mkResearcher (lit "Allira Lu") (lit "AI and Art")
      (lit "Embedded Institute") (lit "meta") ].

Definition two_templates : list pystr :=
  [ lit "Who is {X}, a researcher working at {I} working on {Y}?";
    lit "Who is {X}, working at the {I} ?" ].

(** ** The selector setup, [setup_cookies.py] *)

(** What stops [save_cookies_for_llm] before it returns: a missing key
    of the provider entry, a [print] of a text that cannot be encoded,
    or the end of the operator's input. *)
Inductive setup_error :=
| SetupKeyError (key : pystr)
| SetupEncodeError
| EOFError.

Inductive outcome (A : Type) :=
| Done (a : A)
| Stopped (e : setup_error).
Arguments Done {A} a.
Arguments Stopped {A} e.

(** What the page answers at one moment: [waits_for s] tells that
    [page.wait_for_selector(s)] returns an element within its timeout,
    [has s] that [page.query_selector(s)] returns one. *)
Record SetupPage := mkSetupPage {
  waits_for : pystr -> bool;
  has : pystr -> bool
}.

(** The dictionary [results] of [test_selectors]. *)
Record SelectorResults := mkSelectorResults {
  res_input : bool;
  res_submit : bool;
  res_response : bool
}.

(** One of the three [try] blocks of [test_selectors], for the key
    [key]; [probe] is the call on the page.  Every path through the
    block prints [llm_config[key]], and the handler is a bare [except]
    that reads the key again.  So a missing key raises [KeyError] in
    the [try] and again in the handler, which lets it escape; a
    selector that cannot be encoded makes the print raise, in the [try]
    or in the handler, and escapes as well; a value that is not a string
    makes the call on the page raise, and the handler prints it: the
    test fails. *)
Definition selector_test (probe : pystr -> bool) (cfg : list (pystr * json))
    (key : pystr) : outcome bool :=
  match dict_get cfg key with
  | None => Stopped (SetupKeyError key)
  | Some (JStr s) =>
      if encodable s then Done (probe s) else Stopped SetupEncodeError
  | Some _ => Done false
  end.

(** [test_selectors]: the three tests in the order input, submit,
    response; the first that raises ends the function. *)
Definition test_selectors (p : SetupPage) (cfg : list (pystr * json))
  : outcome SelectorResults :=
  match selector_test (waits_for p) cfg (lit "input_selector") with
  | Stopped e => Stopped e
  | Done i =>
  match selector_test (waits_for p) cfg (lit "submit_selector") with
  | Stopped e => Stopped e
  | Done s =>
  match selector_test (has p) cfg (lit "response_selector") with
  | Stopped e => Stopped e
  | Done r => Done (mkSelectorResults i s r)
  end end end.

(** [all(results.values())] and [sum(results.values())] *)
Definition all_work (r : SelectorResults) : bool :=
  res_input r && res_submit r && res_response r.

Definition score (r : SelectorResults) : nat :=
  (Nat.b2n (res_input r) + Nat.b2n (res_submit r)
   + Nat.b2n (res_response r))%nat.

Inductive selector_type := SInput | SSubmit | SResponse.

(** [pre"val"post], for the selectors that hold double quotes. *)
Definition attr (pre val post : string) : pystr :=
  lit pre ++ 34 :: lit val ++ 34 :: lit post.

(** The lists [common] of [find_selector_interactive]. *)
Definition common (k : selector_type) : list pystr :=
  match k with
  | SInput =>
      [ lit "textarea"; attr "input[type=" "text" "]";
        attr "div[contenteditable=" "true" "]";
        attr "[placeholder*=" "Ask" "]"; attr "[placeholder*=" "ask" "]";
        attr "[aria-label*=" "message" "]";
        attr "[aria-label*=" "Message" "]"; lit ".input-box";
        lit "#prompt-textarea"; lit ".ql-editor" ]
  | SSubmit =>
      [ attr "button[type=" "submit" "]";
        attr "button[aria-label*=" "Send" "]";
        attr "button[aria-label*=" "Submit" "]";
        attr "button:has-text(" "Send" ")";
        attr "[data-testid=" "send-button" "]"; lit ".send-button";
        attr "[aria-label*=" "send" "]" ]
  | SResponse =>
      [ lit ".markdown"; lit ".message"; lit ".response"; lit ".answer";
        attr "[class*=" "message" "]"; attr "[class*=" "response" "]";
        attr "[class*=" "answer" "]"; lit ".prose"; lit "article" ]
  end.

(** [find_selector_interactive]: the operator's choice, the scan of the
    common selectors on choice 2, then the selector typed by hand;
    [inputs] are the lines the operator will type. *)
Definition find_selector_interactive (p : SetupPage) (k : selector_type)
    (inputs : list pystr) : outcome (option pystr * list pystr) :=
  match inputs with
  | [] => Stopped EOFError
  | line :: rest =>
      match (if pystr_eqb (strip line) (lit "2")
             then find (waits_for p) (common k) else None) with
      | Some s => Done (Some s, rest)
      | None =>
          match rest with
          | [] => Stopped EOFError
          | manual :: rest' =>
              Done ((if truthy (strip manual) then Some (strip manual)
                     else None), rest')
          end
      end
  end.

(** [llm_config.update(new_config)] *)
Definition dict_update (d n : list (pystr * json)) : list (pystr * json) :=
  fold_left (fun acc kv => dict_set acc (fst kv) (snd kv)) n d.

(** One of the three blocks [if not test_results[...]] of
    [save_cookies_for_llm]: the current selector is printed, a new one
    is asked for, and [new_config] takes it when there is one. *)
Definition fix_one (p : SetupPage) (k : selector_type) (key : pystr)
    (works : bool) (cfg new_config : list (pystr * json))
    (inputs : list pystr) : outcome (list (pystr * json) * list pystr) :=
  if works then Done (new_config, inputs) else
  match dict_get cfg key with
  | None => Stopped (SetupKeyError key)
  | Some _ =>
      match find_selector_interactive p k inputs with
      | Stopped e => Stopped e
      | Done (Some s, rest) => Done (dict_set new_config key (JStr s), rest)
      | Done (None, rest) => Done (new_config, rest)
      end
  end.

(** The pages of one setup: at the first test of the selectors, during
    the scan for each kind of selector, and at the second test. *)
Record SetupWorld := mkSetupWorld {
  first_test : SetupPage;
  scan_page : selector_type -> SetupPage;
  second_test : SetupPage
}.

Section Setup.

(** [str.lower] of the Unicode database. *)
Variable lower : pystr -> pystr.

(** [save_cookies_for_llm], as a function of the provider entry: the
    entry it returns and the input left.  The URL is printed before the
    navigation, whose exceptions are caught.  The browser calls outside
    the selector tests (launch, saving the cookies, closing) are taken
    to succeed, and the provider's name, which the banner and the last
    message print, to be a string that can be encoded. *)
Definition save_cookies_for_llm (w : SetupWorld) (cfg : list (pystr * json))
    (inputs : list pystr) : outcome (list (pystr * json) * list pystr) :=
  match dict_get cfg (lit "url") with
  | None => Stopped (SetupKeyError (lit "url"))
  | Some url =>
  if match url with JStr u => negb (encodable u) | _ => false end
  then Stopped SetupEncodeError else
  match inputs with
  | [] => Stopped EOFError
  | _ :: inputs1 =>
  match test_selectors (first_test w) cfg with
  | Stopped e => Stopped e
  | Done test_results =>
  if all_work test_results then Done (cfg, inputs1) else
  match inputs1 with
  | [] => Stopped EOFError
  | line :: inputs2 =>
  if negb (pystr_eqb (lower (strip line)) (lit "y"))
  then Done (cfg, inputs2) else
  match fix_one (scan_page w SInput) SInput (lit "input_selector")
          (res_input test_results) cfg cfg inputs2 with
  | Stopped e => Stopped e
  | Done (new1, inputs3) =>
  match fix_one (scan_page w SSubmit) SSubmit (lit "submit_selector")
          (res_submit test_results) cfg new1 inputs3 with
  | Stopped e => Stopped e
  | Done (new2, inputs4) =>
  match fix_one (scan_page w SResponse) SResponse (lit "response_selector")
          (res_response test_results) cfg new2 inputs4 with
  | Stopped e => Stopped e
  | Done (new_config, inputs5) =>
      match test_selectors (second_test w) new_config with
      | Stopped e => Stopped e
      | Done new_results =>
          if Nat.ltb (score test_results) (score new_results)
          then Done (dict_update cfg new_config, inputs5)
          else Done (cfg, inputs5)
      end
  end end end end end end end.

End Setup.

(** A provider entry whose input selector is out of date, a page on
    which a text area and the two other selectors of the entry work, and
    an operator who asks for the automatic scan. *)
Definition stale_entry : list (pystr * json) :=
  [ (lit "name", JStr (lit "demo"));
    (lit "url", JStr (lit "https://chat.example/"));
    (lit "input_selector", JStr (lit "#old-input"));
    (lit "submit_selector", JStr (lit "button.send"));
    (lit "response_selector", JStr (lit ".reply")) ].

Definition textarea_page : SetupPage :=
  mkSetupPage
    (fun s => pystr_eqb s (lit "textarea") || pystr_eqb s (lit "button.send"))
    (fun s => pystr_eqb s (lit ".reply")).

Definition textarea_world : SetupWorld :=
  mkSetupWorld textarea_page (fun _ => textarea_page) textarea_page.

Definition scan_inputs : list pystr := [lit ""; lit "y"; lit "2"].

(** The entry without its submit selector. *)
Definition entry_without_submit : list (pystr * json) :=
  [ (lit "name", JStr (lit "demo"));
    (lit "url", JStr (lit "https://chat.example/"));
    (lit "input_selector", JStr (lit "textarea"));
    (lit "response_selector", JStr (lit ".reply")) ].

(** [nc] is a dictionary with distinct keys that has every key of [cfg]
    and agrees with [cfg] outside the keys [keys]. *)
Definition agree_off (keys : list pystr) (cfg nc : list (pystr * json))
  : Prop :=
  NoDup (map fst nc)
  /\ (forall k, dict_get nc k = None -> dict_get cfg k = None)
  /\ (forall k, ~ In k keys -> dict_get nc k = dict_get cfg k).

(** ** The setup commands of [main] *)

(** A provider entry of [config.yaml] as the setup commands see it: the
    keys the runner reads, and the key "profile_dir" that [cmd_setup]
    adds. *)
Record ConfigEntry := mkEntry {
  ce_llm : Llm;
  ce_profile_dir : option pystr
}.

(** What happens during one [cmd_setup]: whether the launch raises,
    whether the navigation raises, and whether a later step of the [try]
    block does (waiting for the operator, saving the storage state,
    reading the cookies and the local storage). *)
Record SetupRun := mkSetupRun {
  sr_launch_raises : bool;
  sr_goto_raises : bool;
  sr_login_raises : bool
}.

Section SetupCli.

Variable alnum_high : codepoint -> bool.

(** [absolute p] is [str(Path(p).absolute())]: the text of the path
    [p] made absolute from the current directory, in the form and with
    the separators of the platform. *)
Variable absolute : pystr -> pystr.

(** [str(Path(f"profiles/{sanitize_name(name)}").absolute())] *)
Definition profile_path (name : pystr) : pystr :=
  absolute (lit "profiles/" ++ sanitize_name alnum_high name).

(** [cmd_setup]: the banner prints the name and the profile directory,
    taken to be printable; the persistent browser is launched headful;
    the [try] block navigates, waits for the operator, saves the storage state,
    prints the cookies and the keys of the local storage, and returns
    [{**llm, "profile_dir": str(profile_dir)}]; the [finally] block
    waits, closes the context and stops the driver. *)
Definition cmd_setup (w : SetupRun) (e : ConfigEntry) : M ConfigEntry :=
  step (ELaunchPersistent false) (sr_launch_raises w) "launch_persistent" ;;;
  emit ENewPage ;;;
  try_finally
    (step (EGoto (llm_url (ce_llm e))) (sr_goto_raises w) "goto" ;;;
     (if sr_login_raises w then raise (BrowserError "storage_state")
      else ret tt) ;;;
     ret (mkEntry (ce_llm e)
            (Some (profile_path (llm_name (ce_llm e))))))
    (emit (EWait 2000) ;;; emit ECloseContext ;;; emit EStop).

(** [for llm in llms: result = await cmd_setup(llm);
     updated.append(result)] *)
Fixpoint setup_all (worlds : nat -> SetupRun) (i : nat)
    (llms : list ConfigEntry) : M (list ConfigEntry) :=
  match llms with
  | [] => ret []
  | e :: rest =>
      result <- cmd_setup (worlds i) e ;;
      updated <- setup_all worlds (S i) rest ;;
      ret (result :: updated)
  end.

(** The branch [setup] / [setup-all] of [main]: [Some updated] is the
    list written to the configuration file under "playwright_llms",
    [None] the early return "No provider named ...". *)
Definition main_setup (name : option pystr) (llms : list ConfigEntry)
    (worlds : nat -> SetupRun) : M (option (list ConfigEntry)) :=
  let selected :=
    match name with
    | Some n =>
        if truthy n
        then
          match filter (fun x => pystr_eqb (llm_name (ce_llm x)) n) llms with
          | [] => None
          | x :: l => Some (x :: l)
          end
        else Some llms
    | None => Some llms
    end in
  match selected with
  | None => ret None
  | Some sel => updated <- setup_all worlds 0 sel ;; ret (Some updated)
  end.

End SetupCli.

(** The actions that stop the driver. *)
Definition stops (t : trace) : nat :=
  List.length
    (filter (fun ev => match ev with EStop => true | _ => false end) t).

(** A configuration of three providers, none set up yet, and setup runs
    in which the browser never fails. *)
Definition three_entries : list ConfigEntry :=
  map (fun l => mkEntry l None) three_llms.

Definition smooth_setup (i : nat) : SetupRun := mkSetupRun false false false.

(** [str(Path(p).absolute())] on a POSIX system whose current directory
    is [/home/lab], for a relative path [p] in normal form (separated
    by single slashes, with no empty component and none that is a
    dot). *)
Definition lab_absolute (p : pystr) : pystr := lit "/home/lab/" ++ p.

(** The entry of the provider "beta" once set up from [/home/lab]. *)
Definition beta_done : ConfigEntry :=
  mkEntry (mkLlm (lit "beta") "https://beta.example/" None (Some 5000) None)
    (Some (lit "/home/lab/profiles/beta")).

(** * Properties *)

(** ** Whitespace and trimming *)

Lemma isspace_SPACE : isspace SPACE = true.
Proof. reflexivity. Qed.

Lemma is_ascii_SPACE : is_ascii SPACE = true.
Proof. reflexivity. Qed.

Lemma lstrip_app (a b : pystr) :
  lstrip (a ++ b) =
  match lstrip a with [] => lstrip b | _ :: _ => lstrip a ++ b end.
Proof.
  induction a as [|c a IH]; simpl.
  - reflexivity.
  - destruct (isspace c); [exact IH | reflexivity].
Qed.

(** [rstrip] read from the left. *)
Lemma rstrip_cons (c : codepoint) (x : pystr) :
  rstrip (c :: x) =
  match rstrip x with
  | [] => if isspace c then [] else [c]
  | y :: ys => c :: y :: ys
  end.
Proof.
  unfold rstrip. simpl rev. rewrite lstrip_app.
  destruct (lstrip (rev x)) as [|z zs] eqn:E.
  - simpl. destruct (isspace c); reflexivity.
  - rewrite rev_app_distr. change (rev [c]) with [c].
    remember (rev (z :: zs)) as q eqn:R. destruct q as [|y ys].
    + apply (f_equal (@List.length _)) in R.
      rewrite length_rev in R. discriminate.
    + reflexivity.
Qed.

Lemma rstrip_nil : rstrip [] = [].
Proof. reflexivity. Qed.

Lemma rstrip_cons_nonspace (c : codepoint) (x : pystr) :
  isspace c = false -> rstrip (c :: x) = c :: rstrip x.
Proof.
  intros H. rewrite rstrip_cons, H. destruct (rstrip x); reflexivity.
Qed.

(** ** [re.sub(r'\s+', ' ', text)] *)

Lemma sub_ws_true_lstrip (t : pystr) : sub_ws true t = sub_ws false (lstrip t).
Proof.
  induction t as [|c r IH]; simpl.
  - reflexivity.
  - destruct (isspace c) eqn:E.
    + exact IH.
    + simpl. rewrite E. reflexivity.
Qed.

Lemma lstrip_sub_ws_true (t : pystr) : lstrip (sub_ws true t) = sub_ws true t.
Proof.
  induction t as [|c r IH]; simpl.
  - reflexivity.
  - destruct (isspace c) eqn:E.
    + exact IH.
    + simpl. rewrite E. reflexivity.
Qed.

Lemma lstrip_collapse (t : pystr) : lstrip (collapse_ws t) = sub_ws true t.
Proof.
  unfold collapse_ws. destruct t as [|c r]; simpl.
  - reflexivity.
  - destruct (isspace c) eqn:E.
    + simpl. apply lstrip_sub_ws_true.
    + simpl. rewrite E. reflexivity.
Qed.

(** ** Words *)

Lemma spec_words_cons_nonspace (c : codepoint) (r : pystr) :
  isspace c = false -> spec_words (c :: r) <> [].
Proof.
  intros H. simpl. rewrite H.
  destruct r as [|d r']; [discriminate|].
  destruct (isspace d); [discriminate|].
  destruct (spec_words (d :: r')); discriminate.
Qed.

Lemma spec_words_are_words (s : pystr) : Forall is_word (spec_words s).
Proof.
  induction s as [|c r IH]; simpl.
  - constructor.
  - destruct (isspace c) eqn:E; [exact IH|].
    assert (Hc : is_word [c]).
    { split; [discriminate | constructor; [exact E | constructor]]. }
    destruct r as [|d r'].
    + constructor; [exact Hc | constructor].
    + destruct (isspace d) eqn:Ed.
      * constructor; [exact Hc | exact IH].
      * destruct (spec_words (d :: r')) as [|w ws] eqn:W.
        -- constructor; [exact Hc | constructor].
        -- inversion IH as [|? ? [Hne Hw] Hws]; subst.
           constructor; [|exact Hws].
           split; [discriminate | constructor; assumption].
Qed.

Lemma spec_join_nil_inv (ws : list pystr) :
  Forall is_word ws -> spec_join ws = [] -> ws = [].
Proof.
  destruct ws as [|w rest]; [reflexivity|].
  intros H J. inversion H as [|? ? [Hne _] _]; subst.
  simpl in J. destruct rest.
  - contradiction.
  - destruct w; [contradiction | discriminate].
Qed.

Lemma spec_join_cons_char (c : codepoint) (w : pystr) (ws : list pystr) :
  spec_join ((c :: w) :: ws) = c :: spec_join (w :: ws).
Proof. simpl. destruct ws; reflexivity. Qed.

(** Trimming the collapsed text leaves the words joined by single
    spaces. *)
Lemma rstrip_sub_ws_words (t : pystr) :
  rstrip (sub_ws true t) = spec_join (spec_words t).
Proof.
  induction t as [|c r IH].
  - reflexivity.
  - cbn [sub_ws spec_words]. destruct (isspace c) eqn:E; [exact IH|].
    rewrite (rstrip_cons_nonspace _ _ E).
    destruct r as [|d r'].
    + reflexivity.
    + cbn [sub_ws] in *. destruct (isspace d) eqn:Ed.
      * rewrite rstrip_cons, IH, isspace_SPACE.
        pose proof (spec_words_are_words (d :: r')) as HW.
        destruct (spec_join (spec_words (d :: r'))) as [|y ys] eqn:J.
        -- apply spec_join_nil_inv in J; [|exact HW]. rewrite J. reflexivity.
        -- destruct (spec_words (d :: r')) as [|w ws] eqn:W.
           ++ discriminate.
           ++ cbn [spec_join app]. rewrite <- J. reflexivity.
      * rewrite (rstrip_cons_nonspace _ _ Ed) in *.
        pose proof (spec_words_cons_nonspace d r' Ed) as Hne.
        destruct (spec_words (d :: r')) as [|w ws] eqn:W; [contradiction|].
        rewrite spec_join_cons_char. f_equal. exact IH.
Qed.

Lemma strip_collapse_words (t : pystr) :
  strip (collapse_ws t) = spec_join (spec_words t).
Proof.
  unfold strip. rewrite lstrip_collapse. apply rstrip_sub_ws_words.
Qed.

Lemma spec_words_all (P : codepoint -> Prop) (s : pystr) :
  Forall P s -> Forall (Forall P) (spec_words s).
Proof.
  induction s as [|c r IH]; intros H.
  - constructor.
  - inversion H as [|? ? Hc Hr]; subst. specialize (IH Hr).
    cbn [spec_words]. destruct (isspace c); [exact IH|].
    assert (H1 : Forall P [c]) by (constructor; [exact Hc | constructor]).
    destruct r as [|d r'].
    + constructor; [exact H1 | constructor].
    + destruct (isspace d).
      * constructor; [exact H1 | exact IH].
      * destruct (spec_words (d :: r')) as [|w ws].
        -- constructor; [exact H1 | constructor].
        -- inversion IH; subst. constructor; [constructor|]; assumption.
Qed.

Lemma spec_join_all (P : codepoint -> Prop) (ws : list pystr) :
  P SPACE -> Forall (Forall P) ws -> Forall P (spec_join ws).
Proof.
  intros HS. induction ws as [|w rest IH]; intros H.
  - constructor.
  - inversion H as [|? ? Hw Hrest]; subst. cbn [spec_join].
    destruct rest as [|w' rest'].
    + exact Hw.
    + apply Forall_app. split; [exact Hw|].
      constructor; [exact HS | exact (IH Hrest)].
Qed.

Lemma spec_words_of_word (w : pystr) : is_word w -> spec_words w = [w].
Proof.
  induction w as [|c w IH]; intros [Hne HF].
  - contradiction.
  - inversion HF as [|? ? Hc Hw]; subst.
    destruct w as [|d w'].
    + cbn [spec_words]. rewrite Hc. reflexivity.
    + assert (Hd : isspace d = false) by (inversion Hw; assumption).
      assert (E : spec_words (d :: w') = [d :: w']).
      { apply IH. split; [discriminate | exact Hw]. }
      change (spec_words (c :: d :: w')) with
        (if isspace c then spec_words (d :: w')
         else if isspace d then [c] :: spec_words (d :: w')
              else match spec_words (d :: w') with
                   | w :: ws => (c :: w) :: ws
                   | [] => [[c]]
                   end).
      rewrite Hc, Hd, E. reflexivity.
Qed.

Lemma spec_words_word_sep (w rest : pystr) :
  is_word w -> spec_words (w ++ SPACE :: rest) = w :: spec_words rest.
Proof.
  induction w as [|c w IH]; intros [Hne HF].
  - contradiction.
  - inversion HF as [|? ? Hc Hw]; subst.
    destruct w as [|d w'].
    + cbn [app spec_words]. rewrite Hc, isspace_SPACE. reflexivity.
    + assert (Hd : isspace d = false) by (inversion Hw; assumption).
      assert (E : spec_words ((d :: w') ++ SPACE :: rest)
                  = (d :: w') :: spec_words rest).
      { apply IH. split; [discriminate | exact Hw]. }
      change (spec_words ((c :: d :: w') ++ SPACE :: rest)) with
        (if isspace c then spec_words ((d :: w') ++ SPACE :: rest)
         else if isspace d then [c] :: spec_words ((d :: w') ++ SPACE :: rest)
              else match spec_words ((d :: w') ++ SPACE :: rest) with
                   | w :: ws => (c :: w) :: ws
                   | [] => [[c]]
                   end).
      rewrite Hc, Hd, E. reflexivity.
Qed.

(** Splitting joined words gives the words back. *)
Lemma spec_words_join (ws : list pystr) :
  Forall is_word ws -> spec_words (spec_join ws) = ws.
Proof.
  induction ws as [|w rest IH]; intros H.
  - reflexivity.
  - inversion H as [|? ? Hw Hrest]; subst. cbn [spec_join].
    destruct rest as [|w' rest'].
    + apply spec_words_of_word. exact Hw.
    + rewrite (spec_words_word_sep _ _ Hw). f_equal. exact (IH Hrest).
Qed.

(** ** [clean_text] *)

Lemma filter_all_true {A} (f : A -> bool) (l : list A) :
  Forall (fun a => f a = true) l -> filter f l = l.
Proof.
  induction 1 as [|a l Ha _ IH]; simpl.
  - reflexivity.
  - rewrite Ha, IH. reflexivity.
Qed.

Lemma astral_not_ascii (c : codepoint) :
  in_range 65536 1114111 c = true -> is_ascii c = false.
Proof.
  unfold in_range, is_ascii. intros H.
  apply andb_true_iff in H. destruct H as [H _].
  apply N.leb_le in H. apply N.leb_gt. lia.
Qed.

Lemma remove_non_ascii_astral (text : pystr) :
  remove_non_ascii (remove_astral text) = filter is_ascii text.
Proof.
  unfold remove_non_ascii, remove_astral.
  induction text as [|c r IH]; simpl.
  - reflexivity.
  - destruct (in_range 65536 1114111 c) eqn:E; simpl.
    + rewrite (astral_not_ascii _ E). exact IH.
    + rewrite IH. reflexivity.
Qed.

(** The code computes the specification's normalization. *)
Lemma clean_text_spec (text : pystr) : clean_text text = spec_normalize text.
Proof.
  unfold clean_text, spec_normalize.
  rewrite strip_collapse_words, remove_non_ascii_astral. reflexivity.
Qed.

Lemma filter_is_ascii_all (text : pystr) :
  Forall (fun c => is_ascii c = true) (filter is_ascii text).
Proof.
  apply Forall_forall. intros c H. apply filter_In in H. tauto.
Qed.

Lemma clean_text_ascii (text : pystr) :
  Forall (fun c => is_ascii c = true) (clean_text text).
Proof.
  rewrite clean_text_spec. unfold spec_normalize.
  apply spec_join_all; [reflexivity|].
  apply spec_words_all, filter_is_ascii_all.
Qed.

Lemma clean_text_idem (text : pystr) :
  clean_text (clean_text text) = clean_text text.
Proof.
  rewrite (clean_text_spec (clean_text text)). unfold spec_normalize.
  rewrite (filter_all_true _ _ (clean_text_ascii text)).
  rewrite clean_text_spec. unfold spec_normalize.
  rewrite spec_words_join; [reflexivity | apply spec_words_are_words].
Qed.

(** C4.  [clean_text] strips every code point that is not ASCII (emoji
    included), turns every run of whitespace into one space and trims
    both edges: its result is the words of the ASCII part of the text
    joined by single spaces, all of it ASCII; and on the specification's
    example it returns exactly "Hi there now". *)
Theorem clean_text_normalizes :
  (forall text : pystr,
      clean_text text = spec_join (spec_words (filter is_ascii text))
      /\ Forall (fun c => is_ascii c = true) (clean_text text))
  /\ clean_text example_response = lit "Hi there now".
Proof.
  split.
  - intros text. split.
    + exact (clean_text_spec text).
    + exact (clean_text_ascii text).
  - reflexivity.
Qed.

(** C8.  Normalization is idempotent:
    [clean_text (clean_text s) = clean_text s] for every string [s]. *)
Theorem clean_text_idempotent (s : pystr) :
  clean_text (clean_text s) = clean_text s.
Proof. exact (clean_text_idem s). Qed.

(** ** [sanitize_name] *)

Lemma sanitize_char_kept (alnum_high : codepoint -> bool) (c : codepoint) :
  sanitize_char alnum_high c = if kept alnum_high c then c else UNDERSCORE.
Proof.
  unfold sanitize_char, kept. rewrite orb_assoc. reflexivity.
Qed.

Lemma kept_sanitize_char (alnum_high : codepoint -> bool) (c : codepoint) :
  kept alnum_high (sanitize_char alnum_high c) = true.
Proof.
  rewrite sanitize_char_kept. destruct (kept alnum_high c) eqn:E.
  - exact E.
  - unfold kept. rewrite N.eqb_refl. apply orb_true_r.
Qed.

Lemma kept_ascii_safe (alnum_high : codepoint -> bool) (c : codepoint) :
  is_ascii c = true -> kept alnum_high c = true -> ascii_safe c = true.
Proof.
  unfold is_ascii, kept, ascii_safe, isalnum. intros H. rewrite H. trivial.
Qed.

(** C10, as the code has it.  [sanitize_name] keeps the length; it
    leaves in place the characters that are alphanumeric for Python
    ([str.isalnum], which holds of letters and digits outside ASCII too),
    ['-'] and ['_'], and puts ['_'] in place of every other one; every
    ASCII character of the result is an ASCII alphanumeric, ['-'] or
    ['_'], so no path separator occurs in it. *)
Theorem sanitize_name_keeps_alnum (alnum_high : codepoint -> bool)
    (name : pystr) :
  List.length (sanitize_name alnum_high name) = List.length name
  /\ sanitize_name alnum_high name
     = map (fun c => if kept alnum_high c then c else UNDERSCORE) name
  /\ Forall (fun c => kept alnum_high c = true) (sanitize_name alnum_high name)
  /\ Forall (fun c => is_ascii c = true -> ascii_safe c = true)
       (sanitize_name alnum_high name).
Proof.
  unfold sanitize_name. repeat split.
  - apply length_map.
  - apply map_ext. intros c. apply sanitize_char_kept.
  - apply Forall_map, Forall_forall. intros c _. apply kept_sanitize_char.
  - apply Forall_map, Forall_forall. intros c _ H.
    exact (kept_ascii_safe alnum_high _ H (kept_sanitize_char alnum_high c)).
Qed.

(** C10 as stated fails: "é" is alphanumeric for Python, so
    [sanitize_name] returns it unchanged, and it is not an ASCII
    alphanumeric, ['-'] or ['_']. *)
Lemma sanitize_name_keeps_e_acute :
  sanitize_name no_high_alnum name_e_acute = name_e_acute
  /\ forallb ascii_safe (sanitize_name no_high_alnum name_e_acute) = false.
Proof. split; reflexivity. Qed.

(** ** The element locator *)

Lemma find_app_first {A} (f : A -> bool) (a b : list A) :
  find f (a ++ b) = match find f a with Some x => Some x | None => find f b end.
Proof.
  induction a as [|x a IH]; simpl.
  - reflexivity.
  - destruct (f x); [reflexivity | exact IH].
Qed.

Lemma try_candidates_find (fr : Frame) (sels : list string) :
  snd (try_candidates fr sels)
  = option_map locator_of
      (find (fun p => visible (fst p) (snd p))
         (map (fun sel => (fr, Css sel)) sels)).
Proof.
  induction sels as [|sel rest IH]; simpl.
  - reflexivity.
  - destruct (visible fr (Css sel)); simpl.
    + reflexivity.
    + destruct (try_candidates fr rest) as [t r]. exact IH.
Qed.

(** [find_input] returns the first probe of the plan that is visible,
    and raises its [RuntimeError] when none is. *)
Lemma scan_frames_find (frs : list Frame) :
  snd (scan_frames frs)
  = option_map locator_of
      (find (fun p => visible (fst p) (snd p)) (probe_plan frs)).
Proof.
  induction frs as [|fr rest IH]; cbn [scan_frames].
  - reflexivity.
  - unfold probe_plan. cbn [flat_map]. rewrite <- app_comm_cons.
    cbn [find fst snd].
    destruct (visible fr (ByRole "textbox")); [reflexivity|].
    pose proof (try_candidates_find fr candidates) as Hc.
    destruct (try_candidates fr candidates) as [t [l|]]; cbn [snd] in *.
    + destruct (find _ (map _ candidates)) as [p|] eqn:F; [|discriminate].
      rewrite find_app_first, F. exact Hc.
    + destruct (find _ (map _ candidates)) as [p|] eqn:F; [discriminate|].
      rewrite find_app_first, F.
      destruct (scan_frames rest) as [t' r]. exact IH.
Qed.

Lemma find_input_first_visible (page : Page) (hint : option string) :
  snd (find_input page hint)
  = match find (fun p => visible (fst p) (snd p))
            (probe_plan (frames_in_read_order page)) with
    | Some p => Ok (locator_of p)
    | None => Raise (RuntimeError " Input field not found")
    end.
Proof.
  unfold find_input.
  pose proof (scan_frames_find (frames_in_read_order page)) as H.
  destruct (scan_frames (frames_in_read_order page)) as [t [l|]];
    cbn [snd] in *;
    destruct (find _ (probe_plan _)); simpl in H; congruence.
Qed.

(** C3, where the code departs from it.  The provider's selector hint
    reaches [find_input] and is never read: on a page whose only visible
    input is the hinted one, the locator probes the text-box role and its
    five built-in selectors in the top-level document and raises
    "Input field not found"; and whatever the page, the hint does not
    change what the locator does. *)
Theorem find_input_misses_profile_hint :
  visible (main_frame hinted_page) (Css "#chat-input") = true
  /\ input_selector hinted_llm = Some "#chat-input"%string
  /\ find_input hinted_page (input_selector hinted_llm)
     = ([ EProbe (mkLocator 0 (ByRole "textbox")) 5000;
          EProbe (mkLocator 0 (Css "textarea")) 1000;
          EProbe (mkLocator 0 (Css "div[contenteditable='true']")) 1000;
          EProbe (mkLocator 0 (Css "input[type='text']")) 1000;
          EProbe (mkLocator 0 (Css "[aria-label*='message' i]")) 1000;
          EProbe (mkLocator 0 (Css "#prompt-textarea")) 1000 ],
        Raise (RuntimeError " Input field not found"))
  /\ (forall (page : Page) (hint : option string),
        find_input page hint = find_input page None).
Proof.
  repeat split.
Qed.

(** ** The exchange [send_prompt] *)

Lemma last_opt_snoc {A} (l : list A) (a : A) : last_opt (l ++ [a]) = Some a.
Proof.
  induction l as [|x l IH]; simpl.
  - reflexivity.
  - rewrite IH. destruct (l ++ [a]) eqn:E; [|reflexivity].
    destruct l; discriminate.
Qed.

Lemma send_prompt_found (page : Page) (llm : Llm) (prompt : pystr)
    (t : trace) (inp : Locator) :
  find_input page (input_selector llm) = (t, Ok inp) ->
  click_raises page = false ->
  send_prompt page llm prompt
  = (t ++ exchange_actions llm prompt inp,
     Ok (match last_opt (region page (get_response_selector llm)) with
         | Some raw => extract (strip raw)
         | None => None
         end)).
Proof.
  intros F C. unfold send_prompt, click, inner_text_of_last.
  rewrite F, C. cbn.
  destruct (last_opt (region page (get_response_selector llm)));
    cbn; rewrite ?app_nil_r; reflexivity.
Qed.

(** [send_prompt] never raises. *)
Lemma send_prompt_returns (page : Page) (llm : Llm) (prompt : pystr) :
  exists r, snd (send_prompt page llm prompt) = Ok r.
Proof.
  unfold send_prompt, try_except.
  match goal with |- context [match ?m with _ => _ end] => destruct m as [t [a|e]] end.
  - exists a. reflexivity.
  - exists None. reflexivity.
Qed.

Lemma extract_length (text : pystr) :
  extract text
  = if Nat.ltb 1 (List.length text) then Some (clean_text text) else None.
Proof.
  unfold extract. destruct text as [|c [|d r]]; reflexivity.
Qed.

(** C6.  Once the input is found and clicked, the exchange types the
    prompt, presses Enter three times, waits once for exactly the
    provider's configured duration ([wait_time], 10000 ms when absent),
    then reads the response selector once; and when that selector
    matches several elements the text it works on is that of the last
    one alone. *)
Theorem send_prompt_waits_then_reads_last (page : Page) (llm : Llm)
    (prompt : pystr) (t : trace) (inp : Locator)
    (earlier : list pystr) (final : pystr) :
  find_input page (input_selector llm) = (t, Ok inp) ->
  click_raises page = false ->
  region page (get_response_selector llm) = earlier ++ [final] ->
  send_prompt page llm prompt
  = (t ++ [ EClick inp; EType prompt 30; EWait 300; EPress "Enter";
            EWait 100; EPress "Enter"; EWait 100; EPress "Enter";
            EWait (match wait_time llm with Some w => w | None => 10000 end);
            EInnerTextOfLast (get_response_selector llm) ],
     Ok (extract (strip final))).
Proof.
  intros F C R. rewrite (send_prompt_found _ _ _ _ _ F C), R, last_opt_snoc.
  reflexivity.
Qed.

(** C5, as the code has it.  The extractor returns [None] exactly when
    the text read, trimmed but not yet normalized, is empty or a single
    character; otherwise it returns the normalized text, whatever its
    length. *)
Theorem send_prompt_empty_iff_raw_short (page : Page) (llm : Llm)
    (prompt : pystr) (t : trace) (inp : Locator) (raw : pystr) :
  find_input page (input_selector llm) = (t, Ok inp) ->
  click_raises page = false ->
  last_opt (region page (get_response_selector llm)) = Some raw ->
  snd (send_prompt page llm prompt)
  = Ok (if Nat.ltb 1 (List.length (strip raw))
        then Some (clean_text (strip raw))
        else None).
Proof.
  intros F C R. rewrite (send_prompt_found _ _ _ _ _ F C), R.
  cbn [snd]. rewrite extract_length. reflexivity.
Qed.

(** C5 as stated fails: the region holds "a" and an emoji; the
    normalized text is the single character "a", and the extractor
    returns it as a success. *)
Lemma send_prompt_single_char_success :
  clean_text text_a_emoji = lit "a"
  /\ snd (send_prompt (page_with [text_a_emoji]) plain_llm (lit "Hello"))
     = Ok (Some (lit "a"))
  /\ truthy_opt (Some (lit "a")) = true.
Proof. repeat split. Qed.

Lemma send_prompt_waits_then_reads_last_witness :
  send_prompt (page_with [lit "first"; lit "second"; lit "third turn"])
    plain_llm (lit "Hello")
  = ([ EProbe (mkLocator 0 (ByRole "textbox")) 5000 ]
     ++ [ EClick (mkLocator 0 (ByRole "textbox")); EType (lit "Hello") 30;
          EWait 300; EPress "Enter"; EWait 100; EPress "Enter"; EWait 100;
          EPress "Enter"; EWait 5000; EInnerTextOfLast ".reply" ],
     Ok (extract (strip (lit "third turn")))).
Proof.
  apply (send_prompt_waits_then_reads_last
           (page_with [lit "first"; lit "second"; lit "third turn"])
           plain_llm (lit "Hello")
           [ EProbe (mkLocator 0 (ByRole "textbox")) 5000 ]
           (mkLocator 0 (ByRole "textbox"))
           [lit "first"; lit "second"] (lit "third turn"));
    reflexivity.
Defined.

Lemma send_prompt_empty_iff_raw_short_witness :
  snd (send_prompt (page_with [lit " x "]) plain_llm (lit "Hello"))
  = Ok (if Nat.ltb 1 (List.length (strip (lit " x ")))
        then Some (clean_text (strip (lit " x ")))
        else None).
Proof.
  apply (send_prompt_empty_iff_raw_short (page_with [lit " x "]) plain_llm
           (lit "Hello") [ EProbe (mkLocator 0 (ByRole "textbox")) 5000 ]
           (mkLocator 0 (ByRole "textbox")) (lit " x "));
    reflexivity.
Defined.

(** ** What the exchange does to the page *)

Lemma try_candidates_actions (fr : Frame) (sels : list string) :
  forallb is_page_action (fst (try_candidates fr sels)) = true.
Proof.
  induction sels as [|sel rest IH]; simpl.
  - reflexivity.
  - destruct (visible fr (Css sel)); [reflexivity|].
    destruct (try_candidates fr rest) as [t r]. exact IH.
Qed.

Lemma scan_frames_actions (frs : list Frame) :
  forallb is_page_action (fst (scan_frames frs)) = true.
Proof.
  induction frs as [|fr rest IH]; cbn [scan_frames].
  - reflexivity.
  - destruct (visible fr (ByRole "textbox")); [reflexivity|].
    pose proof (try_candidates_actions fr candidates) as Hc.
    destruct (try_candidates fr candidates) as [t [l|]]; cbn [fst] in *.
    + cbn. exact Hc.
    + destruct (scan_frames rest) as [t' r]. cbn [fst] in *. cbn.
      rewrite forallb_app, Hc, IH. reflexivity.
Qed.

(** [send_prompt] acts on the page only, and what it returns is [None]
    or a normalized text. *)
Lemma send_prompt_shape (page : Page) (llm : Llm) (prompt : pystr) :
  exists t r,
    send_prompt page llm prompt = (t, Ok r)
    /\ forallb is_page_action t = true
    /\ (forall x, r = Some x -> clean_text x = x).
Proof.
  unfold send_prompt, find_input.
  pose proof (scan_frames_actions (frames_in_read_order page)) as Hs.
  destruct (scan_frames (frames_in_read_order page)) as [t [l|]];
    cbn [fst] in Hs.
  - unfold click, inner_text_of_last. destruct (click_raises page).
    + cbn. eexists; eexists. split; [reflexivity|]. split.
      * rewrite !forallb_app, Hs. reflexivity.
      * discriminate.
    + destruct (last_opt (region page (get_response_selector llm)))
        as [raw|] eqn:L; cbn.
      * eexists; eexists. split; [reflexivity|]. split.
        -- rewrite !forallb_app, Hs. reflexivity.
        -- intros x. rewrite extract_length.
           destruct (Nat.ltb 1 (List.length (strip raw))); [|discriminate].
           intros E. injection E as <-. apply clean_text_idem.
      * eexists; eexists. split; [reflexivity|]. split.
        -- rewrite !forallb_app, Hs. reflexivity.
        -- discriminate.
  - cbn. eexists; eexists. split; [reflexivity|]. split.
    + rewrite forallb_app, Hs. reflexivity.
    + discriminate.
Qed.

Lemma page_actions_silent (t : trace) :
  forallb is_page_action t = true ->
  prompts_of t = [] /\ saves_of t = []
  /\ existsb is_headful_launch t = false.
Proof.
  induction t as [|ev t IH]; intros H.
  - repeat split.
  - cbn [forallb] in H. apply andb_true_iff in H. destruct H as [He Ht].
    destruct (IH Ht) as (P & S & L).
    unfold prompts_of, saves_of in *. cbn [flat_map existsb].
    rewrite P, S, L. destruct ev; try discriminate; repeat split.
Qed.

Lemma prompts_of_app (a b : trace) :
  prompts_of (a ++ b) = prompts_of a ++ prompts_of b.
Proof. apply flat_map_app. Qed.

Lemma saves_of_app (a b : trace) : saves_of (a ++ b) = saves_of a ++ saves_of b.
Proof. apply flat_map_app. Qed.

(** ** The batch loop *)

Ltac split_all := repeat match goal with |- _ /\ _ => split end.

Lemma pystr_eqb_refl (a : pystr) : pystr_eqb a a = true.
Proof.
  induction a as [|x a IH]; cbn; [reflexivity|].
  rewrite N.eqb_refl. exact IH.
Qed.

Lemma pystr_eqb_true (a b : pystr) : pystr_eqb a b = true -> a = b.
Proof.
  revert b. induction a as [|x a IH]; intros [|y b] H; cbn in H;
    try discriminate; [reflexivity|].
  apply andb_true_iff in H. destruct H as [H1 H2].
  apply N.eqb_eq in H1. rewrite H1, (IH b H2). reflexivity.
Qed.

Lemma marks_app (a b : trace) : marks (a ++ b) = marks a ++ marks b.
Proof. apply filter_app. Qed.

Lemma prompts_of_marks (t : trace) : prompts_of (marks t) = prompts_of t.
Proof.
  unfold prompts_of, marks. induction t as [|ev t IH]; [reflexivity|].
  cbn [filter flat_map]. destruct ev; cbn [is_mark flat_map app];
    rewrite IH; reflexivity.
Qed.

Lemma saves_of_marks (t : trace) : saves_of (marks t) = saves_of t.
Proof.
  unfold saves_of, marks. induction t as [|ev t IH]; [reflexivity|].
  cbn [filter flat_map]. destruct ev; cbn [is_mark flat_map app];
    rewrite IH; reflexivity.
Qed.

Lemma try_candidates_marks (fr : Frame) (sels : list string) :
  marks (fst (try_candidates fr sels)) = [].
Proof.
  induction sels as [|sel rest IH]; cbn [try_candidates]; [reflexivity|].
  destruct (visible fr (Css sel)); [reflexivity|].
  destruct (try_candidates fr rest) as [t r]. exact IH.
Qed.

Lemma scan_frames_marks (frs : list Frame) :
  marks (fst (scan_frames frs)) = [].
Proof.
  induction frs as [|fr rest IH]; cbn [scan_frames]; [reflexivity|].
  destruct (visible fr (ByRole "textbox")); [reflexivity|].
  pose proof (try_candidates_marks fr candidates) as Hc.
  destruct (try_candidates fr candidates) as [t [l|]]; cbn [fst] in *.
  - exact Hc.
  - destruct (scan_frames rest) as [t' r]. cbn [fst] in *.
    change (marks (EProbe (mkLocator (frame_id fr) (ByRole "textbox")) 5000
                     :: t ++ t'))
      with (marks (t ++ t')).
    rewrite marks_app, Hc, IH. reflexivity.
Qed.

(** What [send_prompt] submits and returns is decided by the page: the
    prompt is typed and Enter pressed three times exactly when an input
    is found and clicked, and the value returned is the reply of the
    page. *)
Lemma send_prompt_exchange (page : Page) (llm : Llm) (prompt : pystr) :
  marks (fst (send_prompt page llm prompt))
  = (if submits page then submit_marks prompt else [])
  /\ snd (send_prompt page llm prompt) = Ok (reply page llm).
Proof.
  pose proof (find_input_first_visible page (input_selector llm)) as H.
  assert (Mk : marks (fst (find_input page (input_selector llm))) = []).
  { unfold find_input.
    pose proof (scan_frames_marks (frames_in_read_order page)) as S.
    destruct (scan_frames (frames_in_read_order page)) as [t [l|]]; exact S. }
  unfold submits, reply, submits, input_found.
  destruct (find_input page (input_selector llm)) as [t [inp|e]] eqn:F;
    cbn [fst snd] in *.
  - destruct (find _ (probe_plan _)) as [p|]; [|discriminate H].
    destruct (click_raises page) eqn:C; cbn [negb].
    + unfold send_prompt, click. rewrite F, C. cbn.
      rewrite app_nil_r.
      change (t ++ [EClick inp]) with (t ++ [EClick inp]).
      rewrite marks_app, Mk. split; reflexivity.
    + rewrite (send_prompt_found _ _ _ _ _ F C). cbn [fst snd].
      rewrite marks_app, Mk. split; [reflexivity|].
      destruct (last_opt (region page (get_response_selector llm)));
        [rewrite extract_length|]; reflexivity.
  - destruct (find _ (probe_plan _)) as [p|]; [discriminate H|].
    unfold send_prompt. rewrite F. cbn. rewrite app_nil_r.
    split; [exact Mk | reflexivity].
Qed.

Lemma blocks_app (alnum_high : codepoint -> bool) (w : BatchWorld)
    (llm : Llm) (a b : list (pystr * pystr)) (k : nat) :
  blocks alnum_high w llm (a ++ b) k
  = blocks alnum_high w llm a k
      ++ blocks alnum_high w llm b (k + List.length a)%nat.
Proof.
  revert k. induction a as [|np a IH]; intros k; cbn [blocks app List.length].
  - rewrite Nat.add_0_r. reflexivity.
  - rewrite IH, Nat.add_succ_r, <- app_assoc. reflexivity.
Qed.

Lemma prompts_of_blocks (alnum_high : codepoint -> bool) (w : BatchWorld)
    (llm : Llm) (l : list (pystr * pystr)) (k : nat) :
  prompts_of (blocks alnum_high w llm l k) = l.
Proof.
  revert k. induction l as [|[n p] l IH]; intros k; [reflexivity|].
  cbn [blocks]. rewrite prompts_of_app, IH. unfold block. cbn [fst snd].
  change (EPrompt n p :: ?a ++ ?b) with ([EPrompt n p] ++ a ++ b).
  rewrite !prompts_of_app.
  destruct (submits (page_at w k));
    destruct (record_at alnum_high w llm k (n, p)); reflexivity.
Qed.

Lemma saves_of_blocks (alnum_high : codepoint -> bool) (w : BatchWorld)
    (llm : Llm) (l : list (pystr * pystr)) (k : nat) :
  saves_of (blocks alnum_high w llm l k) = records alnum_high w llm l k.
Proof.
  revert k. induction l as [|np l IH]; intros k; [reflexivity|].
  cbn [blocks records]. rewrite saves_of_app, IH. unfold block.
  change (EPrompt (fst np) (snd np) :: ?a ++ ?b)
    with ([EPrompt (fst np) (snd np)] ++ a ++ b).
  rewrite !saves_of_app.
  destruct (submits (page_at w k));
    destruct (record_at alnum_high w llm k np); reflexivity.
Qed.

(** *** Texts that can be encoded *)

Lemma encodable_app (a b : pystr) :
  encodable (a ++ b) = encodable a && encodable b.
Proof.
  unfold encodable. rewrite existsb_app, negb_orb. reflexivity.
Qed.

Lemma encodable_firstn (n : nat) (s : pystr) :
  encodable s = true -> encodable (firstn n s) = true.
Proof.
  unfold encodable. revert n. induction s as [|c s IH]; intros [|n] H;
    try reflexivity.
  cbn [firstn existsb] in *. rewrite negb_orb in *.
  apply andb_true_iff in H. destruct H as [Hc Hs].
  rewrite Hc, (IH n Hs). reflexivity.
Qed.

Lemma ascii_encodable (s : pystr) :
  Forall (fun c => is_ascii c = true) s -> encodable s = true.
Proof.
  unfold encodable. induction 1 as [|c s Hc _ IH]; [reflexivity|].
  cbn [existsb]. rewrite negb_orb, IH, andb_true_r.
  unfold is_ascii in Hc. unfold is_surrogate, in_range.
  apply N.leb_le in Hc.
  destruct (55296 <=? c) eqn:E; [|reflexivity].
  apply N.leb_le in E. lia.
Qed.

Lemma reply_normalized (page : Page) (llm : Llm) (x : pystr) :
  reply page llm = Some x -> clean_text x = x /\ encodable x = true.
Proof.
  unfold reply. destruct (submits page); [|discriminate].
  destruct (last_opt (region page (get_response_selector llm))) as [raw|];
    [|discriminate].
  destruct (Nat.ltb 1 (List.length (strip raw))); [|discriminate].
  intros H. injection H as <-. split; [apply clean_text_idem|].
  apply ascii_encodable, clean_text_ascii.
Qed.

(** A reply that leaves no record, with texts that can be encoded, had
    its write refused. *)
Lemma record_refused (alnum_high : codepoint -> bool) (w : BatchWorld)
    (llm : Llm) (k : nat) (np : pystr * pystr) (c : codepoint) (x : pystr) :
  reply (page_at w k) llm = Some (c :: x) ->
  record_at alnum_high w llm k np = None ->
  encodable (llm_name llm) = true ->
  encodable (fst np) = true ->
  encodable (snd np) = true ->
  save_fails_at w k = true.
Proof.
  intros R H En Ef Es. unfold record_at in H. rewrite R in H.
  destruct (save_fails_at w k); [reflexivity|]. cbn [orb] in H.
  destruct (reply_normalized _ _ _ R) as (_ & Er).
  unfold written_text in H. rewrite !encodable_app, En, Es, Er in H.
  destruct (truthy (fst np)); rewrite ?Ef in H; discriminate H.
Qed.

Lemma encodable_flat (honeypots : list (pystr * list pystr))
    (np : pystr * pystr) :
  encodable_source honeypots = true ->
  In np (flat_prompts honeypots) ->
  encodable (fst np) = true /\ encodable (snd np) = true.
Proof.
  unfold encodable_source, flat_prompts. intros H Hin.
  apply in_flat_map in Hin. destruct Hin as (hp & Hhp & Hin).
  apply in_map_iff in Hin. destruct Hin as (p & <- & Hp).
  rewrite forallb_forall in H. specialize (H hp Hhp).
  apply andb_true_iff in H. destruct H as [Hn Hps].
  rewrite forallb_forall in Hps. split; [exact Hn | exact (Hps p Hp)].
Qed.

(** *** Saving *)

Lemma file_actions_silent (t : trace) :
  forallb is_file_action t = true ->
  marks t = map ESave (saves_of t)
  /\ prompts_of t = []
  /\ existsb is_headful_launch t = false.
Proof.
  induction t as [|ev t IH]; intros H; [repeat split|].
  cbn [forallb] in H. apply andb_true_iff in H. destruct H as [He Ht].
  destruct (IH Ht) as (M & P & L).
  unfold marks, saves_of, prompts_of in *.
  destruct ev; try discriminate He; cbn; rewrite ?M, ?P, ?L; repeat split.
Qed.

(** [save_response] acts on the file system only; it leaves the file
    when the write is accepted and the texts can be encoded, and raises
    otherwise. *)
Lemma save_response_shape (alnum_high : codepoint -> bool) (io_fails : bool)
    (stamp iso name prompt response : pystr) (hp : option pystr) :
  exists (t : trace) (r : result unit),
    save_response alnum_high io_fails stamp iso name prompt response hp
    = (t, r)
    /\ forallb is_file_action t = true
    /\ (if io_fails || negb (encodable (written_text name prompt response hp))
        then saves_of t = []
             /\ r = Raise (if io_fails then OSError "responses"
                           else UnicodeEncodeError "write")
        else saves_of t
             = [written_file alnum_high stamp iso name prompt response hp]
             /\ r = Ok tt).
Proof.
  unfold save_response, written_file.
  destruct io_fails;
    [|destruct (encodable (written_text name prompt response hp))];
    destruct (truthy_opt hp); cbn; eexists; eexists;
    split_all; reflexivity.
Qed.

Lemma written_file_record (alnum_high : codepoint -> bool)
    (stamp iso name prompt response hp : pystr) :
  written_file alnum_high stamp iso name prompt response (Some hp)
  = record_file alnum_high stamp iso name (hp, prompt) response.
Proof. reflexivity. Qed.

(** *** The loop invariant *)

(** One iteration of the inner loop. *)
Lemma prompt_body_inv (alnum_high : codepoint -> bool) (w : BatchWorld)
    (llm : Llm) (hp : pystr) (prompt : pystr) (st : BatchState) :
  loop_inv alnum_high w llm [(hp, prompt)] st
    (prompt_body alnum_high w llm hp prompt st).
Proof.
  unfold prompt_body.
  destruct (encodable (firstn 80 prompt)); cbn [negb].
  2:{ exists 0%nat. cbn. rewrite !Nat.add_0_r.
      split_all; try reflexivity; try lia; try apply Forall_nil.
      left. split; [reflexivity | lia]. }
  destruct (send_prompt_shape (page_at w (sent st)) llm prompt)
    as (t & r & E & A & Nm).
  destruct (send_prompt_exchange (page_at w (sent st)) llm prompt)
    as (Mk & Rp).
  rewrite E in Mk, Rp |- *. cbn [fst snd] in Mk, Rp. injection Rp as Rp.
  destruct (page_actions_silent t A) as (_ & Sv & L).
  destruct st as [ok ko k]. cbn [sent success_count failed_count] in *.
  assert (B0 : forall tail,
             marks (EPrompt hp prompt :: t ++ tail)
             = EPrompt hp prompt
                 :: (if submits (page_at w k) then submit_marks prompt else [])
                 ++ marks tail).
  { intros tail.
    change (EPrompt hp prompt :: t ++ tail)
      with ([EPrompt hp prompt] ++ t ++ tail).
    rewrite !marks_app, Mk. reflexivity. }
  assert (S0 : forall tail,
             saves_of (EPrompt hp prompt :: t ++ tail) = saves_of tail).
  { intros tail.
    change (EPrompt hp prompt :: t ++ tail)
      with ([EPrompt hp prompt] ++ t ++ tail).
    rewrite !saves_of_app, Sv. reflexivity. }
  assert (L0 : forall tail,
             existsb is_headful_launch (EPrompt hp prompt :: t ++ tail)
             = existsb is_headful_launch tail).
  { intros tail. cbn [existsb is_headful_launch orb].
    rewrite existsb_app, L. reflexivity. }
  assert (Empty : truthy_opt r = false ->
            loop_inv alnum_high w llm [(hp, prompt)] (mkBatchState ok ko k)
              (EPrompt hp prompt :: t, mkBatchState ok (S ko) (S k), None)).
  { intros Tr. exists 1%nat. rewrite <- (app_nil_r t), B0, S0, L0.
    cbn [firstn blocks sent success_count failed_count List.length].
    unfold block, record_at. cbn [fst snd]. rewrite <- Rp.
    assert (Rn : match r with Some (c :: x) =>
                   if save_fails_at w k
                      || negb (encodable (written_text (llm_name llm) prompt
                                            (c :: x) (Some hp)))
                   then None
                   else Some (record_file alnum_high (stamp_at w k)
                                (iso_at w k) (llm_name llm) (hp, prompt)
                                (c :: x))
                 | _ => None end = None)
      by (destruct r as [[|c x]|]; [reflexivity | discriminate Tr
                                    | reflexivity]).
    rewrite Rn. cbn. rewrite !app_nil_r.
    split_all; try reflexivity; try lia; try apply Forall_nil. }
  destruct (truthy_opt r) eqn:Tr; [|exact (Empty eq_refl)]. clear Empty.
  destruct r as [[|c x]|]; try discriminate Tr.
  assert (Rec : record_at alnum_high w llm k (hp, prompt)
                = if save_fails_at w k
                     || negb (encodable (written_text (llm_name llm) prompt
                                           (c :: x) (Some hp)))
                  then None
                  else Some (record_file alnum_high (stamp_at w k)
                               (iso_at w k) (llm_name llm) (hp, prompt)
                               (c :: x))).
  { unfold record_at. rewrite <- Rp. reflexivity. }
  destruct (save_response_shape alnum_high (save_fails_at w k) (stamp_at w k)
              (iso_at w k) (llm_name llm) prompt (c :: x) (Some hp))
    as (t2 & r2 & E2 & F2 & C2).
  rewrite E2. destruct (file_actions_silent t2 F2) as (M2 & _ & L2).
  rewrite written_file_record in C2.
  destruct (save_fails_at w k
            || negb (encodable (written_text (llm_name llm) prompt (c :: x)
                                  (Some hp)))) eqn:Bad.
  - destruct C2 as (S2 & ->). exists 1%nat.
    rewrite B0, S0, L0, M2, S2, L2.
    cbn [firstn blocks sent success_count failed_count List.length map].
    unfold block. cbn [fst snd]. rewrite Rec. rewrite !app_nil_r.
    split_all; try reflexivity; try lia; try apply Forall_nil.
    right. split_all; try lia.
    + destruct (save_fails_at w k); discriminate.
    + exists (hp, prompt), c, x.
      replace (k + 1 - 1)%nat with k by lia.
      split_all; [reflexivity | symmetry; exact Rp | exact Rec].
  - destruct C2 as (S2 & ->). exists 1%nat.
    rewrite B0, S0, L0, M2, S2, L2.
    cbn [firstn blocks sent success_count failed_count List.length map].
    unfold block. cbn [fst snd]. rewrite Rec. rewrite !app_nil_r.
    split_all; try reflexivity; try lia.
    constructor; [|constructor]. unfold record_file, normalized_record.
    cbn [sf_response]. split; [reflexivity|]. apply Nm. reflexivity.
Qed.

Lemma loop_inv_nil (alnum_high : codepoint -> bool) (w : BatchWorld)
    (llm : Llm) (st : BatchState) :
  loop_inv alnum_high w llm [] st ([], st, None).
Proof.
  exists 0%nat. cbn. rewrite !Nat.add_0_r.
  split_all; try reflexivity; try lia; apply Forall_nil.
Qed.

(** A piece that a print stopped before its first exchange. *)
Lemma loop_inv_print (alnum_high : codepoint -> bool) (w : BatchWorld)
    (llm : Llm) (l : list (pystr * pystr)) (st : BatchState) :
  loop_inv alnum_high w llm l st ([], st, Some (UnicodeEncodeError "print")).
Proof.
  exists 0%nat. cbn. rewrite !Nat.add_0_r.
  split_all; try reflexivity; try lia; try apply Forall_nil.
  left. split; [reflexivity | lia].
Qed.

(** A piece that stopped on an exception leaves what follows undone. *)
Lemma loop_inv_abort (alnum_high : codepoint -> bool) (w : BatchWorld)
    (llm : Llm) (l1 l2 : list (pystr * pystr)) (st st' : BatchState)
    (t : trace) (e : exn) :
  loop_inv alnum_high w llm l1 st (t, st', Some e) ->
  loop_inv alnum_high w llm (l1 ++ l2) st (t, st', Some e).
Proof.
  intros (n & Hn & M & Sn & C & K & L & Nr).
  assert (E : firstn n (l1 ++ l2) = firstn n l1).
  { rewrite firstn_app. replace (n - List.length l1)%nat with 0%nat by lia.
    cbn. apply app_nil_r. }
  exists n. rewrite E, length_app.
  split_all; try assumption; try lia.
  destruct K as [K | (Kx & K1 & Kc & np & c & r & Hnth & Hr & Hrec)];
    [left; exact K|].
  right. split_all; try assumption.
  exists np, c, r. split_all; try assumption.
  rewrite nth_error_app1; [exact Hnth|].
  apply nth_error_Some. rewrite Hnth. discriminate.
Qed.

(** Two pieces in sequence, with a pause between them. *)
Lemma loop_inv_seq (alnum_high : codepoint -> bool) (w : BatchWorld)
    (llm : Llm) (l1 l2 : list (pystr * pystr)) (st st1 st2 : BatchState)
    (t1 pause t2 : trace) (e : option exn) :
  loop_inv alnum_high w llm l1 st (t1, st1, None) ->
  forallb is_page_action pause = true ->
  marks pause = [] ->
  loop_inv alnum_high w llm l2 st1 (t2, st2, e) ->
  loop_inv alnum_high w llm (l1 ++ l2) st (t1 ++ pause ++ t2, st2, e).
Proof.
  intros (n1 & Hn1 & M1 & S1 & C1 & (F1 & K1) & L1 & N1) Hp Mp
         (n2 & Hn2 & M2 & S2 & C2 & K2 & L2 & N2).
  subst n1. rewrite firstn_all in M1.
  destruct (page_actions_silent pause Hp) as (_ & Sp & Lp).
  exists (List.length l1 + n2)%nat.
  rewrite firstn_app_2, !marks_app, !saves_of_app, !existsb_app.
  rewrite Mp, Sp, Lp, M1, M2, L1, L2. cbn [app orb].
  rewrite blocks_app, S1, !length_app.
  split_all; try reflexivity; try lia.
  - destruct e as [x|].
    + destruct K2 as [(Kx & Kc) | (Kx & K1' & Kc & np & c & r & Hnth & Hr
                                    & Hrec)].
      * left. split; [exact Kx | lia].
      * right. split_all; try assumption; try lia.
        exists np, c, r.
        replace (List.length l1 + n2 - 1)%nat
          with (List.length l1 + (n2 - 1))%nat by lia.
        replace (sent st + (List.length l1 + n2) - 1)%nat
          with (sent st1 + n2 - 1)%nat by lia.
        split_all; try assumption.
        rewrite nth_error_app2 by lia.
        replace (List.length l1 + (n2 - 1) - List.length l1)%nat
          with (n2 - 1)%nat by lia.
        exact Hnth.
    + destruct K2 as (F2 & K2). split; lia.
  - apply Forall_app. split; assumption.
Qed.

Lemma pause_is_page_action {A} (rest : list A) (ms : N) :
  forallb is_page_action
    (match rest with [] => [] | _ :: _ => [EWait ms] end) = true.
Proof. destruct rest; reflexivity. Qed.

Lemma pause_marks {A} (rest : list A) (ms : N) :
  marks (match rest with [] => [] | _ :: _ => [EWait ms] end) = [].
Proof. destruct rest; reflexivity. Qed.

(** The inner loop over the prompts of one persona. *)
Lemma run_prompts_inv (alnum_high : codepoint -> bool) (w : BatchWorld)
    (llm : Llm) (delay : N) (hp : pystr) (prompts : list pystr)
    (st : BatchState) :
  loop_inv alnum_high w llm (map (pair hp) prompts) st
    (run_prompts alnum_high w llm delay hp prompts st).
Proof.
  revert st. induction prompts as [|prompt rest IH]; intros st.
  - apply loop_inv_nil.
  - cbn [run_prompts map].
    pose proof (prompt_body_inv alnum_high w llm hp prompt st) as B.
    destruct (prompt_body alnum_high w llm hp prompt st) as [[t st'] [e|]].
    + exact (loop_inv_abort alnum_high w llm [(hp, prompt)] _ _ _ _ _ B).
    + specialize (IH st').
      destruct (run_prompts alnum_high w llm delay hp rest st')
        as [[t' st''] e'].
      exact (loop_inv_seq alnum_high w llm [(hp, prompt)] _ _ _ _ _ _ _ _ B
               (pause_is_page_action rest _) (pause_marks rest _) IH).
Qed.

(** The outer loop over the personas. *)
Lemma run_honeypots_inv (alnum_high : codepoint -> bool) (w : BatchWorld)
    (llm : Llm) (delay : N) (honeypots : list (pystr * list pystr))
    (st : BatchState) :
  loop_inv alnum_high w llm (flat_prompts honeypots) st
    (run_honeypots alnum_high w llm delay honeypots st).
Proof.
  revert st. induction honeypots as [|[hp prompts] rest IH]; intros st.
  - apply loop_inv_nil.
  - cbn [run_honeypots]. unfold flat_prompts. cbn [flat_map fst snd].
    fold (flat_prompts rest).
    destruct (encodable hp); cbn [negb]; [|apply loop_inv_print].
    pose proof (run_prompts_inv alnum_high w llm delay hp prompts st) as B.
    destruct (run_prompts alnum_high w llm delay hp prompts st)
      as [[t st'] [e|]].
    + exact (loop_inv_abort alnum_high w llm _ _ _ _ _ _ B).
    + specialize (IH st').
      destruct (run_honeypots alnum_high w llm delay rest st')
        as [[t' st''] e'].
      exact (loop_inv_seq alnum_high w llm _ _ _ _ _ _ _ _ _ B
               (pause_is_page_action rest _) (pause_marks rest _) IH).
Qed.

(** With a prompt source that can be encoded, no print stops the
    loops. *)
Lemma prompt_body_no_print (alnum_high : codepoint -> bool) (w : BatchWorld)
    (llm : Llm) (hp prompt : pystr) (st st' : BatchState) (t : trace)
    (e : exn) :
  encodable prompt = true ->
  prompt_body alnum_high w llm hp prompt st = (t, st', Some e) ->
  e <> UnicodeEncodeError "print".
Proof.
  intros En. unfold prompt_body.
  rewrite (encodable_firstn 80 prompt En). cbn [negb].
  destruct (send_prompt_shape (page_at w (sent st)) llm prompt)
    as (ts & r & E & _ & _).
  rewrite E. destruct (truthy_opt r); [|discriminate].
  destruct (save_response_shape alnum_high (save_fails_at w (sent st))
              (stamp_at w (sent st)) (iso_at w (sent st)) (llm_name llm)
              prompt (match r with Some x => x | None => [] end) (Some hp))
    as (t2 & r2 & E2 & _ & C2).
  rewrite E2.
  destruct (save_fails_at w (sent st) || _) in C2;
    destruct C2 as (_ & ->); [|discriminate].
  intros H. injection H as _ _ <-.
  destruct (save_fails_at w (sent st)); discriminate.
Qed.

Lemma run_prompts_no_print (alnum_high : codepoint -> bool) (w : BatchWorld)
    (llm : Llm) (delay : N) (hp : pystr) (prompts : list pystr)
    (st st' : BatchState) (t : trace) (e : exn) :
  forallb encodable prompts = true ->
  run_prompts alnum_high w llm delay hp prompts st = (t, st', Some e) ->
  e <> UnicodeEncodeError "print".
Proof.
  revert st st' t. induction prompts as [|prompt rest IH]; intros st st' t En.
  - cbn. discriminate.
  - cbn [forallb] in En. apply andb_true_iff in En. destruct En as [Ep Er].
    cbn [run_prompts].
    destruct (prompt_body alnum_high w llm hp prompt st)
      as [[t1 st1] [e1|]] eqn:B.
    + intros H. injection H as _ _ <-.
      exact (prompt_body_no_print _ _ _ _ _ _ _ _ _ Ep B).
    + destruct (run_prompts alnum_high w llm delay hp rest st1)
        as [[t2 st2] e2] eqn:R.
      intros H. injection H as _ _ ->. exact (IH _ _ _ Er R).
Qed.

Lemma run_honeypots_no_print (alnum_high : codepoint -> bool)
    (w : BatchWorld) (llm : Llm) (delay : N)
    (honeypots : list (pystr * list pystr)) (st st' : BatchState)
    (t : trace) (e : exn) :
  encodable_source honeypots = true ->
  run_honeypots alnum_high w llm delay honeypots st = (t, st', Some e) ->
  e <> UnicodeEncodeError "print".
Proof.
  unfold encodable_source.
  revert st st' t.
  induction honeypots as [|[hp prompts] rest IH]; intros st st' t En.
  - cbn. discriminate.
  - cbn [forallb fst snd] in En. apply andb_true_iff in En.
    destruct En as [Eh Er]. apply andb_true_iff in Eh.
    destruct Eh as [Eh Ep].
    cbn [run_honeypots]. rewrite Eh. cbn [negb].
    destruct (run_prompts alnum_high w llm delay hp prompts st)
      as [[t1 st1] [e1|]] eqn:B.
    + intros H. injection H as _ _ <-.
      exact (run_prompts_no_print _ _ _ _ _ _ _ _ _ _ Ep B).
    + destruct (run_honeypots alnum_high w llm delay rest st1)
        as [[t2 st2] e2] eqn:R.
      intros H. injection H as _ _ ->. exact (IH _ _ _ Er R).
Qed.

Lemma total_prompts_flat (honeypots : list (pystr * list pystr)) :
  total_prompts honeypots = List.length (flat_prompts honeypots).
Proof.
  unfold flat_prompts.
  induction honeypots as [|[hp prompts] rest IH]; cbn.
  - reflexivity.
  - rewrite length_app, length_map, <- IH. reflexivity.
Qed.

(** [cmd_batch] once the browser is launched: the launch, the new page,
    the navigation, the loops if the navigation succeeds, and the
    closing actions of the [finally] block; the summary carries the
    counters as the loops left them. *)
Lemma batch_run_unfold (alnum_high : codepoint -> bool) (w : BatchWorld)
    (llm : Llm) (honeypots : list (pystr * list pystr)) (delay : N) :
  launch_persistent_raises w = false ->
  exists (tm : trace) (st : BatchState) (e : option exn),
    batch_run alnum_high w llm honeypots delay
    = (ELaunchPersistent true :: ENewPage :: EGoto (llm_url llm) :: tm
         ++ [EWait 2000; ECloseContext; EStop],
       Ok (mkSummary (Some (llm_name llm)) (success_count st)
             (failed_count st) (total_prompts honeypots)))
    /\ ((batch_goto_raises w = true /\ tm = []
         /\ st = mkBatchState 0 0 0)
        \/ (batch_goto_raises w = false
            /\ run_honeypots alnum_high w llm delay honeypots
                 (mkBatchState 0 0 0) = (tm, st, e))).
Proof.
  intros Hl. unfold batch_run, step. rewrite Hl.
  destruct (batch_goto_raises w).
  - exists [], (mkBatchState 0 0 0), None. split; [reflexivity|].
    left. repeat split.
  - destruct (run_honeypots alnum_high w llm delay honeypots
                (mkBatchState 0 0 0)) as [[t st] e] eqn:R.
    exists t, st, e. split; [reflexivity|]. right. split; reflexivity.
Qed.

(** What the frame of a batch (launch, page, navigation, closing)
    contributes: nothing to the marks, the records or the prompts. *)
Lemma batch_frame (url : string) (tm : trace) :
  marks (ELaunchPersistent true :: ENewPage :: EGoto url :: tm
           ++ [EWait 2000; ECloseContext; EStop]) = marks tm
  /\ saves_of (ELaunchPersistent true :: ENewPage :: EGoto url :: tm
                 ++ [EWait 2000; ECloseContext; EStop]) = saves_of tm
  /\ prompts_of (ELaunchPersistent true :: ENewPage :: EGoto url :: tm
                   ++ [EWait 2000; ECloseContext; EStop]) = prompts_of tm.
Proof.
  change (ELaunchPersistent true :: ENewPage :: EGoto url :: tm
            ++ [EWait 2000; ECloseContext; EStop])
    with ([ELaunchPersistent true; ENewPage; EGoto url] ++ tm
            ++ [EWait 2000; ECloseContext; EStop]).
  rewrite !marks_app, !saves_of_app, !prompts_of_app. cbn.
  rewrite !app_nil_r. repeat split.
Qed.

(** The batch flow never launches a headful browser. *)
Lemma batch_run_headless (alnum_high : codepoint -> bool) (w : BatchWorld)
    (llm : Llm) (honeypots : list (pystr * list pystr)) (delay : N) :
  existsb is_headful_launch
    (fst (batch_run alnum_high w llm honeypots delay)) = false.
Proof.
  destruct (launch_persistent_raises w) eqn:Hl.
  - unfold batch_run, step. rewrite Hl. reflexivity.
  - destruct (batch_run_unfold alnum_high w llm honeypots delay Hl)
      as (tm & st & e & E & [(G & -> & ->) | (G & R)]); rewrite E.
    + reflexivity.
    + pose proof (run_honeypots_inv alnum_high w llm delay honeypots
                    (mkBatchState 0 0 0)) as I.
      rewrite R in I. destruct I as (n & _ & _ & _ & _ & _ & L & _).
      cbn [fst existsb is_headful_launch orb]. rewrite existsb_app, L.
      reflexivity.
Qed.

(** Whatever happens after the launch, what the batch announced,
    submitted and recorded are the blocks of an initial segment of the
    persona-then-prompt list. *)
Lemma batch_run_prefix (alnum_high : codepoint -> bool) (w : BatchWorld)
    (llm : Llm) (honeypots : list (pystr * list pystr)) (delay : N) :
  launch_persistent_raises w = false ->
  exists (t : trace) (s : Summary) (n : nat),
    batch_run alnum_high w llm honeypots delay = (t, Ok s)
    /\ (n <= List.length (flat_prompts honeypots))%nat
    /\ marks t = blocks alnum_high w llm (firstn n (flat_prompts honeypots)) 0
    /\ s_success s = List.length (saves_of t)
    /\ (s_success s + s_failed s <= n)%nat
    /\ s_total s = List.length (flat_prompts honeypots)
    /\ Forall normalized_record (saves_of t)
    /\ (batch_goto_raises w = false ->
        (forall k, save_fails_at w k = false) ->
        encodable_source honeypots = true ->
        encodable (llm_name llm) = true ->
        n = List.length (flat_prompts honeypots)
        /\ (s_success s + s_failed s)%nat = n).
Proof.
  intros Hl.
  destruct (batch_run_unfold alnum_high w llm honeypots delay Hl)
    as (tm & st & e & E & [(G & -> & ->) | (G & R)]).
  - eexists; eexists; exists 0%nat. split; [exact E|].
    destruct (batch_frame (llm_url llm) []) as (Fm & Fs & _).
    rewrite Fm, Fs. cbn [s_success s_failed s_total success_count
                         failed_count].
    rewrite total_prompts_flat.
    split_all; try reflexivity; try lia; try apply Forall_nil.
    intros G'. rewrite G in G'. discriminate G'.
  - pose proof (run_honeypots_inv alnum_high w llm delay honeypots
                  (mkBatchState 0 0 0)) as I.
    rewrite R in I.
    destruct I as (n & Hn & M & Sn & C & K & L & Nr).
    cbn [sent success_count failed_count] in *.
    eexists; eexists; exists n. split; [exact E|].
    destruct (batch_frame (llm_url llm) tm) as (Fm & Fs & _).
    rewrite Fm, Fs. cbn [s_success s_failed s_total].
    rewrite total_prompts_flat.
    split_all; try assumption; try reflexivity.
    + destruct e as [x|]; [destruct K as [(_ & K) | (_ & _ & K & _)]
                          | destruct K as (_ & K)]; lia.
    + intros _ Hs He Hname.
      destruct e as [x|]; [exfalso | destruct K as (F & K); split; lia].
      destruct K as [(Kx & _) | (_ & K1 & _ & np & c & r & Hnth & Hr & Hrec)].
      * exact (run_honeypots_no_print _ _ _ _ _ _ _ _ _ He R Kx).
      * destruct (encodable_flat honeypots np He (nth_error_In _ _ Hnth))
          as (Ef & Es).
        pose proof (record_refused _ _ _ _ _ _ _ Hr Hrec Hname Ef Es) as F.
        rewrite Hs in F. discriminate F.
Qed.

(** *** The files left in the sink *)

Lemma sink_put_length (files : list SavedFile) (f : SavedFile) :
  (List.length (sink_put files f) <= S (List.length files))%nat.
Proof.
  induction files as [|g r IH]; cbn; [lia|].
  destruct (same_path g f); cbn; lia.
Qed.

Lemma fold_sink_length (l acc : list SavedFile) :
  (List.length (fold_left sink_put l acc)
   <= List.length acc + List.length l)%nat.
Proof.
  revert acc. induction l as [|f l IH]; intros acc; cbn; [lia|].
  specialize (IH (sink_put acc f)).
  pose proof (sink_put_length acc f). lia.
Qed.

Lemma sink_put_fresh (files : list SavedFile) (f : SavedFile) :
  (forall g, In g files -> same_path g f = false) ->
  sink_put files f = files ++ [f].
Proof.
  induction files as [|g r IH]; intros H; [reflexivity|].
  cbn [sink_put app]. rewrite (H g (or_introl eq_refl)), IH; [reflexivity|].
  intros g' Hg. apply H. right. exact Hg.
Qed.

Lemma fold_sink_fresh (l acc : list SavedFile) :
  (forall g f, In g acc -> In f l -> same_path g f = false) ->
  ForallOrdPairs (fun f g => same_path f g = false) l ->
  fold_left sink_put l acc = acc ++ l.
Proof.
  revert acc. induction l as [|f l IH]; intros acc Ha Hl.
  - cbn. rewrite app_nil_r. reflexivity.
  - inversion Hl as [|? ? Hf Hr]; subst. cbn [fold_left].
    rewrite sink_put_fresh by (intros g Hg; apply Ha; [exact Hg | left;
                                                        reflexivity]).
    rewrite IH; [rewrite <- app_assoc; reflexivity | | exact Hr].
    intros g f' Hg Hf'. apply in_app_or in Hg. destruct Hg as [Hg|[<-|[]]].
    + apply Ha; [exact Hg | right; exact Hf'].
    + rewrite Forall_forall in Hf. exact (Hf f' Hf').
Qed.

Lemma record_at_filename (alnum_high : codepoint -> bool) (w : BatchWorld)
    (llm : Llm) (k : nat) (np : pystr * pystr) (f : SavedFile) :
  record_at alnum_high w llm k np = Some f ->
  sf_filename f
  = sanitize_name alnum_high (llm_name llm) ++ lit "_" ++ stamp_at w k
      ++ lit ".txt".
Proof.
  unfold record_at. destruct (reply (page_at w k) llm) as [[|c x]|];
    try discriminate.
  destruct (save_fails_at w k || _); [discriminate|].
  intros H. injection H as <-. reflexivity.
Qed.

Lemma records_filename (alnum_high : codepoint -> bool) (w : BatchWorld)
    (llm : Llm) (l : list (pystr * pystr)) (k : nat) (f : SavedFile) :
  In f (records alnum_high w llm l k) ->
  exists j, (k <= j)%nat
    /\ sf_filename f
       = sanitize_name alnum_high (llm_name llm) ++ lit "_" ++ stamp_at w j
           ++ lit ".txt".
Proof.
  revert k. induction l as [|np l IH]; intros k H; [destruct H|].
  cbn [records] in H.
  destruct (record_at alnum_high w llm k np) as [g|] eqn:R.
  - destruct H as [<-|H].
    + exists k. split; [lia | exact (record_at_filename _ _ _ _ _ _ R)].
    + destruct (IH _ H) as (j & Hj & E). exists j. split; [lia | exact E].
  - destruct (IH _ H) as (j & Hj & E). exists j. split; [lia | exact E].
Qed.

(** With stamps that differ from one exchange to the next, no two
    records of a batch share a path. *)
Lemma records_distinct (alnum_high : codepoint -> bool) (w : BatchWorld)
    (llm : Llm) (l : list (pystr * pystr)) (k : nat) :
  (forall i j, stamp_at w i = stamp_at w j -> i = j) ->
  ForallOrdPairs (fun f g => same_path f g = false)
    (records alnum_high w llm l k).
Proof.
  intros Inj. revert k. induction l as [|np l IH]; intros k; [constructor|].
  cbn [records].
  destruct (record_at alnum_high w llm k np) as [f|] eqn:R; [|apply IH].
  constructor; [|apply IH].
  apply Forall_forall. intros g Hg.
  destruct (records_filename _ _ _ _ _ _ Hg) as (j & Hj & Eg).
  pose proof (record_at_filename _ _ _ _ _ _ R) as Ef.
  unfold same_path. destruct (pystr_eqb (sf_filename f) (sf_filename g)) eqn:E;
    [|apply andb_false_r].
  exfalso. apply pystr_eqb_true in E. rewrite Ef, Eg in E.
  apply app_inv_head in E. apply app_inv_head in E.
  apply app_inv_tail in E. apply Inj in E. lia.
Qed.

(** *** The two claims on the batch *)

(** C2, as the code has it.  In a batch that no hard failure cuts short
    (the browser launches, the page loads, every write is accepted, the
    prompt source and the provider's name can be encoded), each prompt
    is attempted and moves exactly one of the two counters, so that
    success + failed = total = the number of prompts attempted.
    [save_response] is called for the successful exchanges only, once
    each, with the non-empty normalized response; nothing is written for
    a failed exchange, so that the number of writes is the success
    count.  The files left are at most as many: a write to the path of
    an earlier record (same persona, same second) replaces it; they are
    exactly the records written when the stamps of the exchanges differ. *)
Theorem batch_counts_every_prompt_once (alnum_high : codepoint -> bool)
    (w : BatchWorld) (llm : Llm) (honeypots : list (pystr * list pystr))
    (delay : N) :
  launch_persistent_raises w = false ->
  batch_goto_raises w = false ->
  (forall k, save_fails_at w k = false) ->
  encodable_source honeypots = true ->
  encodable (llm_name llm) = true ->
  exists (t : trace) (s : Summary),
    batch_run alnum_high w llm honeypots delay = (t, Ok s)
    /\ prompts_of t = flat_prompts honeypots
    /\ (s_success s + s_failed s)%nat = List.length (prompts_of t)
    /\ s_total s = List.length (prompts_of t)
    /\ saves_of t = records alnum_high w llm (flat_prompts honeypots) 0
    /\ List.length (saves_of t) = s_success s
    /\ Forall normalized_record (saves_of t)
    /\ (List.length (sink (saves_of t)) <= s_success s)%nat
    /\ ((forall i j, stamp_at w i = stamp_at w j -> i = j) ->
        sink (saves_of t) = saves_of t).
Proof.
  intros Hl Hg Hs He Hn.
  destruct (batch_run_prefix alnum_high w llm honeypots delay Hl)
    as (t & s & n & E & Hle & M & Sc & C & T & Nr & Full).
  destruct (Full Hg Hs He Hn) as (-> & Cn).
  rewrite firstn_all in M.
  assert (P : prompts_of t = flat_prompts honeypots)
    by (rewrite <- prompts_of_marks, M; apply prompts_of_blocks).
  assert (Sv : saves_of t
               = records alnum_high w llm (flat_prompts honeypots) 0)
    by (rewrite <- saves_of_marks, M; apply saves_of_blocks).
  exists t, s. rewrite P.
  split_all; try assumption; try reflexivity; try (symmetry; assumption).
  - rewrite Sc. unfold sink.
    pose proof (fold_sink_length (saves_of t) []) as H. cbn in H. exact H.
  - intros Inj. unfold sink. rewrite Sv.
    apply (fold_sink_fresh _ []); [intros g f []|].
    apply records_distinct. exact Inj.
Qed.

(** C7.  Whatever happens after the launch, what a batch announces,
    submits and records is, action for action, the sequence of the
    blocks of an initial segment of the persona-then-prompt list (the
    personas in the order of the prompt source, the prompts of each in
    list order): each prompt is announced, then typed and submitted when
    the page lets it, then its response recorded when there is one,
    before the next prompt is announced.  The segment is the whole list
    when no hard failure cuts the batch short. *)
Theorem batch_preserves_order (alnum_high : codepoint -> bool)
    (w : BatchWorld) (llm : Llm) (honeypots : list (pystr * list pystr))
    (delay : N) :
  launch_persistent_raises w = false ->
  exists (t : trace) (s : Summary) (n : nat),
    batch_run alnum_high w llm honeypots delay = (t, Ok s)
    /\ marks t
       = blocks alnum_high w llm
           (firstn n
              (flat_map (fun hp => map (pair (fst hp)) (snd hp)) honeypots))
           0
    /\ prompts_of t
       = firstn n
           (flat_map (fun hp => map (pair (fst hp)) (snd hp)) honeypots)
    /\ saves_of t
       = records alnum_high w llm
           (firstn n
              (flat_map (fun hp => map (pair (fst hp)) (snd hp)) honeypots))
           0
    /\ (batch_goto_raises w = false ->
        (forall k, save_fails_at w k = false) ->
        encodable_source honeypots = true ->
        encodable (llm_name llm) = true ->
        firstn n
          (flat_map (fun hp => map (pair (fst hp)) (snd hp)) honeypots)
        = flat_map (fun hp => map (pair (fst hp)) (snd hp)) honeypots).
Proof.
  intros Hl.
  destruct (batch_run_prefix alnum_high w llm honeypots delay Hl)
    as (t & s & n & E & Hle & M & Sc & C & T & Nr & Full).
  fold (flat_prompts honeypots).
  exists t, s, n. split_all.
  - exact E.
  - exact M.
  - rewrite <- prompts_of_marks, M. apply prompts_of_blocks.
  - rewrite <- saves_of_marks, M. apply saves_of_blocks.
  - intros Hg Hs He Hn. destruct (Full Hg Hs He Hn) as (-> & _).
    apply firstn_all.
Qed.

(** C2 as stated fails: one prompt, no response; the prompt is counted
    as failed and nothing is written. *)
Lemma batch_failure_leaves_no_record :
  snd (batch_run no_high_alnum silent_world plain_llm one_prompt 5)
  = Ok (mkSummary (Some (lit "demo")) 0 1 1)
  /\ prompts_of (fst (batch_run no_high_alnum silent_world plain_llm
                        one_prompt 5))
     = [(lit "alice", lit "Who is Alice?")]
  /\ saves_of (fst (batch_run no_high_alnum silent_world plain_llm
                      one_prompt 5)) = [].
Proof. repeat split. Qed.

Lemma batch_counts_every_prompt_once_witness :
  exists (t : trace) (s : Summary),
    batch_run no_high_alnum replying_world plain_llm two_personas 5
    = (t, Ok s)
    /\ prompts_of t = flat_prompts two_personas
    /\ (s_success s + s_failed s)%nat = List.length (prompts_of t)
    /\ s_total s = List.length (prompts_of t)
    /\ saves_of t
       = records no_high_alnum replying_world plain_llm
           (flat_prompts two_personas) 0
    /\ List.length (saves_of t) = s_success s
    /\ Forall normalized_record (saves_of t)
    /\ (List.length (sink (saves_of t)) <= s_success s)%nat
    /\ ((forall i j, stamp_at replying_world i = stamp_at replying_world j ->
                     i = j) ->
        sink (saves_of t) = saves_of t).
Proof.
  apply (batch_counts_every_prompt_once no_high_alnum replying_world
           plain_llm two_personas 5);
    [reflexivity | reflexivity | intros k; reflexivity | reflexivity
     | reflexivity].
Defined.

Lemma batch_preserves_order_witness :
  exists (t : trace) (s : Summary) (n : nat),
    batch_run no_high_alnum replying_world plain_llm two_personas 5
    = (t, Ok s)
    /\ marks t
       = blocks no_high_alnum replying_world plain_llm
           (firstn n
              (flat_map (fun hp => map (pair (fst hp)) (snd hp))
                 two_personas))
           0
    /\ prompts_of t
       = firstn n
           (flat_map (fun hp => map (pair (fst hp)) (snd hp)) two_personas)
    /\ saves_of t
       = records no_high_alnum replying_world plain_llm
           (firstn n
              (flat_map (fun hp => map (pair (fst hp)) (snd hp))
                 two_personas))
           0
    /\ (batch_goto_raises replying_world = false ->
        (forall k, save_fails_at replying_world k = false) ->
        encodable_source two_personas = true ->
        encodable (llm_name plain_llm) = true ->
        firstn n
          (flat_map (fun hp => map (pair (fst hp)) (snd hp)) two_personas)
        = flat_map (fun hp => map (pair (fst hp)) (snd hp)) two_personas).
Proof.
  apply (batch_preserves_order no_high_alnum replying_world plain_llm
           two_personas 5).
  reflexivity.
Defined.

Example replying_world_run :
  snd (batch_run no_high_alnum replying_world plain_llm two_personas 5)
  = Ok (mkSummary (Some (lit "demo")) 2 1 3)
  /\ map record_of
       (saves_of (fst (batch_run no_high_alnum replying_world plain_llm
                         two_personas 5)))
     = [ (Some (lit "alice"), lit "Who is Alice?", lit "An answer.");
         (Some (lit "bob"), lit "Who is Bob?", lit "An answer.") ]
  /\ marks (fst (batch_run no_high_alnum replying_world plain_llm
                   two_personas 5))
     = [ EPrompt (lit "alice") (lit "Who is Alice?");
         EType (lit "Who is Alice?") 30;
         EPress "Enter"; EPress "Enter"; EPress "Enter";
         ESave (record_file no_high_alnum (lit "20250101_120000")
                  (lit "2025-01-01T12:00:00") (lit "demo")
                  (lit "alice", lit "Who is Alice?") (lit "An answer."));
         EPrompt (lit "alice") (lit "Where does Alice work?");
         EPrompt (lit "bob") (lit "Who is Bob?");
         EType (lit "Who is Bob?") 30;
         EPress "Enter"; EPress "Enter"; EPress "Enter";
         ESave (record_file no_high_alnum (lit "20250101_120000")
                  (lit "2025-01-01T12:00:00") (lit "demo")
                  (lit "bob", lit "Who is Bob?") (lit "An answer.")) ].
Proof. split_all; reflexivity. Qed.

(** Two successes of one persona within one second: two writes, one
    file, which holds the second response.  With a clock that moves,
    both files stay. *)
Example same_second_overwrite :
  snd (batch_run no_high_alnum same_second_world plain_llm two_prompts 5)
  = Ok (mkSummary (Some (lit "demo")) 2 0 2)
  /\ map sf_prompt
       (saves_of (fst (batch_run no_high_alnum same_second_world plain_llm
                         two_prompts 5)))
     = [lit "Who is Alice?"; lit "Where does Alice work?"]
  /\ map sf_prompt
       (sink (saves_of (fst (batch_run no_high_alnum same_second_world
                               plain_llm two_prompts 5))))
     = [lit "Where does Alice work?"]
  /\ map sf_prompt
       (sink (saves_of (fst (batch_run no_high_alnum ticking_world
                               plain_llm two_prompts 5))))
     = [lit "Who is Alice?"; lit "Where does Alice work?"].
Proof. split_all; reflexivity. Qed.

(** A persona name with a lone surrogate: the header print raises, the
    exception is caught, and the batch ends with no prompt attempted. *)
Example surrogate_persona_run :
  batch_run no_high_alnum same_second_world plain_llm
    [([55357], [lit "Who is it?"])] 5
  = ([ ELaunchPersistent true; ENewPage; EGoto "https://chat.example/";
       EWait 2000; ECloseContext; EStop ],
     Ok (mkSummary (Some (lit "demo")) 0 0 1)).
Proof. reflexivity. Qed.


(** ** The test flow [cmd_test] *)

Lemma bind_step_head {B} (ev : event) (raises : bool) (what : string)
    (k : unit -> M B) :
  exists t, fst (bind (step ev raises what) k) = ev :: t.
Proof.
  unfold step, emit, bind, raise, ret. destruct raises; cbn.
  - eexists. reflexivity.
  - destruct (k tt) as [t r]. cbn. eexists. reflexivity.
Qed.

(** An attempt starts by launching the browser in its mode. *)
Lemma attempt_head (alnum_high : codepoint -> bool) (w : TestWorld)
    (headless : bool) (llm : Llm) (prompt : pystr) (save : bool)
    (hp : option pystr) :
  exists t,
    fst (attempt alnum_high w headless llm prompt save hp)
    = ELaunch headless :: t.
Proof. unfold attempt. apply bind_step_head. Qed.


(** [save_response], step by step. *)
Lemma save_response_eq (alnum_high : codepoint -> bool) (io_fails : bool)
    (stamp iso name prompt response : pystr) (hp : option pystr) :
  save_response alnum_high io_fails stamp iso name prompt response hp
  = save_actions alnum_high io_fails stamp iso name prompt response hp.
Proof.
  unfold save_response, save_actions, written_file. cbn [sf_dir].
  destruct io_fails;
    [|destruct (encodable (written_text name prompt response hp))];
    destruct (truthy_opt hp); reflexivity.
Qed.

(** An attempt of [cmd_test], step by step: the first of the four
    browser steps that raises ends it; otherwise the exchange follows,
    and the save when the page replied and saving is on. *)
Lemma attempt_eq (alnum_high : codepoint -> bool) (w : TestWorld)
    (headless : bool) (llm : Llm) (prompt : pystr) (save : bool)
    (hp : option pystr) :
  attempt alnum_high w headless llm prompt save hp
  = let b := browser_of w headless in
    if launch_raises b
    then ([ELaunch headless], Raise (BrowserError "launch")) else
    if new_context_raises b
    then ([ELaunch headless; ENewContext],
          Raise (BrowserError "new_context")) else
    if new_page_raises b
    then ([ELaunch headless; ENewContext; ENewPage],
          Raise (BrowserError "new_page")) else
    if goto_raises b
    then ([ELaunch headless; ENewContext; ENewPage; EGoto (llm_url llm)],
          Raise (BrowserError "goto")) else
    let navigated :=
      [ELaunch headless; ENewContext; ENewPage; EGoto (llm_url llm)]
        ++ fst (send_prompt (bw_page b) llm prompt) in
    match reply (bw_page b) llm with
    | Some (c :: x) =>
        if save
        then
          match save_actions alnum_high (tw_save_fails w) (tw_stamp w)
                  (tw_iso w) (llm_name llm) prompt (c :: x) hp with
          | (t, Ok _) => (navigated ++ t, Ok (Some (c :: x)))
          | (t, Raise e) => (navigated ++ t, Raise e)
          end
        else (navigated, Ok (Some (c :: x)))
    | r => (navigated, Ok r)
    end.
Proof.
  unfold attempt. cbn zeta.
  destruct (send_prompt_exchange (bw_page (browser_of w headless)) llm prompt)
    as (_ & Rp).
  destruct (send_prompt (bw_page (browser_of w headless)) llm prompt)
    as [ts rs]. cbn [fst snd] in *. subst rs.
  unfold step.
  destruct (launch_raises (browser_of w headless)); [reflexivity|].
  destruct (new_context_raises (browser_of w headless)); [reflexivity|].
  destruct (new_page_raises (browser_of w headless)); [reflexivity|].
  destruct (goto_raises (browser_of w headless)); [reflexivity|].
  destruct (reply (bw_page (browser_of w headless)) llm) as [[|c x]|];
    cbn [truthy_opt truthy].
  - cbn. rewrite app_nil_r. reflexivity.
  - destruct save.
    + cbn [bind emit ret fst snd truthy_opt truthy app].
      rewrite save_response_eq.
      destruct (save_actions alnum_high (tw_save_fails w) (tw_stamp w)
                  (tw_iso w) (llm_name llm) prompt (c :: x) hp)
        as [t2 [u|e]]; cbn; rewrite ?app_nil_r, <- ?app_assoc; reflexivity.
    + cbn. rewrite !app_nil_r. reflexivity.
  - cbn. rewrite app_nil_r. reflexivity.
Qed.

Lemma save_actions_silent (alnum_high : codepoint -> bool) (io_fails : bool)
    (stamp iso name prompt response : pystr) (hp : option pystr) :
  forallb is_file_action
    (fst (save_actions alnum_high io_fails stamp iso name prompt response hp))
  = true
  /\ (forall e,
        snd (save_actions alnum_high io_fails stamp iso name prompt response
               hp) = Raise e ->
        saves_of (fst (save_actions alnum_high io_fails stamp iso name prompt
                         response hp)) = [])
  /\ (snd (save_actions alnum_high io_fails stamp iso name prompt response hp)
      = Ok tt ->
      saves_of (fst (save_actions alnum_high io_fails stamp iso name prompt
                       response hp))
      = [written_file alnum_high stamp iso name prompt response hp]
      /\ io_fails = false
      /\ encodable (written_text name prompt response hp) = true).
Proof.
  unfold save_actions.
  destruct io_fails;
    [|destruct (encodable (written_text name prompt response hp))];
    destruct (truthy_opt hp); cbn; split_all; try reflexivity;
    try (intros e H; first [reflexivity | discriminate H]);
    try (intros H; first [discriminate H | split_all; reflexivity]).
Qed.




Example escalating_world_run :
  snd (cmd_test no_high_alnum escalating_world plain_llm (lit "Hello") true
         None) = Ok true
  /\ existsb is_headful_launch
       (fst (cmd_test no_high_alnum escalating_world plain_llm (lit "Hello")
               true None)) = true
  /\ marks (fst (cmd_test no_high_alnum escalating_world plain_llm
                   (lit "Hello") true None))
     = [ EType (lit "Hello") 30;
         EPress "Enter"; EPress "Enter"; EPress "Enter";
         ESave (written_file no_high_alnum (lit "20250101_120000")
                  (lit "2025-01-01T12:00:00") (lit "demo") (lit "Hello")
                  (lit "Hello there") None) ].
Proof. split_all; reflexivity. Qed.

(** When the headless launch itself raises, the [finally] block of the
    first [try] reads the unbound local [context]: [cmd_test] raises and
    no headful attempt is made. *)
Example cmd_test_headless_launch_raises :
  cmd_test no_high_alnum
    (mkTestWorld true
       (fun headless =>
          mkBrowserWorld headless false false false
            (page_with [lit "Hello there"]))
       false (lit "20250101_120000") (lit "2025-01-01T12:00:00"))
    plain_llm (lit "Hello") true None
  = ([ELaunch true], Raise (UnboundLocalError "context")).
Proof. reflexivity. Qed.

(** ** The prompt source *)

Lemma dict_get_absent (d : list (pystr * json)) (k : pystr) :
  ~ In k (map fst d) -> dict_get d k = None.
Proof.
  induction d as [|[k' v] d IH]; cbn; intros H; [reflexivity|].
  destruct (pystr_eqb k' k) eqn:E.
  - apply pystr_eqb_true in E. tauto.
  - apply IH. tauto.
Qed.

Lemma dict_set_fresh (d : list (pystr * json)) (k : pystr) (v : json) :
  ~ In k (map fst d) -> dict_set d k v = d ++ [(k, v)].
Proof.
  induction d as [|[k' v'] d IH]; cbn; intros H; [reflexivity|].
  destruct (pystr_eqb k' k) eqn:E.
  - apply pystr_eqb_true in E. tauto.
  - rewrite IH by tauto. reflexivity.
Qed.

(** Built key by key from distinct names, the mapping lists the
    personas in their order. *)
Lemma mapping_of_distinct (ps : list (pystr * list pystr))
    (d : list (pystr * json)) :
  NoDup (map fst ps) ->
  (forall k, In k (map fst ps) -> ~ In k (map fst d)) ->
  fold_left (fun d np => dict_set d (fst np) (json_prompts (snd np))) ps d
  = d ++ map (fun np => (fst np, json_prompts (snd np))) ps.
Proof.
  revert d. induction ps as [|[n l] ps IH]; intros d ND Hd; cbn.
  - symmetry. apply app_nil_r.
  - inversion ND as [|? ? Hn ND']; subst.
    rewrite dict_set_fresh by (apply Hd; left; reflexivity).
    rewrite IH; [rewrite <- app_assoc; reflexivity | exact ND' |].
    intros k Hk. rewrite map_app, in_app_iff. cbn.
    intros [H | [H | []]].
    + exact (Hd k (or_intror Hk) H).
    + subst k. exact (Hn Hk).
Qed.

Lemma named_entries_encoded (ps : list (pystr * list pystr)) (i : N) :
  named_entries (map encode_entry ps) i = Ok (canonical ps).
Proof.
  revert i. induction ps as [|[n l] ps IH]; intros i.
  - reflexivity.
  - cbn [map named_entries]. unfold encode_entry at 1 2.
    cbn [py_get dict_get fst snd].
    change (pystr_eqb (lit "name") (lit "name")) with true.
    change (pystr_eqb (lit "name") (lit "prompts")) with false.
    change (pystr_eqb (lit "prompts") (lit "prompts")) with true.
    cbn iota. rewrite IH. reflexivity.
Qed.

Lemma as_strs_json (l : list pystr) : as_strs (map JStr l) = Some l.
Proof.
  induction l as [|x l IH]; cbn; [reflexivity|]. rewrite IH. reflexivity.
Qed.

Lemma typed_canonical (ps : list (pystr * list pystr)) :
  typed_honeypots (canonical ps) = Some ps.
Proof.
  induction ps as [|[n l] ps IH]; [reflexivity|].
  unfold canonical in *. cbn [map typed_honeypots fst snd json_prompts].
  rewrite as_strs_json, IH. reflexivity.
Qed.

(** The mapping form takes the second branch. *)
Lemma load_mapping (ps : list (pystr * list pystr)) :
  NoDup (map fst ps) ->
  ~ In (lit "honeypots") (map fst ps) ->
  load_honeypots (encode_mapping ps) = Ok (Some (canonical ps)).
Proof.
  intros ND NH. unfold encode_mapping.
  rewrite (mapping_of_distinct ps [] ND) by (intros k _ []).
  cbn [app]. unfold load_honeypots, py_in.
  rewrite dict_get_absent by (rewrite map_map; exact NH).
  match goal with
  | |- context [forallb ?f ?d] => replace (forallb f d) with true
  end.
  - rewrite map_map. reflexivity.
  - symmetry. apply forallb_forall. intros kv H.
    apply in_map_iff in H. destruct H as (np & <- & _). reflexivity.
Qed.

(** The wrapped form takes the first branch. *)
Lemma load_wrapped (ps : list (pystr * list pystr)) :
  load_honeypots (encode_wrapped ps) = Ok (Some (canonical ps)).
Proof.
  unfold encode_wrapped, load_honeypots.
  cbn [py_in dict_get py_subscript].
  change (pystr_eqb (lit "honeypots") (lit "honeypots")) with true.
  cbn iota. unfold encode_list. cbn [py_iter].
  rewrite named_entries_encoded. reflexivity.
Qed.

(** The list form takes the third branch. *)
Lemma load_list (ps : list (pystr * list pystr)) :
  load_honeypots (encode_list ps) = Ok (Some (canonical ps)).
Proof.
  unfold encode_list, load_honeypots. cbn [py_in].
  replace (existsb (is_str (lit "honeypots")) (map encode_entry ps))
    with false.
  - rewrite named_entries_encoded. reflexivity.
  - symmetry. induction ps as [|x ps IH]; [reflexivity|exact IH].
Qed.

(** On any of the encodings that loads to the canonical list,
    [cmd_batch] runs the loops on the prompt set itself. *)
Lemma cmd_batch_on_loaded (alnum_high : codepoint -> bool) (w : BatchWorld)
    (llm : Llm) (data : json) (ps : list (pystr * list pystr)) (delay : N) :
  profile_exists w = true ->
  load_honeypots data = Ok (Some (canonical ps)) ->
  cmd_batch alnum_high w llm data delay
  = Some (batch_run alnum_high w llm ps delay).
Proof.
  intros Hp Hload. unfold cmd_batch.
  rewrite Hp, Hload, typed_canonical. reflexivity.
Qed.

(** C9, as the code has it.  For a prompt set whose persona names are
    distinct and none of which is "honeypots", the three encodings (the
    mapping, the list of objects, that list under "honeypots") load to
    the same ordered (persona, prompts) list, the one the batch loops
    then run through. *)
Theorem three_shapes_load_alike (ps : list (pystr * list pystr)) :
  NoDup (map fst ps) ->
  ~ In (lit "honeypots") (map fst ps) ->
  load_honeypots (encode_mapping ps) = Ok (Some (canonical ps))
  /\ load_honeypots (encode_wrapped ps) = Ok (Some (canonical ps))
  /\ load_honeypots (encode_list ps) = Ok (Some (canonical ps))
  /\ typed_honeypots (canonical ps) = Some ps.
Proof.
  intros ND NH. split_all.
  - exact (load_mapping ps ND NH).
  - exact (load_wrapped ps).
  - exact (load_list ps).
  - apply typed_canonical.
Qed.

(** C9 as stated fails: the mapping whose one persona is named
    "honeypots" is read as the wrapped form, and the loader raises on
    its first prompt, while the list form of the same prompt set
    loads. *)
Lemma mapping_with_persona_honeypots :
  load_honeypots (encode_mapping persona_named_honeypots)
  = Raise (AttributeError "get")
  /\ load_honeypots (encode_list persona_named_honeypots)
     = Ok (Some (canonical persona_named_honeypots)).
Proof. split; reflexivity. Qed.

Lemma three_shapes_load_alike_witness :
  load_honeypots (encode_mapping two_personas) = Ok (Some (canonical two_personas))
  /\ load_honeypots (encode_wrapped two_personas)
     = Ok (Some (canonical two_personas))
  /\ load_honeypots (encode_list two_personas)
     = Ok (Some (canonical two_personas))
  /\ typed_honeypots (canonical two_personas) = Some two_personas.
Proof.
  apply (three_shapes_load_alike two_personas).
  - repeat constructor; cbn; intros H;
      repeat (destruct H as [H | H]; [discriminate H|]); exact H.
  - cbn. intros H.
    repeat (destruct H as [H | H]; [discriminate H|]). exact H.
Defined.

(** * Further properties of the runner *)

(** ** Normalization and trimming together *)

Lemma spec_words_snoc_space (t : pystr) (c : codepoint) :
  isspace c = true -> spec_words (t ++ [c]) = spec_words t.
Proof.
  intros Hc. induction t as [|x t IH].
  - cbn. rewrite Hc. reflexivity.
  - destruct t as [|d t'].
    + cbn. rewrite Hc. destruct (isspace x); reflexivity.
    + change (spec_words ((x :: d :: t') ++ [c])) with
        (if isspace x then spec_words ((d :: t') ++ [c])
         else if isspace d then [x] :: spec_words ((d :: t') ++ [c])
              else match spec_words ((d :: t') ++ [c]) with
                   | w :: ws => (x :: w) :: ws
                   | [] => [[x]]
                   end).
      rewrite IH. reflexivity.
Qed.

Lemma words_ascii_cons_space (c : codepoint) (s : pystr) :
  isspace c = true ->
  spec_words (filter is_ascii (c :: s)) = spec_words (filter is_ascii s).
Proof.
  intros Hc. cbn [filter]. destruct (is_ascii c); [|reflexivity].
  cbn [spec_words]. rewrite Hc. reflexivity.
Qed.

Lemma words_ascii_snoc_space (s : pystr) (c : codepoint) :
  isspace c = true ->
  spec_words (filter is_ascii (s ++ [c])) = spec_words (filter is_ascii s).
Proof.
  intros Hc. rewrite filter_app. cbn [filter].
  destruct (is_ascii c).
  - apply spec_words_snoc_space. exact Hc.
  - rewrite app_nil_r. reflexivity.
Qed.

Lemma words_ascii_lstrip (s : pystr) :
  spec_words (filter is_ascii (lstrip s)) = spec_words (filter is_ascii s).
Proof.
  induction s as [|c s IH]; [reflexivity|].
  cbn [lstrip]. destruct (isspace c) eqn:E; [|reflexivity].
  rewrite (words_ascii_cons_space c s E). exact IH.
Qed.

Lemma words_ascii_rev_lstrip (r : pystr) :
  spec_words (filter is_ascii (rev (lstrip r)))
  = spec_words (filter is_ascii (rev r)).
Proof.
  induction r as [|c r IH]; [reflexivity|].
  cbn [lstrip]. destruct (isspace c) eqn:E; [|reflexivity].
  cbn [rev]. rewrite (words_ascii_snoc_space _ c E). exact IH.
Qed.

Lemma clean_text_strip (raw : pystr) : clean_text (strip raw) = clean_text raw.
Proof.
  rewrite !clean_text_spec. unfold spec_normalize, strip, rstrip.
  rewrite words_ascii_rev_lstrip, rev_involutive, words_ascii_lstrip.
  reflexivity.
Qed.

(** X1.  Trimming the raw text before normalizing it changes nothing:
    what [send_prompt] returns for a raw inner text is [None] when the
    trimmed text has at most one character, and otherwise the
    normalization of the raw text itself. *)
Theorem extract_normalizes_raw_text (raw : pystr) :
  clean_text (strip raw) = clean_text raw
  /\ extract (strip raw)
     = if Nat.ltb 1 (List.length (strip raw))
       then Some (clean_text raw) else None.
Proof.
  split.
  - apply clean_text_strip.
  - rewrite extract_length, clean_text_strip. reflexivity.
Qed.

Lemma spec_words_nil_all_space (t : pystr) :
  spec_words t = [] -> forallb isspace t = true.
Proof.
  induction t as [|c r IH]; intros H; [reflexivity|].
  cbn [forallb]. destruct (isspace c) eqn:E.
  - cbn [spec_words] in H. rewrite E in H. exact (IH H).
  - exfalso. exact (spec_words_cons_nonspace c r E H).
Qed.

Lemma spec_words_all_space (t : pystr) :
  forallb isspace t = true -> spec_words t = [].
Proof.
  induction t as [|c r IH]; intros H; [reflexivity|].
  cbn [forallb] in H. apply andb_true_iff in H. destruct H as [Hc Hr].
  cbn [spec_words]. rewrite Hc. exact (IH Hr).
Qed.

Lemma forallb_filter_ascii_space (s : pystr) :
  forallb isspace (filter is_ascii s)
  = negb (existsb (fun c => is_ascii c && negb (isspace c)) s).
Proof.
  induction s as [|c s IH]; [reflexivity|].
  cbn [filter existsb]. destruct (is_ascii c); cbn.
  - rewrite IH. destruct (isspace c); reflexivity.
  - exact IH.
Qed.

(** X2.  The normalized text is non-empty exactly when the text holds an
    ASCII character that is not whitespace: a response made of emoji,
    non-ASCII letters and whitespace only normalizes to the empty
    string, which the callers of [send_prompt] count as a failure. *)
Theorem clean_text_nonempty_iff_ascii_content (text : pystr) :
  truthy (clean_text text)
  = existsb (fun c => is_ascii c && negb (isspace c)) text.
Proof.
  rewrite clean_text_spec. unfold spec_normalize.
  pose proof (forallb_filter_ascii_space text) as F.
  destruct (existsb _ text); cbn [negb] in F.
  - destruct (spec_join (spec_words (filter is_ascii text))) eqn:J;
      [|reflexivity].
    apply spec_join_nil_inv in J; [|apply spec_words_are_words].
    apply spec_words_nil_all_space in J. congruence.
  - rewrite (spec_words_all_space _ F). reflexivity.
Qed.

(** ** Names on disk *)

Lemma sanitize_char_fixed (alnum_high : codepoint -> bool) (c : codepoint) :
  kept alnum_high c = true -> sanitize_char alnum_high c = c.
Proof. intros H. rewrite sanitize_char_kept, H. reflexivity. Qed.

Lemma kept_not_special (alnum_high : codepoint -> bool) (c : codepoint) :
  kept alnum_high c = true -> path_special c = false.
Proof.
  unfold path_special. intros K.
  destruct (c =? 0) eqn:E0; [apply N.eqb_eq in E0; subst; discriminate K|].
  destruct (c =? 46) eqn:E1; [apply N.eqb_eq in E1; subst; discriminate K|].
  destruct (c =? 47) eqn:E2; [apply N.eqb_eq in E2; subst; discriminate K|].
  destruct (c =? 58) eqn:E3; [apply N.eqb_eq in E3; subst; discriminate K|].
  destruct (c =? 92) eqn:E4; [apply N.eqb_eq in E4; subst; discriminate K|].
  reflexivity.
Qed.

(** X3.  Sanitizing a name twice is sanitizing it once, and a sanitized
    name holds no NUL, dot, slash, colon or backslash: used as a path
    component it cannot leave its directory. *)
Theorem sanitize_name_path_safe (alnum_high : codepoint -> bool)
    (name : pystr) :
  sanitize_name alnum_high (sanitize_name alnum_high name)
  = sanitize_name alnum_high name
  /\ existsb path_special (sanitize_name alnum_high name) = false.
Proof.
  unfold sanitize_name. split.
  - rewrite map_map. apply map_ext. intros c.
    apply sanitize_char_fixed, kept_sanitize_char.
  - induction name as [|c r IH]; [reflexivity|].
    cbn [map existsb].
    rewrite (kept_not_special alnum_high _ (kept_sanitize_char alnum_high c)).
    exact IH.
Qed.

(** ** The locator, probe by probe *)

Lemma try_candidates_probed (fr : Frame) (sels : list string)
    (rest : list (Frame * query)) :
  probed (fst (try_candidates fr sels))
    ++ match snd (try_candidates fr sels) with
       | Some _ => []
       | None => probes_until rest
       end
  = probes_until (map (fun sel => (fr, Css sel)) sels ++ rest).
Proof.
  induction sels as [|sel sels IH]; cbn [try_candidates map app].
  - reflexivity.
  - cbn [probes_until fst snd]. destruct (visible fr (Css sel)).
    + reflexivity.
    + destruct (try_candidates fr sels) as [t r]. cbn [fst snd] in *.
      unfold probed in *. cbn [flat_map app]. f_equal. exact IH.
Qed.

Lemma scan_frames_probed (frs : list Frame) :
  probed (fst (scan_frames frs)) = probes_until (probe_plan frs).
Proof.
  induction frs as [|fr rest IH]; cbn [scan_frames].
  - reflexivity.
  - unfold probe_plan. cbn [flat_map]. rewrite <- app_comm_cons.
    cbn [probes_until fst snd].
    destruct (visible fr (ByRole "textbox")); [reflexivity|].
    pose proof (try_candidates_probed fr candidates
                  (flat_map (fun fr0 =>
                     (fr0, ByRole "textbox")
                       :: map (fun sel => (fr0, Css sel)) candidates) rest))
      as Hc.
    destruct (try_candidates fr candidates) as [t [l|]]; cbn [fst snd] in *.
    + unfold probed in *. cbn [flat_map app]. f_equal.
      rewrite app_nil_r in Hc. exact Hc.
    + destruct (scan_frames rest) as [t' r]. cbn [fst] in *.
      unfold probed in *. cbn [flat_map app]. f_equal.
      rewrite flat_map_app, IH. exact Hc.
Qed.

(** X4.  [find_input] probes, in this order, the main frame and then the
    other frames of the page, and in each frame the text-box role and
    then its five selectors; it stops at the first probe that becomes
    visible and returns it, and raises its [RuntimeError] when it has
    gone through every probe without finding one. *)
Theorem find_input_probes_in_order (page : Page) (hint : option string) :
  probed (fst (find_input page hint))
  = probes_until (probe_plan (frames_in_read_order page))
  /\ snd (find_input page hint)
     = match find (fun p => visible (fst p) (snd p))
               (probe_plan (frames_in_read_order page)) with
       | Some p => Ok (locator_of p)
       | None => Raise (RuntimeError " Input field not found")
       end.
Proof.
  split.
  - unfold find_input.
    pose proof (scan_frames_probed (frames_in_read_order page)) as H.
    destruct (scan_frames (frames_in_read_order page)) as [t [l|]];
      exact H.
  - unfold find_input.
    pose proof (scan_frames_find (frames_in_read_order page)) as H.
    destruct (scan_frames (frames_in_read_order page)) as [t [l|]];
      cbn [snd] in *;
      destruct (find _ (probe_plan _)); simpl in H; congruence.
Qed.

Lemma try_candidates_budget (fr : Frame) (sels : list string) :
  probe_timeouts (fst (try_candidates fr sels))
  <= 1000 * N.of_nat (List.length sels).
Proof.
  induction sels as [|sel sels IH]; cbn [try_candidates List.length].
  - cbn. lia.
  - destruct (visible fr (Css sel)).
    + cbn [fst probe_timeouts fold_right]. lia.
    + destruct (try_candidates fr sels) as [t r]. cbn [fst] in *.
      cbn [probe_timeouts fold_right]. fold (probe_timeouts t). lia.
Qed.

Lemma probe_timeouts_app (a b : trace) :
  probe_timeouts (a ++ b) = probe_timeouts a + probe_timeouts b.
Proof.
  induction a as [|ev a IH]; [reflexivity|].
  cbn [app probe_timeouts fold_right]. fold (probe_timeouts (a ++ b)).
  fold (probe_timeouts a). rewrite IH. destruct ev; lia.
Qed.

Lemma scan_frames_budget (frs : list Frame) :
  probe_timeouts (fst (scan_frames frs))
  <= 10000 * N.of_nat (List.length frs).
Proof.
  induction frs as [|fr rest IH]; cbn [scan_frames List.length].
  - cbn. lia.
  - destruct (visible fr (ByRole "textbox")).
    + cbn [fst probe_timeouts fold_right]. lia.
    + pose proof (try_candidates_budget fr candidates) as Hc.
      change (List.length candidates) with 5%nat in Hc.
      destruct (try_candidates fr candidates) as [t [l|]]; cbn [fst] in *.
      * cbn [probe_timeouts fold_right]. fold (probe_timeouts t). lia.
      * destruct (scan_frames rest) as [t' r]. cbn [fst] in *.
        cbn [probe_timeouts fold_right]. fold (probe_timeouts (t ++ t')).
        rewrite probe_timeouts_app. lia.
Qed.

(** X5.  [find_input] waits at most ten seconds per frame it scans (one
    probe of 5000 ms and five of 1000 ms), so at most ten seconds times
    one more than the number of frames the page lists. *)
Theorem find_input_time_budget (page : Page) (hint : option string) :
  probe_timeouts (fst (find_input page hint))
  <= 10000 * N.of_nat (List.length (frames_in_read_order page))
  /\ (List.length (frames_in_read_order page)
      <= 1 + List.length (frames page))%nat.
Proof.
  split.
  - unfold find_input.
    pose proof (scan_frames_budget (frames_in_read_order page)) as H.
    destruct (scan_frames (frames_in_read_order page)) as [t [l|]];
      exact H.
  - unfold frames_in_read_order. cbn [List.length].
    apply le_n_S, filter_length_le.
Qed.

Example find_input_nested_page :
  find_input nested_page None
  = ([ EProbe (mkLocator 0 (ByRole "textbox")) 5000;
       EProbe (mkLocator 0 (Css "textarea")) 1000;
       EProbe (mkLocator 0 (Css "div[contenteditable='true']")) 1000;
       EProbe (mkLocator 0 (Css "input[type='text']")) 1000;
       EProbe (mkLocator 0 (Css "[aria-label*='message' i]")) 1000;
       EProbe (mkLocator 0 (Css "#prompt-textarea")) 1000;
       EProbe (mkLocator 7 (ByRole "textbox")) 5000 ],
     Ok (mkLocator 7 (ByRole "textbox"))).
Proof. reflexivity. Qed.

(** ** The ways an exchange fails *)

(** X6.  [send_prompt] never raises, whatever the page does: it returns
    [None] or a text; it acts on the page only (probes, click, typing,
    key presses, waits, one read); and a text it returns is normalized
    and ASCII. *)
Theorem send_prompt_never_raises (page : Page) (llm : Llm) (prompt : pystr) :
  exists (t : trace) (r : option pystr),
    send_prompt page llm prompt = (t, Ok r)
    /\ forallb is_page_action t = true
    /\ match r with
       | Some x => clean_text x = x /\ forallb is_ascii x = true
       | None => True
       end.
Proof.
  destruct (send_prompt_shape page llm prompt) as (t & r & E & A & Nm).
  exists t, r. split_all; try assumption.
  destruct r as [x|]; [|exact I].
  pose proof (Nm x eq_refl) as H. split; [exact H|].
  rewrite <- H. apply forallb_forall. intros c Hc.
  pose proof (clean_text_ascii x) as F. rewrite Forall_forall in F.
  exact (F c Hc).
Qed.

(** X7.  When no probe of the locator becomes visible, [send_prompt]
    returns [None] having only probed: it clicks nothing and types
    nothing. *)
Theorem send_prompt_input_not_found (page : Page) (llm : Llm)
    (prompt : pystr) :
  find (fun p => visible (fst p) (snd p))
    (probe_plan (frames_in_read_order page)) = None ->
  send_prompt page llm prompt
  = (fst (find_input page (input_selector llm)), Ok None)
  /\ forallb (fun ev => match ev with EProbe _ _ => true | _ => false end)
       (fst (send_prompt page llm prompt)) = true.
Proof.
  intros H.
  pose proof (find_input_first_visible page (input_selector llm)) as F.
  rewrite H in F.
  assert (P : forall frs,
             forallb (fun ev => match ev with EProbe _ _ => true | _ => false end)
               (fst (scan_frames frs)) = true).
  { induction frs as [|fr rest IH]; cbn [scan_frames]; [reflexivity|].
    destruct (visible fr (ByRole "textbox")); [reflexivity|].
    assert (C : forall sels,
               forallb (fun ev => match ev with EProbe _ _ => true | _ => false end)
                 (fst (try_candidates fr sels)) = true).
    { induction sels as [|sel sels IHs]; cbn [try_candidates]; [reflexivity|].
      destruct (visible fr (Css sel)); [reflexivity|].
      destruct (try_candidates fr sels) as [t r]. exact IHs. }
    specialize (C candidates).
    destruct (try_candidates fr candidates) as [t [l|]]; cbn [fst] in *.
    - cbn. exact C.
    - destruct (scan_frames rest) as [t' r]. cbn [fst] in *. cbn.
      rewrite forallb_app, C, IH. reflexivity. }
  specialize (P (frames_in_read_order page)).
  unfold send_prompt. unfold find_input in *.
  destruct (scan_frames (frames_in_read_order page)) as [t [l|]];
    cbn [snd fst] in *; [discriminate F|].
  cbn. rewrite app_nil_r. split; [reflexivity | exact P].
Qed.

(** X8.  When the input is found and clicked but the response selector
    matches no element, the prompt has been typed and submitted and
    [send_prompt] returns [None]: the read of the last element times out
    and the exception is swallowed. *)
Theorem send_prompt_no_response_element (page : Page) (llm : Llm)
    (prompt : pystr) (t : trace) (inp : Locator) :
  find_input page (input_selector llm) = (t, Ok inp) ->
  click_raises page = false ->
  region page (get_response_selector llm) = [] ->
  send_prompt page llm prompt
  = (t ++ exchange_actions llm prompt inp, Ok None)
  /\ In (EType prompt 30) (fst (send_prompt page llm prompt)).
Proof.
  intros F C R. rewrite (send_prompt_found _ _ _ _ _ F C), R.
  split; [reflexivity|]. cbn [fst]. apply in_or_app. right.
  cbn. tauto.
Qed.

Lemma send_prompt_input_not_found_witness :
  send_prompt blank_page plain_llm (lit "Hello")
  = (fst (find_input blank_page (input_selector plain_llm)), Ok None)
  /\ forallb (fun ev => match ev with EProbe _ _ => true | _ => false end)
       (fst (send_prompt blank_page plain_llm (lit "Hello"))) = true.
Proof.
  apply (send_prompt_input_not_found blank_page plain_llm (lit "Hello")).
  reflexivity.
Defined.

Lemma send_prompt_no_response_element_witness :
  send_prompt (page_with []) plain_llm (lit "Hello")
  = ([EProbe (mkLocator 0 (ByRole "textbox")) 5000]
       ++ exchange_actions plain_llm (lit "Hello")
            (mkLocator 0 (ByRole "textbox")),
     Ok None)
  /\ In (EType (lit "Hello") 30)
       (fst (send_prompt (page_with []) plain_llm (lit "Hello"))).
Proof.
  apply (send_prompt_no_response_element (page_with []) plain_llm
           (lit "Hello") [EProbe (mkLocator 0 (ByRole "textbox")) 5000]
           (mkLocator 0 (ByRole "textbox")));
    reflexivity.
Defined.

(** ** The test flow, case by case *)

(** What one attempt of [cmd_test] leaves behind: it launches a browser
    of its mode only; when it returns, its browser and context were
    created; it writes one record, normalized and of this prompt, when
    it returns a non-empty response and saving is on, and nothing
    otherwise. *)
Lemma attempt_shape (alnum_high : codepoint -> bool) (w : TestWorld)
    (headless : bool) (llm : Llm) (prompt : pystr) (save : bool)
    (hp : option pystr) :
  exists (t : trace) (r : result (option pystr)),
    attempt alnum_high w headless llm prompt save hp = (t, r)
    /\ existsb is_headful_launch t = negb headless
    /\ match r with
       | Ok resp =>
           launch_raises (browser_of w headless) = false
           /\ new_context_raises (browser_of w headless) = false
           /\ (if truthy_opt resp && save
               then tw_save_fails w = false
                    /\ exists f, saves_of t = [f]
                         /\ normalized_record f
                         /\ sf_prompt f = prompt
                         /\ sf_provider f = llm_name llm
               else saves_of t = [])
       | Raise _ => saves_of t = []
       end.
Proof.
  rewrite attempt_eq. cbn zeta.
  destruct (send_prompt_shape (bw_page (browser_of w headless)) llm prompt)
    as (ts & rs & Es & As & _).
  destruct (page_actions_silent ts As) as (_ & Ss & Ls).
  rewrite Es. cbn [fst].
  destruct (launch_raises (browser_of w headless));
    [destruct headless; cbn; eexists; eexists; split_all; reflexivity|].
  destruct (new_context_raises (browser_of w headless));
    [destruct headless; cbn; eexists; eexists; split_all; reflexivity|].
  destruct (new_page_raises (browser_of w headless));
    [destruct headless; cbn; eexists; eexists; split_all; reflexivity|].
  destruct (goto_raises (browser_of w headless));
    [destruct headless; cbn; eexists; eexists; split_all; reflexivity|].
  assert (Hd : forall tail,
             existsb is_headful_launch
               ([ELaunch headless; ENewContext; ENewPage;
                 EGoto (llm_url llm)] ++ ts ++ tail)
             = negb headless || existsb is_headful_launch tail).
  { intros tail. rewrite !existsb_app, Ls. destruct headless; reflexivity. }
  assert (Sd : forall tail,
             saves_of ([ELaunch headless; ENewContext; ENewPage;
                        EGoto (llm_url llm)] ++ ts ++ tail)
             = saves_of tail).
  { intros tail. rewrite !saves_of_app, Ss. reflexivity. }
  destruct (reply (bw_page (browser_of w headless)) llm) as [[|c x]|] eqn:Rp.
  - eexists; eexists. split; [reflexivity|].
    rewrite <- (app_nil_r ts), Hd, Sd. cbn. rewrite orb_false_r.
    split_all; reflexivity.
  - destruct (reply_normalized _ _ _ Rp) as (Nx & _).
    destruct save.
    + destruct (save_actions_silent alnum_high (tw_save_fails w) (tw_stamp w)
                  (tw_iso w) (llm_name llm) prompt (c :: x) hp)
        as (Fa & Fr & Fo).
      destruct (save_actions alnum_high (tw_save_fails w) (tw_stamp w)
                  (tw_iso w) (llm_name llm) prompt (c :: x) hp)
        as [t2 [u|e]]; cbn [fst snd] in *;
        destruct (file_actions_silent t2 Fa) as (_ & _ & L2);
        eexists; eexists; (split; [reflexivity|]);
        rewrite <- app_assoc, Hd, Sd, L2, orb_false_r.
      * destruct u. destruct (Fo eq_refl) as (Sv & Io & _).
        split; [reflexivity|]. cbn [truthy_opt truthy andb].
        split_all; try reflexivity; [exact Io|].
        eexists. split; [exact Sv|].
        unfold written_file, normalized_record. cbn [sf_response sf_prompt
                                                     sf_provider].
        split_all; try reflexivity. exact Nx.
      * split; [reflexivity | exact (Fr e eq_refl)].
    + eexists; eexists. split; [reflexivity|].
      rewrite <- (app_nil_r ts), Hd, Sd. cbn. rewrite orb_false_r.
      split_all; reflexivity.
  - eexists; eexists. split; [reflexivity|].
    rewrite <- (app_nil_r ts), Hd, Sd. cbn. rewrite orb_false_r.
    split_all; reflexivity.
Qed.

Lemma page_actions_no_teardown (t : trace) :
  forallb is_page_action t = true -> existsb is_teardown t = false.
Proof.
  induction t as [|ev t IH]; intros H; [reflexivity|].
  cbn [forallb] in H. apply andb_true_iff in H. destruct H as [He Ht].
  cbn [existsb]. rewrite (IH Ht). destruct ev; try discriminate; reflexivity.
Qed.

(** An attempt closes nothing: closing is left to the [finally] blocks
    of [cmd_test]. *)
Lemma attempt_no_teardown (alnum_high : codepoint -> bool) (w : TestWorld)
    (headless : bool) (llm : Llm) (prompt : pystr) (save : bool)
    (hp : option pystr) :
  existsb is_teardown (fst (attempt alnum_high w headless llm prompt save hp))
  = false.
Proof.
  rewrite attempt_eq. cbn zeta.
  destruct (send_prompt_shape (bw_page (browser_of w headless)) llm prompt)
    as (ts & rs & Es & As & _).
  pose proof (page_actions_no_teardown ts As) as Ts.
  rewrite Es. cbn [fst].
  destruct (launch_raises (browser_of w headless)); [reflexivity|].
  destruct (new_context_raises (browser_of w headless)); [reflexivity|].
  destruct (new_page_raises (browser_of w headless)); [reflexivity|].
  destruct (goto_raises (browser_of w headless)); [reflexivity|].
  assert (Sa : existsb is_teardown
                 (fst (save_actions alnum_high (tw_save_fails w) (tw_stamp w)
                         (tw_iso w) (llm_name llm) prompt
                         (match reply (bw_page (browser_of w headless)) llm
                          with Some x => x | None => [] end) hp)) = false).
  { unfold save_actions.
    destruct (tw_save_fails w); [|destruct (encodable _)];
      destruct (truthy_opt hp); reflexivity. }
  destruct (reply (bw_page (browser_of w headless)) llm) as [[|c x]|];
    [| destruct save;
       [destruct (save_actions alnum_high (tw_save_fails w) (tw_stamp w)
                    (tw_iso w) (llm_name llm) prompt (c :: x) hp)
          as [t2 [u|e]]; cbn [fst snd] in *|] |];
    cbn [fst]; rewrite ?existsb_app, ?Ts, ?Sa; reflexivity.
Qed.

(** X9.  A headless attempt that returns a non-empty response ends
    [cmd_test]: the headless context and browser are closed, [True] is
    returned, no headful browser is launched, and the Playwright driver
    started for the test is never stopped. *)
Theorem cmd_test_headless_success_is_final (alnum_high : codepoint -> bool)
    (w : TestWorld) (llm : Llm) (prompt : pystr) (save : bool)
    (hp : option pystr) (r : option pystr) :
  state_exists w = true ->
  snd (attempt alnum_high w true llm prompt save hp) = Ok r ->
  truthy_opt r = true ->
  cmd_test alnum_high w llm prompt save hp
  = (fst (attempt alnum_high w true llm prompt save hp)
       ++ [ECloseContext; ECloseBrowser], Ok true)
  /\ existsb is_headful_launch
       (fst (cmd_test alnum_high w llm prompt save hp)) = false
  /\ existsb (fun ev => match ev with EStop => true | _ => false end)
       (fst (cmd_test alnum_high w llm prompt save hp)) = false.
Proof.
  intros Hs Hr Ht.
  destruct (attempt_shape alnum_high w true llm prompt save hp)
    as (t & r' & E & L & Sh).
  pose proof (attempt_no_teardown alnum_high w true llm prompt save hp) as Nt.
  rewrite E in Hr, Nt |- *. cbn [fst snd] in *. subst r'.
  destruct Sh as (Hl & Hc & _).
  assert (C : cmd_test alnum_high w llm prompt save hp
              = (t ++ [ECloseContext; ECloseBrowser], Ok true)).
  { unfold cmd_test. rewrite Hs, Hl, Hc, E. cbn. rewrite Ht. cbn.
    rewrite ?app_nil_r. reflexivity. }
  rewrite C. cbn [fst]. split_all.
  - reflexivity.
  - rewrite existsb_app, L. reflexivity.
  - rewrite existsb_app. cbn.
    assert (S : existsb (fun ev => match ev with EStop => true | _ => false end)
                  t = false).
    { clear -Nt. induction t as [|ev t IH]; [reflexivity|].
      cbn [existsb] in *. apply orb_false_iff in Nt. destruct Nt as [A B].
      rewrite (IH B). destruct ev; try discriminate; reflexivity. }
    rewrite S. reflexivity.
Qed.

Lemma cmd_test_headless_success_is_final_witness :
  cmd_test no_high_alnum answering_world plain_llm (lit "Hello") true None
  = (fst (attempt no_high_alnum answering_world true plain_llm (lit "Hello")
            true None)
       ++ [ECloseContext; ECloseBrowser], Ok true)
  /\ existsb is_headful_launch
       (fst (cmd_test no_high_alnum answering_world plain_llm (lit "Hello")
               true None)) = false
  /\ existsb (fun ev => match ev with EStop => true | _ => false end)
       (fst (cmd_test no_high_alnum answering_world plain_llm (lit "Hello")
               true None)) = false.
Proof.
  apply (cmd_test_headless_success_is_final no_high_alnum answering_world
           plain_llm (lit "Hello") true None (Some (lit "Hello there")));
    reflexivity.
Defined.

(** X10.  When the headless launch or the creation of its context
    raises, the [finally] block of the first [try] reads the unbound
    local [context]: [cmd_test] raises [UnboundLocalError] instead of
    falling back, having launched no headful browser, written nothing
    and closed nothing. *)
Theorem cmd_test_unbound_context (alnum_high : codepoint -> bool)
    (w : TestWorld) (llm : Llm) (prompt : pystr) (save : bool)
    (hp : option pystr) :
  state_exists w = true ->
  launch_raises (browser_of w true)
    || new_context_raises (browser_of w true) = true ->
  cmd_test alnum_high w llm prompt save hp
  = ((if launch_raises (browser_of w true)
      then [ELaunch true] else [ELaunch true; ENewContext]),
     Raise (UnboundLocalError "context")).
Proof.
  intros Hs Hb. unfold cmd_test, attempt, step. rewrite Hs, Hb.
  destruct (launch_raises (browser_of w true)); [reflexivity|].
  cbn [orb] in Hb. rewrite Hb. reflexivity.
Qed.

Lemma cmd_test_unbound_context_witness :
  cmd_test no_high_alnum launch_failing_world plain_llm (lit "Hello") true
    None
  = ([ELaunch true], Raise (UnboundLocalError "context")).
Proof.
  apply (cmd_test_unbound_context no_high_alnum launch_failing_world
           plain_llm (lit "Hello") true None);
    reflexivity.
Defined.

(** X11.  [cmd_test] writes a record exactly when it returns [True] with
    saving on, and then exactly one: the record of this prompt and
    provider, holding the non-empty normalized response.  When it
    returns [False] or raises, or with saving off, nothing is written. *)
Theorem cmd_test_writes_iff_true (alnum_high : codepoint -> bool)
    (w : TestWorld) (llm : Llm) (prompt : pystr) (save : bool)
    (hp : option pystr) :
  match snd (cmd_test alnum_high w llm prompt save hp) with
  | Ok true =>
      if save
      then exists f,
             saves_of (fst (cmd_test alnum_high w llm prompt save hp)) = [f]
             /\ normalized_record f
             /\ sf_prompt f = prompt
             /\ sf_provider f = llm_name llm
      else saves_of (fst (cmd_test alnum_high w llm prompt save hp)) = []
  | _ => saves_of (fst (cmd_test alnum_high w llm prompt save hp)) = []
  end.
Proof.
  destruct (attempt_shape alnum_high w true llm prompt save hp)
    as (t1 & r1 & E1 & _ & Sh1).
  destruct (attempt_shape alnum_high w false llm prompt save hp)
    as (t2 & r2 & E2 & _ & Sh2).
  unfold cmd_test. rewrite E1, E2.
  destruct (state_exists w); [|reflexivity]. cbn [negb].
  destruct r1 as [resp1|e1].
  - destruct Sh1 as (Hl & Hc & S1). rewrite Hl, Hc. cbn [orb negb].
    destruct (truthy_opt resp1) eqn:T1.
    + cbn. rewrite T1. cbn. rewrite ?app_nil_r, saves_of_app.
      cbn [andb] in S1. destruct save.
      * destruct S1 as (_ & f & Sf & Nf & Pf & Vf). exists f.
        rewrite Sf. split_all; try assumption. reflexivity.
      * rewrite S1. reflexivity.
    + cbn [andb] in S1. cbn. rewrite T1. cbn.
      destruct r2 as [resp2|e2].
      * destruct Sh2 as (_ & _ & S2). cbn.
        destruct (truthy_opt resp2) eqn:T2; cbn; rewrite ?app_nil_r;
          rewrite !saves_of_app, S1; cbn [andb] in S2.
        -- destruct save.
           ++ destruct S2 as (_ & f & Sf & Nf & Pf & Vf). exists f.
              rewrite Sf. split_all; try assumption. reflexivity.
           ++ rewrite S2. reflexivity.
        -- rewrite S2. reflexivity.
      * cbn. rewrite ?app_nil_r, !saves_of_app, S1, Sh2. reflexivity.
  - destruct (negb (launch_raises (browser_of w true)
                    || new_context_raises (browser_of w true))).
    + cbn. destruct r2 as [resp2|e2].
      * destruct Sh2 as (_ & _ & S2). cbn.
        destruct (truthy_opt resp2) eqn:T2; cbn; rewrite ?app_nil_r;
          rewrite !saves_of_app, Sh1; cbn [andb] in S2.
        -- destruct save.
           ++ destruct S2 as (_ & f & Sf & Nf & Pf & Vf). exists f.
              rewrite Sf. split_all; try assumption. reflexivity.
           ++ rewrite S2. reflexivity.
        -- rewrite S2. reflexivity.
      * cbn. rewrite ?app_nil_r, !saves_of_app, Sh1, Sh2. reflexivity.
    + cbn. rewrite ?app_nil_r. exact Sh1.
Qed.

(** ** Batches that are cut short *)

(** X12.  Once the browser is launched, [cmd_batch] always returns a
    summary and always closes: its actions end with the wait, the close
    of the context and the stop of the driver.  The summary names the
    provider, its total is the number of prompts of the source, its
    success count is the number of records written, and the two
    counters together never exceed the number of prompts started, which
    are an initial segment of the source.  When the navigation raises,
    no prompt is started and both counters are zero. *)
Theorem batch_run_always_summarizes (alnum_high : codepoint -> bool)
    (w : BatchWorld) (llm : Llm) (honeypots : list (pystr * list pystr))
    (delay : N) :
  launch_persistent_raises w = false ->
  exists (tm : trace) (s : Summary),
    batch_run alnum_high w llm honeypots delay
    = (ELaunchPersistent true :: ENewPage :: EGoto (llm_url llm) :: tm
         ++ [EWait 2000; ECloseContext; EStop], Ok s)
    /\ s_llm s = Some (llm_name llm)
    /\ s_total s = List.length (flat_prompts honeypots)
    /\ s_success s = List.length (saves_of tm)
    /\ (s_success s + s_failed s <= List.length (prompts_of tm))%nat
    /\ (List.length (prompts_of tm) <= s_total s)%nat
    /\ prompts_of tm
       = firstn (List.length (prompts_of tm)) (flat_prompts honeypots)
    /\ (batch_goto_raises w = true ->
        tm = [] /\ s_success s = 0%nat /\ s_failed s = 0%nat).
Proof.
  intros Hl.
  destruct (batch_run_unfold alnum_high w llm honeypots delay Hl)
    as (tm & st & e & E & [(G & -> & ->) | (G & R)]).
  - eexists; eexists. split; [exact E|].
    cbn. rewrite total_prompts_flat.
    split_all; try reflexivity; try lia. intros _. repeat split.
  - pose proof (run_honeypots_inv alnum_high w llm delay honeypots
                  (mkBatchState 0 0 0)) as I.
    rewrite R in I.
    destruct I as (n & Hn & M & Sn & C & K & _).
    cbn [sent success_count failed_count] in *.
    assert (P : prompts_of tm = firstn n (flat_prompts honeypots)).
    { rewrite <- prompts_of_marks, M. apply prompts_of_blocks. }
    assert (Ln : List.length (prompts_of tm) = n).
    { rewrite P, length_firstn. lia. }
    eexists; eexists. split; [exact E|].
    cbn [s_llm s_total s_success s_failed].
    rewrite total_prompts_flat, Ln.
    split_all; try assumption; try reflexivity.
    + destruct e as [x|]; [destruct K as [(_ & K) | (_ & _ & K & _)]
                          | destruct K as (_ & K)]; lia.
    + rewrite G. discriminate.
Qed.

Lemma batch_run_always_summarizes_witness :
  exists (tm : trace) (s : Summary),
    batch_run no_high_alnum full_disk_world plain_llm two_personas 5
    = (ELaunchPersistent true :: ENewPage :: EGoto (llm_url plain_llm) :: tm
         ++ [EWait 2000; ECloseContext; EStop], Ok s)
    /\ s_llm s = Some (llm_name plain_llm)
    /\ s_total s = List.length (flat_prompts two_personas)
    /\ s_success s = List.length (saves_of tm)
    /\ (s_success s + s_failed s <= List.length (prompts_of tm))%nat
    /\ (List.length (prompts_of tm) <= s_total s)%nat
    /\ prompts_of tm
       = firstn (List.length (prompts_of tm)) (flat_prompts two_personas)
    /\ (batch_goto_raises full_disk_world = true ->
        tm = [] /\ s_success s = 0%nat /\ s_failed s = 0%nat).
Proof.
  apply (batch_run_always_summarizes no_high_alnum full_disk_world plain_llm
           two_personas 5).
  reflexivity.
Defined.

(** X13.  When the browser is launched and the page loads, the two
    counters fall short of the total for one of two reasons only, each
    an exception caught by the [except] of [cmd_batch].  Either every
    prompt was started and counted once; or [save_response] raised
    after a non-empty reply, at the exchange whose number is the sum of
    the two counters, because the file system refused the write or a
    text could not be encoded: that prompt is counted in neither
    counter and no later prompt was started; or a [print] of a persona
    name or of the head of a prompt raised, in a source that holds a
    text that cannot be encoded: every prompt announced was counted.
    With a provider name and a source that can be encoded, a shortfall
    is a refused write. *)
Theorem batch_shortfall_causes (alnum_high : codepoint -> bool)
    (w : BatchWorld) (llm : Llm) (honeypots : list (pystr * list pystr))
    (delay : N) :
  launch_persistent_raises w = false ->
  batch_goto_raises w = false ->
  exists (t : trace) (s : Summary),
    batch_run alnum_high w llm honeypots delay = (t, Ok s)
    /\ ((prompts_of t = flat_prompts honeypots
         /\ (s_success s + s_failed s)%nat = s_total s)
        \/ (List.length (prompts_of t) = S (s_success s + s_failed s)
            /\ (s_success s + s_failed s < s_total s)%nat
            /\ exists (np : pystr * pystr) (c : codepoint) (r : pystr),
                 nth_error (flat_prompts honeypots)
                   (s_success s + s_failed s) = Some np
                 /\ reply (page_at w (s_success s + s_failed s)) llm
                    = Some (c :: r)
                 /\ (save_fails_at w (s_success s + s_failed s) = true
                     \/ encodable (written_text (llm_name llm) (snd np)
                                     (c :: r) (Some (fst np))) = false))
        \/ (encodable_source honeypots = false
            /\ prompts_of t
               = firstn (s_success s + s_failed s) (flat_prompts honeypots)))
    /\ (encodable_source honeypots = true ->
        encodable (llm_name llm) = true ->
        (prompts_of t = flat_prompts honeypots
         /\ (s_success s + s_failed s)%nat = s_total s)
        \/ (save_fails_at w (s_success s + s_failed s) = true
            /\ List.length (prompts_of t) = S (s_success s + s_failed s)
            /\ (s_success s + s_failed s < s_total s)%nat)).
Proof.
  intros Hl Hg.
  destruct (batch_run_unfold alnum_high w llm honeypots delay Hl)
    as (tm & st & e & E & [(G & _) | (_ & R)]); [congruence|].
  pose proof (run_honeypots_inv alnum_high w llm delay honeypots
                (mkBatchState 0 0 0)) as I.
  rewrite R in I.
  destruct I as (n & Hn & M & Sn & C & K & _).
  cbn [sent success_count failed_count] in *.
  assert (P : prompts_of tm = firstn n (flat_prompts honeypots)).
  { rewrite <- prompts_of_marks, M. apply prompts_of_blocks. }
  eexists; eexists. split; [exact E|].
  destruct (batch_frame (llm_url llm) tm) as (_ & _ & Fp).
  rewrite Fp. cbn [s_success s_failed s_total].
  rewrite total_prompts_flat, P.
  destruct e as [x|].
  - destruct K as [(Kx & K) | (Kx & K1 & K & np & c & r & Hnth & Hr & Hrec)].
    + assert (Es : encodable_source honeypots = false).
      { destruct (encodable_source honeypots) eqn:Es; [|reflexivity].
        destruct (run_honeypots_no_print _ _ _ _ _ _ _ _ _ Es R Kx). }
      split.
      * right. right. split; [exact Es|].
        replace (success_count st + failed_count st)%nat with n by lia.
        reflexivity.
      * intros Es'. rewrite Es in Es'. discriminate Es'.
    + assert (Hk : (success_count st + failed_count st)%nat = (n - 1)%nat)
        by lia.
      rewrite Hk, length_firstn. cbn [Nat.add] in Hr, Hrec.
      split.
      * right. left. split_all; [lia | lia |].
        exists np, c, r. split_all; [exact Hnth | exact Hr |].
        unfold record_at in Hrec. rewrite Hr in Hrec.
        destruct (save_fails_at w (n - 1)); [left; reflexivity|].
        right. cbn [orb] in Hrec.
        destruct (encodable _); [discriminate Hrec | reflexivity].
      * intros Es En. right.
        destruct (encodable_flat honeypots np Es (nth_error_In _ _ Hnth))
          as (Ef & Ep).
        split_all; [|lia|lia].
        exact (record_refused _ _ _ _ _ _ _ Hr Hrec En Ef Ep).
  - destruct K as (-> & K). rewrite firstn_all.
    split; [left | intros _ _; left]; (split; [reflexivity | lia]).
Qed.

Lemma batch_shortfall_causes_witness :
  exists (t : trace) (s : Summary),
    batch_run no_high_alnum full_disk_world plain_llm two_personas 5
    = (t, Ok s)
    /\ ((prompts_of t = flat_prompts two_personas
         /\ (s_success s + s_failed s)%nat = s_total s)
        \/ (List.length (prompts_of t) = S (s_success s + s_failed s)
            /\ (s_success s + s_failed s < s_total s)%nat
            /\ exists (np : pystr * pystr) (c : codepoint) (r : pystr),
                 nth_error (flat_prompts two_personas)
                   (s_success s + s_failed s) = Some np
                 /\ reply (page_at full_disk_world
                             (s_success s + s_failed s)) plain_llm
                    = Some (c :: r)
                 /\ (save_fails_at full_disk_world
                       (s_success s + s_failed s) = true
                     \/ encodable (written_text (llm_name plain_llm) (snd np)
                                     (c :: r) (Some (fst np))) = false))
        \/ (encodable_source two_personas = false
            /\ prompts_of t
               = firstn (s_success s + s_failed s)
                   (flat_prompts two_personas)))
    /\ (encodable_source two_personas = true ->
        encodable (llm_name plain_llm) = true ->
        (prompts_of t = flat_prompts two_personas
         /\ (s_success s + s_failed s)%nat = s_total s)
        \/ (save_fails_at full_disk_world (s_success s + s_failed s) = true
            /\ List.length (prompts_of t) = S (s_success s + s_failed s)
            /\ (s_success s + s_failed s < s_total s)%nat)).
Proof.
  apply (batch_shortfall_causes no_high_alnum full_disk_world plain_llm
           two_personas 5);
    reflexivity.
Defined.

Example full_disk_world_run :
  snd (batch_run no_high_alnum full_disk_world plain_llm two_personas 5)
  = Ok (mkSummary (Some (lit "demo")) 1 0 3)
  /\ prompts_of
       (fst (batch_run no_high_alnum full_disk_world plain_llm two_personas
               5))
     = [ (lit "alice", lit "Who is Alice?");
         (lit "alice", lit "Where does Alice work?") ].
Proof. split; reflexivity. Qed.

(** ** Prompt sources of any shape *)

Lemma named_entries_cases (items : list json) (i : N) :
  match named_entries items i with
  | Ok hps =>
      forallb is_dict items = true /\ List.length hps = List.length items
  | Raise e => forallb is_dict items = false /\ e = AttributeError "get"
  end.
Proof.
  revert i. induction items as [|h rest IH]; intros i.
  - split; reflexivity.
  - cbn [named_entries forallb]. specialize (IH (i + 1)).
    destruct h; cbn [py_get is_dict andb]; try (split; reflexivity).
    destruct (named_entries rest (i + 1)) as [t|e].
    + destruct IH as (A & L). split; [exact A|]. cbn. rewrite L. reflexivity.
    + exact IH.
Qed.

(** X14.  A list source is never reported as unrecognized.  It loads,
    with one honeypot per element, exactly when no element is the string
    "honeypots" and every element is an object; when an element is the
    string "honeypots" the loader raises [TypeError] (it subscripts the
    list with a string), and otherwise, when some element is not an
    object, it raises [AttributeError]. *)
Theorem load_list_source (l : list json) :
  match load_honeypots (JList l) with
  | Ok (Some hps) =>
      existsb (is_str (lit "honeypots")) l = false
      /\ forallb is_dict l = true
      /\ List.length hps = List.length l
  | Ok None => False
  | Raise e =>
      if existsb (is_str (lit "honeypots")) l
      then e = TypeError "indices must be integers"
      else forallb is_dict l = false /\ e = AttributeError "get"
  end.
Proof.
  unfold load_honeypots. cbn [py_in].
  destruct (existsb (is_str (lit "honeypots")) l); [reflexivity|].
  pose proof (named_entries_cases l 1) as C.
  destruct (named_entries l 1) as [hps|e].
  - destruct C as (A & L). split_all; [reflexivity | exact A | exact L].
  - exact C.
Qed.

(** X15.  In the list and wrapped forms, the entry at position [k]
    (from 0) becomes the honeypot at position [k]; its name is its
    "name" value, or "honeypot_" followed by [k + 1] when it has none:
    the default names count every entry, named or not.  Its prompts are
    its "prompts" value, or the empty list. *)
Theorem named_entries_by_position (items : list json) (i : N)
    (hps : list (json * json)) (k : nat) (d : list (pystr * json)) :
  named_entries items i = Ok hps ->
  nth_error items k = Some (JDict d) ->
  nth_error hps k
  = Some (match dict_get d (lit "name") with
          | Some v => v
          | None => JStr (default_name (i + N.of_nat k))
          end,
          match dict_get d (lit "prompts") with
          | Some v => v
          | None => JList []
          end).
Proof.
  revert i hps k. induction items as [|h rest IH]; intros i hps k E Hk.
  - destruct k; discriminate Hk.
  - cbn [named_entries] in E.
    destruct (py_get h (lit "name") (JStr (default_name i))) as [nm|] eqn:G1;
      [|discriminate E].
    destruct (py_get h (lit "prompts") (JList [])) as [pr|] eqn:G2;
      [|discriminate E].
    destruct (named_entries rest (i + 1)) as [t|] eqn:R; [|discriminate E].
    injection E as <-.
    destruct k as [|k].
    + cbn [nth_error] in Hk. injection Hk as ->.
      cbn [py_get] in G1, G2. injection G1 as <-. injection G2 as <-.
      cbn [nth_error N.of_nat]. rewrite N.add_0_r. reflexivity.
    + cbn [nth_error] in Hk |- *. rewrite (IH _ _ _ R Hk).
      replace (i + 1 + N.of_nat k) with (i + N.of_nat (S k)) by lia.
      reflexivity.
Qed.

Lemma named_entries_by_position_witness :
  nth_error
    [ (JStr (lit "alice"), json_prompts [lit "Who is Alice?"]);
      (JStr (lit "honeypot_2"), json_prompts [lit "Who is there?"]) ] 1
  = Some (match dict_get [ (lit "prompts", json_prompts [lit "Who is there?"]) ]
                  (lit "name") with
          | Some v => v
          | None => JStr (default_name (1 + N.of_nat 1))
          end,
          match dict_get [ (lit "prompts", json_prompts [lit "Who is there?"]) ]
                  (lit "prompts") with
          | Some v => v
          | None => JList []
          end).
Proof.
  apply (named_entries_by_position second_unnamed 1
           [ (JStr (lit "alice"), json_prompts [lit "Who is Alice?"]);
             (JStr (lit "honeypot_2"), json_prompts [lit "Who is there?"]) ]
           1 [ (lit "prompts", json_prompts [lit "Who is there?"]) ]);
    reflexivity.
Defined.

(** X16.  An object with the key "honeypots" is read through that key
    alone: when its value is a list of which no element is the string
    "honeypots", the object loads exactly as that list alone does,
    whatever its other keys hold and whether or not the entries are well
    formed. *)
Theorem wrapped_loads_as_its_list (d : list (pystr * json)) (l : list json) :
  dict_get d (lit "honeypots") = Some (JList l) ->
  existsb (is_str (lit "honeypots")) l = false ->
  load_honeypots (JDict d) = load_honeypots (JList l).
Proof.
  intros Hd Hl. unfold load_honeypots. cbn [py_in py_subscript].
  rewrite Hd, Hl. cbn [py_iter]. reflexivity.
Qed.

Lemma wrapped_loads_as_its_list_witness :
  load_honeypots (JDict wrapped_with_comment)
  = load_honeypots (JList second_unnamed).
Proof.
  apply (wrapped_loads_as_its_list wrapped_with_comment second_unnamed);
    reflexivity.
Defined.

(** X17.  A prompt source that is neither an object nor a list never
    reaches the browser.  For [null], a boolean or a number (an empty
    YAML file loads as [null]) the membership test raises [TypeError];
    a string that contains "honeypots" raises [TypeError] at the
    subscript; any other string is reported as unrecognized and gives
    the zero summary without the key "llm". *)
Theorem cmd_batch_scalar_source (alnum_high : codepoint -> bool)
    (w : BatchWorld) (llm : Llm) (data : json) (delay : N) :
  profile_exists w = true ->
  is_dict data || is_list data = false ->
  cmd_batch alnum_high w llm data delay
  = Some ([],
          match data with
          | JStr s =>
              if is_infix (lit "honeypots") s
              then Raise (TypeError "indices must be integers")
              else Ok (mkSummary None 0 0 0)
          | _ => Raise (TypeError "argument is not iterable")
          end).
Proof.
  intros Hp Hd. unfold cmd_batch, load_honeypots. rewrite Hp. cbn [negb].
  destruct data; try discriminate Hd; cbn [py_in]; try reflexivity.
  destruct (is_infix (lit "honeypots") s); reflexivity.
Qed.

Lemma cmd_batch_scalar_source_witness :
  cmd_batch no_high_alnum silent_world plain_llm JNull 5
  = Some ([], Raise (TypeError "argument is not iterable")).
Proof.
  apply (cmd_batch_scalar_source no_high_alnum silent_world plain_llm JNull 5);
    reflexivity.
Defined.

(** ** Several providers: [main] on the batch commands *)

(** What the two loops do is made of page actions, of the actions of
    [save_response] on the file system and of the announcements of the
    prompts. *)
Lemma forallb_weaken (P Q : event -> bool) (t : trace) :
  (forall ev, P ev = true -> Q ev = true) ->
  forallb P t = true -> forallb Q t = true.
Proof.
  intros H. induction t as [|ev t IH]; [reflexivity|].
  cbn [forallb]. intros F. apply andb_true_iff in F. destruct F as [A B].
  rewrite (H ev A), (IH B). reflexivity.
Qed.

Section LoopActions.

Variable P : event -> bool.
Hypothesis Hpage : forall ev, is_page_action ev = true -> P ev = true.
Hypothesis Hfile : forall ev, is_file_action ev = true -> P ev = true.
Hypothesis Hprompt : forall a b, P (EPrompt a b) = true.

Lemma prompt_body_actions (alnum_high : codepoint -> bool) (w : BatchWorld)
    (llm : Llm) (hp : pystr) (prompt : pystr) (st : BatchState) :
  forallb P (fst (fst (prompt_body alnum_high w llm hp prompt st))) = true.
Proof.
  unfold prompt_body.
  destruct (negb (encodable (firstn 80 prompt))); [reflexivity|].
  destruct (send_prompt_shape (page_at w (sent st)) llm prompt)
    as (ts & rs & Es & As & _).
  pose proof (forallb_weaken _ _ ts Hpage As) as L.
  rewrite Es. destruct (truthy_opt rs).
  - destruct (save_response_shape alnum_high (save_fails_at w (sent st))
                (stamp_at w (sent st)) (iso_at w (sent st)) (llm_name llm)
                prompt (match rs with Some x => x | None => [] end) (Some hp))
      as (t2 & r2 & E2 & A2 & _).
    pose proof (forallb_weaken _ _ t2 Hfile A2) as L2.
    rewrite E2. destruct r2 as [u|e]; cbn [fst forallb];
      rewrite Hprompt, forallb_app, L, L2; reflexivity.
  - cbn [fst forallb]. rewrite Hprompt, L. reflexivity.
Qed.

Lemma run_prompts_actions (alnum_high : codepoint -> bool) (w : BatchWorld)
    (llm : Llm) (delay : N) (hp : pystr) (prompts : list pystr)
    (st : BatchState) :
  forallb P (fst (fst (run_prompts alnum_high w llm delay hp prompts st)))
  = true.
Proof.
  revert st. induction prompts as [|prompt rest IH]; intros st;
    [reflexivity|].
  cbn [run_prompts].
  pose proof (prompt_body_actions alnum_high w llm hp prompt st) as B.
  destruct (prompt_body alnum_high w llm hp prompt st) as [[t1 st1] [e1|]];
    cbn [fst] in B; [exact B|].
  specialize (IH st1).
  destruct (run_prompts alnum_high w llm delay hp rest st1) as [[t2 st2] e2].
  cbn [fst] in *. rewrite !forallb_app, B, IH.
  rewrite (forallb_weaken _ _ _ Hpage
             (pause_is_page_action rest (delay * 1000))).
  reflexivity.
Qed.

Lemma run_honeypots_actions (alnum_high : codepoint -> bool)
    (w : BatchWorld) (llm : Llm) (delay : N)
    (honeypots : list (pystr * list pystr)) (st : BatchState) :
  forallb P (fst (fst (run_honeypots alnum_high w llm delay honeypots st)))
  = true.
Proof.
  revert st. induction honeypots as [|[hp prompts] rest IH]; intros st;
    [reflexivity|].
  cbn [run_honeypots].
  destruct (negb (encodable hp)); [reflexivity|].
  pose proof (run_prompts_actions alnum_high w llm delay hp prompts st) as B.
  destruct (run_prompts alnum_high w llm delay hp prompts st)
    as [[t1 st1] [e1|]]; cbn [fst] in B; [exact B|].
  specialize (IH st1).
  destruct (run_honeypots alnum_high w llm delay rest st1) as [[t2 st2] e2].
  cbn [fst] in *. rewrite !forallb_app, B, IH.
  rewrite (forallb_weaken _ _ _ Hpage
             (pause_is_page_action rest (delay * 2000))).
  reflexivity.
Qed.

End LoopActions.

Lemma run_honeypots_no_launch (alnum_high : codepoint -> bool)
    (w : BatchWorld) (llm : Llm) (delay : N)
    (honeypots : list (pystr * list pystr)) (st : BatchState) :
  filter is_persistent_launch
    (fst (fst (run_honeypots alnum_high w llm delay honeypots st))) = [].
Proof.
  pose proof (run_honeypots_actions
                (fun ev => negb (is_persistent_launch ev))
                (fun ev => match ev with
                           | ELaunchPersistent _ => fun H => H
                           | _ => fun _ => eq_refl
                           end)
                (fun ev => match ev with
                           | ELaunchPersistent _ => fun H => H
                           | _ => fun _ => eq_refl
                           end)
                (fun _ _ => eq_refl)
                alnum_high w llm delay honeypots st) as F.
  induction (fst (fst (run_honeypots alnum_high w llm delay honeypots st)))
    as [|ev t IH]; [reflexivity|].
  cbn [forallb] in F. apply andb_true_iff in F. destruct F as [A B].
  cbn [filter]. destruct (is_persistent_launch ev); [discriminate A|].
  exact (IH B).
Qed.

(** The file system is touched by [save_response] alone, which creates
    [responses] before anything else and is called after a non-empty
    reply alone. *)
Lemma page_actions_no_files (t : trace) :
  forallb is_page_action t = true ->
  existsb is_file_action t = false /\ existsb is_mkdir t = false.
Proof.
  induction t as [|ev t IH]; intros H; [split; reflexivity|].
  cbn [forallb] in H. apply andb_true_iff in H. destruct H as [He Ht].
  destruct (IH Ht) as (A & B). cbn [existsb]. rewrite A, B.
  destruct ev; try discriminate He; split; reflexivity.
Qed.

Lemma saves_are_file_actions (t : trace) :
  existsb is_file_action t = false -> saves_of t = [].
Proof.
  induction t as [|ev t IH]; [reflexivity|].
  cbn [existsb]. intros H. apply orb_false_iff in H. destruct H as [A B].
  unfold saves_of in *. destruct ev; cbn; try exact (IH B); discriminate A.
Qed.

Lemma prompt_body_files (alnum_high : codepoint -> bool) (w : BatchWorld)
    (llm : Llm) (hp : pystr) (prompt : pystr) (st : BatchState) :
  existsb is_mkdir (fst (fst (prompt_body alnum_high w llm hp prompt st)))
  = existsb is_file_action
      (fst (fst (prompt_body alnum_high w llm hp prompt st)))
  /\ (truthy_opt (reply (page_at w (sent st)) llm) = false ->
      existsb is_file_action
        (fst (fst (prompt_body alnum_high w llm hp prompt st))) = false).
Proof.
  unfold prompt_body.
  destruct (negb (encodable (firstn 80 prompt))); [split; reflexivity|].
  destruct (send_prompt_shape (page_at w (sent st)) llm prompt)
    as (ts & rs & Es & As & _).
  destruct (send_prompt_exchange (page_at w (sent st)) llm prompt)
    as (_ & Rp).
  rewrite Es in Rp |- *. cbn [snd] in Rp. injection Rp as ->.
  destruct (page_actions_no_files ts As) as (Nf & Nm).
  destruct (truthy_opt (reply (page_at w (sent st)) llm)).
  - rewrite save_response_eq. unfold save_actions.
    destruct (save_fails_at w (sent st)); [|destruct (encodable _)];
      cbn [fst existsb is_mkdir is_file_action orb truthy_opt];
      rewrite !existsb_app, Nf, Nm; (split; [reflexivity | discriminate]).
  - cbn [fst existsb is_mkdir is_file_action orb]. rewrite Nf, Nm.
    split; reflexivity.
Qed.

Lemma run_prompts_files (alnum_high : codepoint -> bool) (w : BatchWorld)
    (llm : Llm) (delay : N) (hp : pystr) (prompts : list pystr)
    (st : BatchState) :
  existsb is_mkdir
    (fst (fst (run_prompts alnum_high w llm delay hp prompts st)))
  = existsb is_file_action
      (fst (fst (run_prompts alnum_high w llm delay hp prompts st)))
  /\ ((forall j, truthy_opt (reply (page_at w j) llm) = false) ->
      existsb is_file_action
        (fst (fst (run_prompts alnum_high w llm delay hp prompts st)))
      = false).
Proof.
  revert st. induction prompts as [|prompt rest IH]; intros st;
    [split; reflexivity|].
  cbn [run_prompts].
  destruct (prompt_body_files alnum_high w llm hp prompt st) as (B & B').
  destruct (prompt_body alnum_high w llm hp prompt st) as [[t1 st1] [e1|]];
    cbn [fst] in B, B'; [split; [exact B | intros H; exact (B' (H _))]|].
  destruct (IH st1) as (I & I').
  destruct (run_prompts alnum_high w llm delay hp rest st1) as [[t2 st2] e2].
  cbn [fst] in *.
  destruct (page_actions_no_files _
              (pause_is_page_action rest (delay * 1000))) as (Pf & Pm).
  rewrite !existsb_app, B, I, Pf, Pm. split; [reflexivity|].
  intros H. rewrite (B' (H _)), (I' H). reflexivity.
Qed.

Lemma run_honeypots_files (alnum_high : codepoint -> bool) (w : BatchWorld)
    (llm : Llm) (delay : N) (honeypots : list (pystr * list pystr))
    (st : BatchState) :
  existsb is_mkdir
    (fst (fst (run_honeypots alnum_high w llm delay honeypots st)))
  = existsb is_file_action
      (fst (fst (run_honeypots alnum_high w llm delay honeypots st)))
  /\ ((forall j, truthy_opt (reply (page_at w j) llm) = false) ->
      existsb is_file_action
        (fst (fst (run_honeypots alnum_high w llm delay honeypots st)))
      = false).
Proof.
  revert st. induction honeypots as [|[hp prompts] rest IH]; intros st;
    [split; reflexivity|].
  cbn [run_honeypots].
  destruct (negb (encodable hp)); [split; reflexivity|].
  destruct (run_prompts_files alnum_high w llm delay hp prompts st)
    as (B & B').
  destruct (run_prompts alnum_high w llm delay hp prompts st)
    as [[t1 st1] [e1|]]; cbn [fst] in B, B'; [split; assumption|].
  destruct (IH st1) as (I & I').
  destruct (run_honeypots alnum_high w llm delay rest st1) as [[t2 st2] e2].
  cbn [fst] in *.
  destruct (page_actions_no_files _
              (pause_is_page_action rest (delay * 2000))) as (Pf & Pm).
  rewrite !existsb_app, B, I, Pf, Pm. split; [reflexivity|].
  intros H. rewrite (B' H), (I' H). reflexivity.
Qed.

Lemma persistent_launches_app (a b : trace) :
  persistent_launches (a ++ b)
  = (persistent_launches a + persistent_launches b)%nat.
Proof.
  unfold persistent_launches. rewrite filter_app, length_app. reflexivity.
Qed.

(** The batch of one provider whose browser launches: it returns the
    provider's summary, launches one persistent browser and no headful
    one; it creates [responses] exactly when it touches the file system,
    which it does for every record it counts and never when no page
    replies. *)
Lemma batch_run_of_provider (alnum_high : codepoint -> bool) (w : BatchWorld)
    (llm : Llm) (honeypots : list (pystr * list pystr)) (delay : N) :
  launch_persistent_raises w = false ->
  exists (t : trace) (s : Summary),
    batch_run alnum_high w llm honeypots delay = (t, Ok s)
    /\ s_llm s = Some (llm_name llm)
    /\ s_total s = total_prompts honeypots
    /\ persistent_launches t = 1%nat
    /\ existsb is_headful_launch t = false
    /\ existsb is_mkdir t = existsb is_file_action t
    /\ (Nat.ltb 0 (s_success s) = true -> existsb is_file_action t = true)
    /\ ((forall j, truthy_opt (reply (page_at w j) llm) = false) ->
        existsb is_file_action t = false).
Proof.
  intros Hl.
  pose proof (batch_run_headless alnum_high w llm honeypots delay) as Hh.
  destruct (batch_run_unfold alnum_high w llm honeypots delay Hl)
    as (tm & st & e & E & C).
  rewrite E in Hh. cbn [fst] in Hh.
  eexists; eexists. split; [exact E|].
  cbn [s_llm s_total s_success].
  change (ELaunchPersistent true :: ENewPage :: EGoto (llm_url llm) :: tm
            ++ [EWait 2000; ECloseContext; EStop])
    with ([ELaunchPersistent true; ENewPage; EGoto (llm_url llm)] ++ tm
            ++ [EWait 2000; ECloseContext; EStop]).
  rewrite persistent_launches_app, persistent_launches_app.
  rewrite !(existsb_app is_mkdir), !(existsb_app is_file_action).
  cbn [existsb is_mkdir is_file_action orb].
  rewrite !orb_false_r.
  unfold persistent_launches. cbn [filter is_persistent_launch List.length].
  destruct C as [(_ & -> & ->) | (_ & R)].
  - split_all; try reflexivity; try exact Hh; try discriminate.
  - pose proof (run_honeypots_no_launch alnum_high w llm delay honeypots
                  (mkBatchState 0 0 0)) as L.
    destruct (run_honeypots_files alnum_high w llm delay honeypots
                (mkBatchState 0 0 0)) as (F & F').
    pose proof (run_honeypots_inv alnum_high w llm delay honeypots
                  (mkBatchState 0 0 0)) as I.
    rewrite R in L, F, F', I. cbn [fst] in L, F, F'.
    destruct I as (n & _ & _ & _ & Sn & _).
    cbn [success_count] in Sn.
    rewrite L. split_all; try reflexivity; try assumption.
    intros Pos. destruct (existsb is_file_action tm) eqn:X; [reflexivity|].
    rewrite (saves_are_file_actions tm X) in Sn. rewrite Sn in Pos.
    discriminate Pos.
Qed.

Section BatchAll.

Variable alnum_high : codepoint -> bool.
Variable worlds : nat -> BatchWorld.
Variable data : json.
Variable hps : list (json * json).
Variable honeypots : list (pystr * list pystr).
Variable delay : N.

Hypothesis Hload : load_honeypots data = Ok (Some hps).
Hypothesis Htyped : typed_honeypots hps = Some honeypots.

Lemma cmd_batch_loaded (i : nat) (llm : Llm) :
  cmd_batch alnum_high (worlds i) llm data delay
  = Some (if profile_exists (worlds i)
          then batch_run alnum_high (worlds i) llm honeypots delay
          else ret (mkSummary None 0 0 0)).
Proof.
  unfold cmd_batch. destruct (profile_exists (worlds i)); [|reflexivity].
  cbn [negb]. rewrite Hload, Htyped. reflexivity.
Qed.

(** While every browser launches, the loop over the providers runs them
    all. *)
Lemma batch_all_runs (sel : list Llm) (i : nat) :
  (forall k, (i <= k < i + List.length sel)%nat ->
             launch_persistent_raises (worlds k) = false) ->
  exists (t : trace) (results : list Summary),
    batch_all alnum_high worlds i sel data delay = Some (t, Ok results)
    /\ map s_llm results = map (summary_name worlds) (numbered i sel)
    /\ Forall (fun s => s_llm s <> None ->
                        s_total s = total_prompts honeypots) results
    /\ persistent_launches t
       = List.length (filter (fun p => profile_exists (worlds (fst p)))
                        (numbered i sel))
    /\ existsb is_headful_launch t = false
    /\ existsb is_mkdir t = existsb is_file_action t
    /\ (existsb (fun s => Nat.ltb 0 (s_success s)) results = true ->
        existsb is_file_action t = true)
    /\ ((forall k j l, truthy_opt (reply (page_at (worlds k) j) l) = false) ->
        existsb is_file_action t = false).
Proof.
  revert i. induction sel as [|llm rest IH]; intros i Hl.
  - exists [], []. split_all; try reflexivity; [constructor | discriminate].
  - cbn [batch_all]. rewrite cmd_batch_loaded.
    assert (Hi : launch_persistent_raises (worlds i) = false)
      by (apply Hl; cbn [List.length]; lia).
    destruct (IH (S i)) as (t' & l & E & Nm & Tt & Ln & Hh & Fm & Fs & Fn);
      [intros k Hk; apply Hl; cbn [List.length]; lia|].
    rewrite E.
    unfold numbered in *. cbn [List.length seq combine map filter fst snd].
    unfold summary_name at 1. cbn [fst snd].
    destruct (profile_exists (worlds i)).
    + destruct (batch_run_of_provider alnum_high (worlds i) llm honeypots
                  delay Hi)
        as (t & s & Eb & Sn & St & Sl & Sh & Bm & Bs & Bn).
      rewrite Eb. eexists; eexists. split; [reflexivity|].
      cbn [map List.length existsb].
      rewrite Sn, Nm, persistent_launches_app, Sl, Ln.
      rewrite !existsb_app, Sh, Hh, Bm, Fm.
      split_all; try reflexivity.
      * constructor; [intros _; exact St | exact Tt].
      * intros H. apply orb_true_iff in H. destruct H as [H|H];
          [rewrite (Bs H) | rewrite (Fs H), orb_true_r]; reflexivity.
      * intros H. rewrite (Bn (fun j => H i j llm)), (Fn H). reflexivity.
    + unfold ret. eexists; eexists. split; [reflexivity|].
      cbn [map s_llm app existsb s_success Nat.ltb Nat.leb orb]. rewrite Nm.
      split_all; try reflexivity; try assumption.
      constructor; [intros H; exfalso; apply H; reflexivity | exact Tt].
Qed.

End BatchAll.


Lemma print_summaries_stops (results : list Summary) :
  existsb (fun s => match s_llm s with None => true | Some _ => false end)
    results = true ->
  snd (print_summaries results) = false
  /\ (List.length (fst (print_summaries results))
      < List.length results)%nat.
Proof.
  induction results as [|s rest IH]; intros H; [discriminate H|].
  cbn [existsb print_summaries] in *.
  destruct (s_llm s) as [n|].
  - cbn [orb] in H. destruct (IH H) as (A & B).
    destruct (print_summaries rest) as [p ok]. cbn [fst snd] in *.
    split; [exact A | cbn; lia].
  - split; [reflexivity | cbn; lia].
Qed.



(** With no directory [responses] at the start, the run whose pages
    reply writes its summary, and the run whose pages stay silent ends
    with [FileNotFoundError] after all its providers have run. *)
Example main_batch_replying_run :
  exists t results,
    main_batch no_high_alnum None three_llms true false false
      (fun _ => replying_world) (encode_list two_personas) 5
    = Some (t, [lit "alpha"; lit "beta"; lit "gamma"], Saved results)
    /\ map s_success results = [2; 2; 2]%nat.
Proof. eexists; eexists. split; reflexivity. Qed.

Example main_batch_silent_run :
  exists t,
    main_batch no_high_alnum None three_llms true false false
      (fun _ => silent_world) (encode_list two_personas) 5
    = Some (t, [lit "alpha"; lit "beta"; lit "gamma"],
            Failed ResponsesDirMissing)
    /\ persistent_launches t = 3%nat
    /\ saves_of t = [].
Proof. eexists. split_all; reflexivity. Qed.

Lemma numbered_length (i : nat) (l : list Llm) :
  List.length (numbered i l) = List.length l.
Proof.
  unfold numbered. rewrite length_combine, length_seq. lia.
Qed.

Lemma missing_name_iff_missing_profile (worlds : nat -> BatchWorld)
    (results : list Summary) (ps : list (nat * Llm)) :
  map s_llm results = map (summary_name worlds) ps ->
  existsb (fun s => match s_llm s with None => true | Some _ => false end)
    results
  = existsb (fun p => negb (profile_exists (worlds (fst p)))) ps.
Proof.
  revert ps. induction results as [|s rest IH]; intros [|p ps] H;
    try discriminate H; [reflexivity|].
  cbn [map] in H. injection H as Hs Hr. cbn [existsb].
  rewrite (IH ps Hr), Hs. unfold summary_name.
  destruct (profile_exists (worlds (fst p))); reflexivity.
Qed.

(** X19.  When one of the selected providers has no profile, [main]
    still runs the batch of every provider that has one, and then fails
    in the summary loop with [KeyError] on the key "llm", which the
    early return of [cmd_batch] leaves out: the loop prints fewer names
    than there are providers, and the summary file is not written. *)
Theorem main_batch_missing_profile (alnum_high : codepoint -> bool)
    (name : option pystr) (llms sel : list Llm)
    (responses_dir summary_write_fails : bool) (worlds : nat -> BatchWorld)
    (data : json) (hps : list (json * json))
    (honeypots : list (pystr * list pystr)) (delay : N) :
  select_llms name llms = Some sel ->
  load_honeypots data = Ok (Some hps) ->
  typed_honeypots hps = Some honeypots ->
  (forall k, launch_persistent_raises (worlds k) = false) ->
  existsb (fun p => negb (profile_exists (worlds (fst p)))) (numbered 0 sel)
  = true ->
  exists (t : trace) (names : list pystr),
    main_batch alnum_high name llms true responses_dir summary_write_fails
      worlds data delay
    = Some (t, names, Failed (KeyError "llm"))
    /\ (List.length names < List.length sel)%nat
    /\ persistent_launches t
       = List.length (filter (fun p => profile_exists (worlds (fst p)))
                        (numbered 0 sel)).
Proof.
  intros Hsel Hload Htyped Hl Hm.
  destruct (batch_all_runs alnum_high worlds data hps honeypots delay
              Hload Htyped sel 0%nat (fun k _ => Hl k))
    as (t & results & E & Nm & _ & Ln & _).
  rewrite <- (missing_name_iff_missing_profile worlds results _ Nm) in Hm.
  destruct (print_summaries_stops results Hm) as (A & B).
  assert (Lr : List.length results = List.length sel).
  { rewrite <- (length_map s_llm), Nm, length_map. apply numbered_length. }
  exists t, (fst (print_summaries results)). unfold main_batch.
  rewrite Hsel, E. cbn [negb].
  destruct (print_summaries results) as [names ok]. cbn [fst snd] in *.
  subst ok. cbn [negb]. split_all; [reflexivity | lia | exact Ln].
Qed.

Lemma main_batch_missing_profile_witness :
  exists (t : trace) (names : list pystr),
    main_batch no_high_alnum None three_llms true false false
      second_without_profile (encode_list two_personas) 5
    = Some (t, names, Failed (KeyError "llm"))
    /\ (List.length names < List.length three_llms)%nat
    /\ persistent_launches t
       = List.length
           (filter (fun p => profile_exists (second_without_profile (fst p)))
              (numbered 0 three_llms)).
Proof.
  apply (main_batch_missing_profile no_high_alnum None three_llms three_llms
           false false second_without_profile (encode_list two_personas)
           (canonical two_personas) two_personas 5);
    try reflexivity; intros k; reflexivity.
Defined.

Example second_without_profile_run :
  exists t,
    main_batch no_high_alnum None three_llms true false false
      second_without_profile (encode_list two_personas) 5
    = Some (t, [lit "alpha"], Failed (KeyError "llm"))
    /\ persistent_launches t = 2%nat.
Proof. eexists. split; reflexivity. Qed.

(** The loop over the providers, split after the providers that
    returned. *)
Lemma batch_all_app (alnum_high : codepoint -> bool)
    (worlds : nat -> BatchWorld) (data : json) (delay : N)
    (pre rest : list Llm) (i : nat) (t : trace) (r : list Summary) :
  batch_all alnum_high worlds i pre data delay = Some (t, Ok r) ->
  batch_all alnum_high worlds i (pre ++ rest) data delay
  = match batch_all alnum_high worlds (i + List.length pre) rest data
            delay with
    | None => None
    | Some (t', Raise e) => Some (t ++ t', Raise e)
    | Some (t', Ok l) => Some (t ++ t', Ok (r ++ l))
    end.
Proof.
  revert i t r. induction pre as [|llm pre IH]; intros i t r H.
  - cbn in H. injection H as <- <-. cbn [app List.length].
    rewrite Nat.add_0_r.
    destruct (batch_all alnum_high worlds i rest data delay)
      as [[t' [l|e]]|]; reflexivity.
  - cbn [batch_all app List.length] in *.
    destruct (cmd_batch alnum_high (worlds i) llm data delay)
      as [[t1 [s|e]]|]; try discriminate H.
    destruct (batch_all alnum_high worlds (S i) pre data delay)
      as [[t2 [l|e]]|] eqn:P; try discriminate H.
    injection H as <- <-. rewrite (IH _ _ _ P).
    replace (S i + List.length pre)%nat with (i + S (List.length pre))%nat
      by lia.
    destruct (batch_all alnum_high worlds (i + S (List.length pre)) rest
                data delay) as [[t' [l'|e']]|];
      rewrite <- ?app_assoc; reflexivity.
Qed.

(** X20.  A browser that cannot be launched ends the whole run, not
    only its provider's batch: [main] fails with the exception of the
    launch, which is its last action; the providers after it are never
    run, the summaries of the providers before it are neither printed
    nor written. *)
Theorem main_batch_launch_failure_stops (alnum_high : codepoint -> bool)
    (name : option pystr) (llms pre post : list Llm) (bad : Llm)
    (responses_dir summary_write_fails : bool) (worlds : nat -> BatchWorld)
    (data : json) (hps : list (json * json))
    (honeypots : list (pystr * list pystr)) (delay : N) :
  select_llms name llms = Some (pre ++ bad :: post) ->
  load_honeypots data = Ok (Some hps) ->
  typed_honeypots hps = Some honeypots ->
  (forall k, (k < List.length pre)%nat ->
             launch_persistent_raises (worlds k) = false) ->
  profile_exists (worlds (List.length pre)) = true ->
  launch_persistent_raises (worlds (List.length pre)) = true ->
  exists t0 : trace,
    main_batch alnum_high name llms true responses_dir summary_write_fails
      worlds data delay
    = Some (t0 ++ [ELaunchPersistent true], [],
            Failed (RunError (BrowserError "launch_persistent")))
    /\ persistent_launches t0
       = List.length (filter (fun p => profile_exists (worlds (fst p)))
                        (numbered 0 pre)).
Proof.
  intros Hsel Hload Htyped Hl Hp Hb.
  destruct (batch_all_runs alnum_high worlds data hps honeypots delay
              Hload Htyped pre 0%nat (fun k H => Hl k (proj2 H)))
    as (t & results & E & _ & _ & Ln & _).
  exists t. unfold main_batch. rewrite Hsel. cbn [negb].
  rewrite (batch_all_app _ _ _ _ _ (bad :: post) _ _ _ E).
  cbn [Nat.add batch_all].
  rewrite (cmd_batch_loaded alnum_high worlds data hps honeypots delay
             Hload Htyped), Hp.
  unfold batch_run, step. rewrite Hb. cbn.
  split; [reflexivity | exact Ln].
Qed.

Lemma main_batch_launch_failure_stops_witness :
  exists t0 : trace,
    main_batch no_high_alnum None three_llms true false false
      second_cannot_launch (encode_list two_personas) 5
    = Some (t0 ++ [ELaunchPersistent true], [],
            Failed (RunError (BrowserError "launch_persistent")))
    /\ persistent_launches t0
       = List.length
           (filter (fun p => profile_exists (second_cannot_launch (fst p)))
              (numbered 0 [ mkLlm (lit "alpha") "https://alpha.example/" None
                              (Some 5000) None ])).
Proof.
  apply (main_batch_launch_failure_stops no_high_alnum None three_llms
           [ mkLlm (lit "alpha") "https://alpha.example/" None (Some 5000)
               None ]
           [ mkLlm (lit "gamma") "https://gamma.example/" None (Some 5000)
               None ]
           (mkLlm (lit "beta") "https://beta.example/" None (Some 5000) None)
           false false second_cannot_launch (encode_list two_personas)
           (canonical two_personas) two_personas 5);
    try reflexivity.
  intros k Hk. destruct k as [|k]; [reflexivity|].
  cbn [List.length] in Hk. lia.
Defined.

(** ** Several providers: [main] on the test commands *)

Lemma pystr_eqb_false (a b : pystr) : a <> b -> pystr_eqb a b = false.
Proof.
  intros H. destruct (pystr_eqb a b) eqn:E; [|reflexivity].
  exfalso. exact (H (pystr_eqb_true a b E)).
Qed.

Lemma results_set_keys (d : list (pystr * bool)) (k : pystr) (v : bool) :
  map fst (results_set d k v)
  = if existsb (fun kv => pystr_eqb (fst kv) k) d
    then map fst d else map fst d ++ [k].
Proof.
  induction d as [|[k' v'] d IH]; [reflexivity|].
  cbn [results_set existsb fst].
  destruct (pystr_eqb k' k); [reflexivity|].
  cbn [orb map fst]. rewrite IH.
  destruct (existsb (fun kv => pystr_eqb (fst kv) k) d); reflexivity.
Qed.

Lemma key_present (d : list (pystr * bool)) (k : pystr) :
  existsb (fun kv => pystr_eqb (fst kv) k) d = true <-> In k (map fst d).
Proof.
  rewrite existsb_exists, in_map_iff. split.
  - intros ([k' v] & Hin & E). exists (k', v).
    split; [exact (pystr_eqb_true _ _ E) | exact Hin].
  - intros ([k' v] & E & Hin). exists (k', v). cbn in E. subst k'.
    split; [exact Hin | apply pystr_eqb_refl].
Qed.

Lemma results_set_in_keys (d : list (pystr * bool)) (k : pystr) (v : bool)
    (n : pystr) :
  In n (map fst (results_set d k v)) <-> In n (map fst d) \/ n = k.
Proof.
  rewrite results_set_keys.
  destruct (existsb (fun kv => pystr_eqb (fst kv) k) d) eqn:E.
  - apply key_present in E. split; [tauto|]. intros [H| ->]; assumption.
  - rewrite in_app_iff. cbn. split.
    + intros [H|[<-|[]]]; [left; exact H | right; reflexivity].
    + intros [H| ->]; [left; exact H | right; left; reflexivity].
Qed.

Lemma results_set_nodup (d : list (pystr * bool)) (k : pystr) (v : bool) :
  NoDup (map fst d) -> NoDup (map fst (results_set d k v)).
Proof.
  intros H. rewrite results_set_keys.
  destruct (existsb (fun kv => pystr_eqb (fst kv) k) d) eqn:E; [exact H|].
  apply NoDup_app; [exact H | repeat constructor; intros [] |].
  intros a Ha [<-|[]].
  apply key_present in Ha. congruence.
Qed.

Lemma results_set_length (d : list (pystr * bool)) (k : pystr) (v : bool) :
  (List.length (results_set d k v) <= S (List.length d))%nat.
Proof.
  induction d as [|[k' v'] d IH]; cbn; [lia|].
  destruct (pystr_eqb k' k); cbn; lia.
Qed.

Lemma results_set_new (d : list (pystr * bool)) (k : pystr) (v : bool) :
  In (k, v) (results_set d k v).
Proof.
  induction d as [|[k' v'] d IH]; cbn; [left; reflexivity|].
  destruct (pystr_eqb k' k) eqn:E.
  - left. rewrite (pystr_eqb_true _ _ E). reflexivity.
  - right. exact IH.
Qed.

Lemma results_set_other (d : list (pystr * bool)) (k : pystr) (v : bool)
    (k' : pystr) (v' : bool) :
  k' <> k -> In (k', v') d -> In (k', v') (results_set d k v).
Proof.
  intros Hne. induction d as [|[k0 v0] d IH]; cbn; [tauto|].
  intros [E|H].
  - injection E as -> ->. rewrite (pystr_eqb_false _ _ Hne). left.
    reflexivity.
  - destruct (pystr_eqb k0 k); right; auto.
Qed.

Lemma nodup_key_value (d : list (pystr * bool)) (k : pystr) (v v' : bool) :
  NoDup (map fst d) -> In (k, v) d -> In (k, v') d -> v = v'.
Proof.
  induction d as [|[k0 v0] d IH]; cbn; [tauto|].
  intros ND. inversion ND as [|? ? Hn Hd]; subst.
  intros [E|H] [E'|H'].
  - congruence.
  - injection E as -> ->. exfalso. apply Hn.
    apply in_map_iff. exists (k, v'). split; [reflexivity | exact H'].
  - injection E' as -> ->. exfalso. apply Hn.
    apply in_map_iff. exists (k, v). split; [reflexivity | exact H].
  - exact (IH Hd H H').
Qed.

Section TestAll.

Variable alnum_high : codepoint -> bool.
Variable worlds : nat -> TestWorld.
Variable prompt : pystr.
Variable save : bool.

(** The dictionary [results] through the loop. *)
Lemma test_all_keys (llms : list Llm) (i : nat) (r0 r : list (pystr * bool))
    (t : trace) :
  test_all alnum_high worlds i llms prompt save r0 = (t, Ok r) ->
  NoDup (map fst r0) ->
  NoDup (map fst r)
  /\ (forall n, In n (map fst r)
                <-> In n (map fst r0) \/ In n (map llm_name llms))
  /\ (List.length r <= List.length r0 + List.length llms)%nat.
Proof.
  revert i r0 t. induction llms as [|llm rest IH]; intros i r0 t H ND.
  - cbn in H. injection H as _ <-. split_all; [exact ND | | cbn; lia].
    intros n. cbn. tauto.
  - cbn [test_all] in H. unfold bind in H.
    destruct (cmd_test alnum_high (worlds i) llm prompt save None)
      as [t1 [ok|e]]; [|discriminate H].
    destruct (test_all alnum_high worlds (S i) rest prompt save
                (results_set r0 (llm_name llm) ok)) as [t2 r2] eqn:R.
    injection H as _ ->.
    destruct (IH _ _ _ R (results_set_nodup _ _ _ ND)) as (A & B & C).
    split_all; [exact A | |].
    + intros n. rewrite B, results_set_in_keys. cbn [map In].
      split; intros H; intuition (subst; auto).
    + pose proof (results_set_length r0 (llm_name llm) ok).
      cbn [List.length]. lia.
Qed.

Lemma test_all_keeps (llms : list Llm) (i : nat) (r0 r : list (pystr * bool))
    (t : trace) (k : pystr) (v : bool) :
  test_all alnum_high worlds i llms prompt save r0 = (t, Ok r) ->
  In (k, v) r0 -> ~ In k (map llm_name llms) -> In (k, v) r.
Proof.
  revert i r0 t. induction llms as [|llm rest IH]; intros i r0 t H Hin Hn.
  - cbn in H. injection H as _ <-. exact Hin.
  - cbn [test_all] in H. unfold bind in H.
    destruct (cmd_test alnum_high (worlds i) llm prompt save None)
      as [t1 [ok|e]]; [|discriminate H].
    destruct (test_all alnum_high worlds (S i) rest prompt save
                (results_set r0 (llm_name llm) ok)) as [t2 r2] eqn:R.
    injection H as _ ->. cbn [map In] in Hn.
    apply (IH _ _ _ R).
    + apply results_set_other; [|exact Hin]. intros E. apply Hn. left.
      symmetry. exact E.
    + intros H. apply Hn. right. exact H.
Qed.

Lemma test_all_last (pre post : list Llm) (llm : Llm) (i : nat)
    (r0 r : list (pystr * bool)) (t : trace) :
  test_all alnum_high worlds i (pre ++ llm :: post) prompt save r0
  = (t, Ok r) ->
  ~ In (llm_name llm) (map llm_name post) ->
  exists b,
    snd (cmd_test alnum_high (worlds (i + List.length pre)) llm prompt save
           None) = Ok b
    /\ In (llm_name llm, b) r.
Proof.
  revert i r0 t. induction pre as [|x pre IH]; intros i r0 t H Hn.
  - cbn [app List.length] in *. rewrite Nat.add_0_r.
    cbn [test_all] in H. unfold bind in H.
    destruct (cmd_test alnum_high (worlds i) llm prompt save None)
      as [t1 [ok|e]]; [|discriminate H].
    destruct (test_all alnum_high worlds (S i) post prompt save
                (results_set r0 (llm_name llm) ok)) as [t2 r2] eqn:R.
    injection H as _ ->. exists ok. split; [reflexivity|].
    exact (test_all_keeps _ _ _ _ _ _ _ R (results_set_new _ _ _) Hn).
  - cbn [app List.length test_all] in *. unfold bind in H.
    destruct (cmd_test alnum_high (worlds i) x prompt save None)
      as [t1 [ok|e]]; [|discriminate H].
    destruct (test_all alnum_high worlds (S i) (pre ++ llm :: post) prompt
                save (results_set r0 (llm_name x) ok)) as [t2 r2] eqn:R.
    injection H as _ ->.
    replace (i + S (List.length pre))%nat with (S i + List.length pre)%nat
      by lia.
    exact (IH _ _ _ R Hn).
Qed.

End TestAll.

(** X21.  The summary of the test commands is keyed by provider name:
    when every test returns, the dictionary holds each name of the
    selected providers once, so that providers sharing a name are
    counted once; every entry is listed as working or as failed, never
    both; and the entry of a name carries the outcome of the last
    provider of that name. *)
Theorem test_all_one_entry_per_name (alnum_high : codepoint -> bool)
    (worlds : nat -> TestWorld) (llms : list Llm) (prompt : pystr)
    (save : bool) (t : trace) (r : list (pystr * bool)) :
  test_all alnum_high worlds 0 llms prompt save [] = (t, Ok r) ->
  NoDup (map fst r)
  /\ (forall n, In n (map fst r) <-> In n (map llm_name llms))
  /\ (List.length (working r) + List.length (failed r))%nat = List.length r
  /\ (List.length r <= List.length llms)%nat
  /\ (forall n, In n (working r) -> In n (failed r) -> False)
  /\ (forall pre llm post,
        llms = pre ++ llm :: post ->
        ~ In (llm_name llm) (map llm_name post) ->
        (In (llm_name llm) (working r)
         <-> snd (cmd_test alnum_high (worlds (List.length pre)) llm prompt
                    save None) = Ok true)).
Proof.
  intros H.
  destruct (test_all_keys alnum_high worlds prompt save llms 0%nat [] r t H
              (NoDup_nil _)) as (ND & K & L).
  assert (W : forall n b, In (n, b) r ->
                (b = true <-> In n (working r))
                /\ (b = false <-> In n (failed r))).
  { intros n b Hin. unfold working, failed. split; split.
    - intros ->. apply in_map_iff. exists (n, true).
      split; [reflexivity|]. apply filter_In. split; [exact Hin|reflexivity].
    - intros Hw. apply in_map_iff in Hw. destruct Hw as ([n' b'] & E & F).
      apply filter_In in F. destruct F as (F & G). cbn in E, G. subst.
      exact (nodup_key_value r n b true ND Hin F).
    - intros ->. apply in_map_iff. exists (n, false).
      split; [reflexivity|]. apply filter_In. split; [exact Hin|reflexivity].
    - intros Hw. apply in_map_iff in Hw. destruct Hw as ([n' b'] & E & F).
      apply filter_In in F. destruct F as (F & G). cbn in E, G. subst.
      destruct b'; [discriminate G|].
      exact (nodup_key_value r n b false ND Hin F). }
  split_all.
  - exact ND.
  - intros n. rewrite K. cbn. tauto.
  - unfold working, failed. rewrite !length_map. clear.
    induction r as [|[k v] r IH]; [reflexivity|].
    cbn [filter snd]. destruct v; cbn [negb List.length]; lia.
  - cbn in L. exact L.
  - intros n Hw Hf. unfold working in Hw. apply in_map_iff in Hw.
    destruct Hw as ([n' b] & E & F). apply filter_In in F.
    destruct F as (F & G). cbn in E, G. subst.
    destruct (W n true F) as (_ & (_ & B)). specialize (B Hf). discriminate B.
  - intros pre llm post -> Hn.
    destruct (test_all_last alnum_high worlds prompt save pre post llm
                0%nat [] r t H Hn) as (b & Eb & Hin).
    cbn [Nat.add] in Eb. rewrite Eb.
    destruct (W _ _ Hin) as ((A & B) & _). split.
    + intros Hw. rewrite (B Hw). reflexivity.
    + intros E. injection E as ->. apply A. reflexivity.
Qed.

Lemma test_all_one_entry_per_name_witness :
  NoDup (map fst [(lit "demo", false)])
  /\ (forall n, In n (map fst [(lit "demo", false)])
                <-> In n (map llm_name twin_llms))
  /\ (List.length (working [(lit "demo", false)])
      + List.length (failed [(lit "demo", false)]))%nat
     = List.length [(lit "demo", false)]
  /\ (List.length [(lit "demo", false)] <= List.length twin_llms)%nat
  /\ (forall n, In n (working [(lit "demo", false)]) ->
                In n (failed [(lit "demo", false)]) -> False)
  /\ (forall pre llm post,
        twin_llms = pre ++ llm :: post ->
        ~ In (llm_name llm) (map llm_name post) ->
        (In (llm_name llm) (working [(lit "demo", false)])
         <-> snd (cmd_test no_high_alnum (first_answers (List.length pre))
                    llm (lit "Hello") false None) = Ok true)).
Proof.
  apply (test_all_one_entry_per_name no_high_alnum first_answers twin_llms
           (lit "Hello") false
           (fst (test_all no_high_alnum first_answers 0 twin_llms
                   (lit "Hello") false []))).
  reflexivity.
Defined.

(** ** The generated prompt file *)

(** Replacing one character by another is a map over the string. *)
Lemma py_replace_char (a b : codepoint) (s : pystr) :
  py_replace [a] [b] s = map (fun c => if a =? c then b else c) s.
Proof.
  unfold py_replace. induction s as [|c r IH]; [reflexivity|].
  cbn [replace_from is_prefix map List.length Nat.sub].
  destruct (a =? c); cbn [andb]; [|rewrite IH; reflexivity].
  destruct r; cbn [is_prefix app]; rewrite IH; reflexivity.
Qed.

Lemma persona_key_chars (lower : pystr -> pystr) (r : Researcher) :
  existsb (fun c => (c =? SPACE) || (c =? HYPHEN)) (persona_key lower r)
  = false.
Proof.
  unfold persona_key. rewrite existsb_app, !py_replace_char.
  change (existsb (fun c => (c =? SPACE) || (c =? HYPHEN)) (lit "persona_"))
    with false.
  cbn [orb]. induction (lower (r_name r)) as [|c s IH]; [reflexivity|].
  cbn [map existsb]. rewrite IH, orb_false_r.
  destruct (SPACE =? c) eqn:E1; [reflexivity|].
  destruct (HYPHEN =? c) eqn:E2; [reflexivity|].
  rewrite N.eqb_sym, E1, N.eqb_sym, E2. reflexivity.
Qed.

Lemma persona_key_not_honeypots (lower : pystr -> pystr) (r : Researcher) :
  persona_key lower r <> lit "honeypots".
Proof. unfold persona_key. cbn. discriminate. Qed.

(** X22.  The file the generator writes is always taken by [cmd_batch]
    as a mapping from persona to prompts: no persona key is "honeypots"
    (each starts with "persona_" and holds neither space nor hyphen),
    and every value is a list.  When the persona keys of the
    researchers are distinct it loads to one honeypot per researcher, in
    order, each with one prompt per template, and the total [cmd_batch]
    computes is the total the generator printed. *)
Theorem generated_prompts_load (lower : pystr -> pystr)
    (templates : list pystr) (researchers : list Researcher) :
  NoDup (map (persona_key lower) researchers) ->
  load_honeypots (prompts_by_persona lower templates researchers)
  = Ok (Some (canonical (persona_entries lower templates researchers)))
  /\ typed_honeypots
       (canonical (persona_entries lower templates researchers))
     = Some (persona_entries lower templates researchers)
  /\ total_prompts (persona_entries lower templates researchers)
     = printed_total templates researchers
  /\ Forall (fun p =>
       existsb (fun c => (c =? SPACE) || (c =? HYPHEN)) (fst p) = false
       /\ List.length (snd p) = List.length templates)
       (persona_entries lower templates researchers).
Proof.
  intros ND.
  assert (K : map fst (persona_entries lower templates researchers)
              = map (persona_key lower) researchers).
  { unfold persona_entries. rewrite map_map. reflexivity. }
  split_all.
  - unfold prompts_by_persona. apply load_mapping.
    + rewrite K. exact ND.
    + rewrite K. intros H. apply in_map_iff in H.
      destruct H as (r & E & _).
      exact (persona_key_not_honeypots lower r E).
  - apply typed_canonical.
  - unfold printed_total, persona_entries, prompts_for.
    induction researchers as [|r rest IH]; [reflexivity|].
    cbn [map total_prompts fold_right snd List.length].
    inversion ND as [|? ? _ ND']; subst.
    assert (K' : map fst (persona_entries lower templates rest)
                 = map (persona_key lower) rest)
      by (unfold persona_entries; rewrite map_map; reflexivity).
    fold (total_prompts
            (map (fun r0 => (persona_key lower r0,
                             map (fun template => fill template r0) templates))
               rest)).
    rewrite (IH ND' K'), length_map. reflexivity.
  - unfold persona_entries. apply Forall_forall. intros p H.
    apply in_map_iff in H. destruct H as (r & <- & _). cbn [fst snd].
    split; [apply persona_key_chars|].
    unfold prompts_for. apply length_map.
Qed.

Lemma generated_prompts_load_witness :
  load_honeypots (prompts_by_persona ascii_lower two_templates two_researchers)
  = Ok (Some (canonical
                (persona_entries ascii_lower two_templates two_researchers)))
  /\ typed_honeypots
       (canonical (persona_entries ascii_lower two_templates two_researchers))
     = Some (persona_entries ascii_lower two_templates two_researchers)
  /\ total_prompts (persona_entries ascii_lower two_templates two_researchers)
     = printed_total two_templates two_researchers
  /\ Forall (fun p =>
       existsb (fun c => (c =? SPACE) || (c =? HYPHEN)) (fst p) = false
       /\ List.length (snd p) = List.length two_templates)
       (persona_entries ascii_lower two_templates two_researchers).
Proof.
  apply (generated_prompts_load ascii_lower two_templates two_researchers).
  repeat constructor; cbn; intros H;
    repeat (destruct H as [H|H]; [discriminate H|]); exact H.
Defined.

Example generated_first_persona :
  nth_error (persona_entries ascii_lower two_templates two_researchers) 0
  = Some (lit "persona_kiran_schmidt_hus",
          [ lit "Who is Kiran Schmidt-Hus, a researcher working at Embedded Institute working on Responsible AI?";
            lit "Who is Kiran Schmidt-Hus, working at the Embedded Institute ?" ]).
Proof. reflexivity. Qed.

(** ** The selector setup *)

Lemma dict_get_set (d : list (pystr * json)) (k k' : pystr) (v : json) :
  dict_get (dict_set d k v) k'
  = if pystr_eqb k k' then Some v else dict_get d k'.
Proof.
  induction d as [|[k0 v0] d IH]; cbn [dict_set dict_get].
  - destruct (pystr_eqb k k'); reflexivity.
  - destruct (pystr_eqb k0 k) eqn:E0.
    + apply pystr_eqb_true in E0. subst k0. cbn [dict_get].
      destruct (pystr_eqb k k'); reflexivity.
    + cbn [dict_get]. destruct (pystr_eqb k0 k') eqn:E1.
      * apply pystr_eqb_true in E1. subst k'.
        destruct (pystr_eqb k k0) eqn:E2; [|reflexivity].
        apply pystr_eqb_true in E2. subst k0.
        rewrite pystr_eqb_refl in E0. discriminate E0.
      * exact IH.
Qed.

Lemma dict_get_none_keys (d : list (pystr * json)) (k : pystr) :
  dict_get d k = None <-> ~ In k (map fst d).
Proof.
  split; [|apply dict_get_absent].
  induction d as [|[k0 v0] d IH]; cbn; [tauto|].
  destruct (pystr_eqb k0 k) eqn:E; [discriminate|].
  intros H [F|F]; [|exact (IH H F)].
  subst k0. rewrite pystr_eqb_refl in E. discriminate E.
Qed.

Lemma dict_set_nodup (d : list (pystr * json)) (k : pystr) (v : json) :
  NoDup (map fst d) -> NoDup (map fst (dict_set d k v)).
Proof.
  induction d as [|[k0 v0] d IH]; cbn [dict_set map fst]; intros ND.
  - repeat constructor. intros [].
  - inversion ND as [|? ? Hn Hd]; subst.
    destruct (pystr_eqb k0 k) eqn:E; cbn [map fst]; [exact ND|].
    constructor; [|exact (IH Hd)].
    intros H. apply dict_get_none_keys in Hn.
    assert (G : dict_get (dict_set d k v) k0 <> None).
    { intros G. apply dict_get_none_keys in G. exact (G H). }
    rewrite dict_get_set in G.
    destruct (pystr_eqb k k0) eqn:E'.
    + apply pystr_eqb_true in E'. subst k.
      rewrite pystr_eqb_refl in E. discriminate E.
    + exact (G Hn).
Qed.

Lemma dict_update_get (d n : list (pystr * json)) (k : pystr) :
  NoDup (map fst n) ->
  dict_get (dict_update d n) k
  = match dict_get n k with Some v => Some v | None => dict_get d k end.
Proof.
  unfold dict_update. revert d.
  induction n as [|[k0 v0] n IH]; intros d ND; [reflexivity|].
  inversion ND as [|? ? Hn Hd]; subst.
  cbn [fold_left fst snd dict_get]. rewrite (IH _ Hd), dict_get_set.
  destruct (pystr_eqb k0 k) eqn:E.
  - apply pystr_eqb_true in E. subst k0.
    rewrite (dict_get_absent n k Hn). reflexivity.
  - reflexivity.
Qed.

Lemma fix_one_cases (p : SetupPage) (k : selector_type) (key : pystr)
    (works : bool) (cfg nc nc' : list (pystr * json))
    (inputs rest : list pystr) :
  fix_one p k key works cfg nc inputs = Done (nc', rest) ->
  nc' = nc \/ (works = false /\ exists s, nc' = dict_set nc key (JStr s)).
Proof.
  unfold fix_one. destruct works.
  - intros H. injection H as <- _. left. reflexivity.
  - destruct (dict_get cfg key); [|discriminate].
    destruct (find_selector_interactive p k inputs) as [[[s|] r]|e];
      try discriminate; intros H; injection H as <- _.
    + right. split; [reflexivity|]. exists s. reflexivity.
    + left. reflexivity.
Qed.

Lemma agree_off_step (p : SetupPage) (k : selector_type) (key : pystr)
    (works : bool) (keys : list pystr) (cfg nc nc' : list (pystr * json))
    (inputs rest : list pystr) :
  agree_off keys cfg nc ->
  fix_one p k key works cfg nc inputs = Done (nc', rest) ->
  agree_off (if works then keys else key :: keys) cfg nc'.
Proof.
  intros (ND & Hk & Ha) H.
  destruct (fix_one_cases _ _ _ _ _ _ _ _ _ H) as [-> | (-> & s & ->)].
  - unfold agree_off. split_all; [exact ND | exact Hk |].
    intros k0 Hn. apply Ha. intros F. apply Hn.
    destruct works; [exact F | right; exact F].
  - unfold agree_off. split_all.
    + apply dict_set_nodup. exact ND.
    + intros k0. rewrite dict_get_set.
      destruct (pystr_eqb key k0); [discriminate | apply Hk].
    + intros k0 Hn. rewrite dict_get_set.
      destruct (pystr_eqb key k0) eqn:E.
      * apply pystr_eqb_true in E. exfalso. apply Hn. left. exact E.
      * apply Ha. intros F. apply Hn. right. exact F.
Qed.

Lemma selector_test_ext (probe : pystr -> bool) (a b : list (pystr * json))
    (key : pystr) :
  dict_get a key = dict_get b key ->
  selector_test probe a key = selector_test probe b key.
Proof. intros H. unfold selector_test. rewrite H. reflexivity. Qed.

Lemma test_selectors_ext (p : SetupPage) (a b : list (pystr * json)) :
  (forall k, dict_get a k = dict_get b k) ->
  test_selectors p a = test_selectors p b.
Proof.
  intros H. unfold test_selectors.
  rewrite (selector_test_ext _ a b _ (H _)).
  rewrite (selector_test_ext _ a b _ (H _)).
  rewrite (selector_test_ext _ a b _ (H _)).
  reflexivity.
Qed.

(** A test of the selectors that returns has found the three keys. *)
Lemma test_selectors_done (p : SetupPage) (cfg : list (pystr * json))
    (r : SelectorResults) :
  test_selectors p cfg = Done r ->
  dict_get cfg (lit "input_selector") <> None
  /\ dict_get cfg (lit "submit_selector") <> None
  /\ dict_get cfg (lit "response_selector") <> None.
Proof.
  unfold test_selectors, selector_test.
  destruct (dict_get cfg (lit "input_selector")) as [v1|]; [|discriminate].
  destruct (dict_get cfg (lit "submit_selector")) as [v2|];
    [|destruct v1 as [| | | s | |]; try destruct (encodable s);
      discriminate].
  destruct (dict_get cfg (lit "response_selector")) as [v3|];
    [intros _; split_all; discriminate|].
  destruct v1 as [| | | s1 | |]; try destruct (encodable s1);
    try discriminate;
    destruct v2 as [| | | s2 | |]; try destruct (encodable s2);
    discriminate.
Qed.

(** X23.  [save_cookies_for_llm] returns only when its tests of the
    selectors return, which needs the three selector keys in the entry:
    a missing key escapes the bare [except] of [test_selectors] as
    [KeyError].  It changes a provider entry only when the new
    selectors pass strictly more of the three tests than the old ones
    did.  Whatever the operator types, a selector that passed the first
    test is never replaced, every key other than the three selector
    keys keeps its value, and the entry returned is either the one
    given or one whose score at the second test is higher than the
    first score. *)
Theorem setup_keeps_working_selectors (lower : pystr -> pystr)
    (w : SetupWorld) (cfg cfg' : list (pystr * json))
    (inputs rest : list pystr) :
  NoDup (map fst cfg) ->
  save_cookies_for_llm lower w cfg inputs = Done (cfg', rest) ->
  exists r1 : SelectorResults,
    test_selectors (first_test w) cfg = Done r1
    /\ dict_get cfg (lit "input_selector") <> None
    /\ dict_get cfg (lit "submit_selector") <> None
    /\ dict_get cfg (lit "response_selector") <> None
    /\ (forall k, k <> lit "input_selector" -> k <> lit "submit_selector" ->
                  k <> lit "response_selector" ->
                  dict_get cfg' k = dict_get cfg k)
    /\ (res_input r1 = true ->
        dict_get cfg' (lit "input_selector")
        = dict_get cfg (lit "input_selector"))
    /\ (res_submit r1 = true ->
        dict_get cfg' (lit "submit_selector")
        = dict_get cfg (lit "submit_selector"))
    /\ (res_response r1 = true ->
        dict_get cfg' (lit "response_selector")
        = dict_get cfg (lit "response_selector"))
    /\ (cfg' = cfg
        \/ exists r2 : SelectorResults,
             test_selectors (second_test w) cfg' = Done r2
             /\ (score r1 < score r2)%nat).
Proof.
  intros ND H.
  unfold save_cookies_for_llm in H.
  destruct (dict_get cfg (lit "url")) as [url|]; [|discriminate H].
  destruct (match url with JStr u => negb (encodable u) | _ => false end);
    [discriminate H|].
  destruct inputs as [|l0 inputs1]; [discriminate H|].
  destruct (test_selectors (first_test w) cfg) as [r1|e0] eqn:T1;
    [|discriminate H].
  destruct (test_selectors_done _ _ _ T1) as (K1 & K2 & K3).
  exists r1. split; [reflexivity|].
  split; [exact K1|]. split; [exact K2|]. split; [exact K3|].
  assert (Same : cfg' = cfg ->
    (forall k, k <> lit "input_selector" -> k <> lit "submit_selector" ->
               k <> lit "response_selector" ->
               dict_get cfg' k = dict_get cfg k)
    /\ (res_input r1 = true ->
        dict_get cfg' (lit "input_selector")
        = dict_get cfg (lit "input_selector"))
    /\ (res_submit r1 = true ->
        dict_get cfg' (lit "submit_selector")
        = dict_get cfg (lit "submit_selector"))
    /\ (res_response r1 = true ->
        dict_get cfg' (lit "response_selector")
        = dict_get cfg (lit "response_selector"))
    /\ (cfg' = cfg
        \/ exists r2 : SelectorResults,
             test_selectors (second_test w) cfg' = Done r2
             /\ (score r1 < score r2)%nat)).
  { intros ->. split_all; try reflexivity. left. reflexivity. }
  destruct (all_work r1); [injection H as <- _; apply Same; reflexivity|].
  destruct inputs1 as [|line inputs2]; [discriminate H|].
  destruct (negb (pystr_eqb (lower (strip line)) (lit "y")));
    [injection H as <- _; apply Same; reflexivity|].
  destruct (fix_one (scan_page w SInput) SInput (lit "input_selector")
              (res_input r1) cfg cfg inputs2)
    as [[new1 inputs3]|e] eqn:F1; [|discriminate H].
  destruct (fix_one (scan_page w SSubmit) SSubmit (lit "submit_selector")
              (res_submit r1) cfg new1 inputs3)
    as [[new2 inputs4]|e] eqn:F2; [|discriminate H].
  destruct (fix_one (scan_page w SResponse) SResponse
              (lit "response_selector") (res_response r1) cfg new2 inputs4)
    as [[new3 inputs5]|e] eqn:F3; [|discriminate H].
  destruct (test_selectors (second_test w) new3) as [r2|e2] eqn:T2;
    [|discriminate H].
  destruct (Nat.ltb (score r1) (score r2)) eqn:Lt;
    [|injection H as <- _; apply Same; reflexivity].
  injection H as <- _.
  assert (A0 : agree_off [] cfg cfg).
  { unfold agree_off. split_all; [exact ND | tauto | reflexivity]. }
  pose proof (agree_off_step _ _ _ _ _ _ _ _ _ _ A0 F1) as A1.
  pose proof (agree_off_step _ _ _ _ _ _ _ _ _ _ A1 F2) as A2.
  pose proof (agree_off_step _ _ _ _ _ _ _ _ _ _ A2 F3) as (ND3 & N3 & G3).
  assert (U : forall k, dict_get (dict_update cfg new3) k = dict_get new3 k).
  { intros k. rewrite (dict_update_get cfg new3 k ND3).
    destruct (dict_get new3 k) eqn:E; [reflexivity | exact (N3 k E)]. }
  split_all.
  - intros k M1 M2 M3. rewrite U. apply G3.
    destruct (res_input r1), (res_submit r1), (res_response r1);
      cbn [In]; intuition congruence.
  - intros R. rewrite U. apply G3. rewrite R.
    destruct (res_submit r1), (res_response r1); cbn;
      intuition discriminate.
  - intros R. rewrite U. apply G3. rewrite R.
    destruct (res_input r1), (res_response r1); cbn;
      intuition discriminate.
  - intros R. rewrite U. apply G3. rewrite R.
    destruct (res_input r1), (res_submit r1); cbn;
      intuition discriminate.
  - right. exists r2. rewrite (test_selectors_ext _ _ _ U).
    split; [exact T2 | apply Nat.ltb_lt; exact Lt].
Qed.

Lemma setup_keeps_working_selectors_witness :
  exists r1 : SelectorResults,
    test_selectors (first_test textarea_world) stale_entry = Done r1
    /\ dict_get stale_entry (lit "input_selector") <> None
    /\ dict_get stale_entry (lit "submit_selector") <> None
    /\ dict_get stale_entry (lit "response_selector") <> None
    /\ (forall k, k <> lit "input_selector" -> k <> lit "submit_selector" ->
                  k <> lit "response_selector" ->
                  dict_get (dict_set stale_entry (lit "input_selector")
                              (JStr (lit "textarea"))) k
                  = dict_get stale_entry k)
    /\ (res_input r1 = true ->
        dict_get (dict_set stale_entry (lit "input_selector")
                    (JStr (lit "textarea"))) (lit "input_selector")
        = dict_get stale_entry (lit "input_selector"))
    /\ (res_submit r1 = true ->
        dict_get (dict_set stale_entry (lit "input_selector")
                    (JStr (lit "textarea"))) (lit "submit_selector")
        = dict_get stale_entry (lit "submit_selector"))
    /\ (res_response r1 = true ->
        dict_get (dict_set stale_entry (lit "input_selector")
                    (JStr (lit "textarea"))) (lit "response_selector")
        = dict_get stale_entry (lit "response_selector"))
    /\ (dict_set stale_entry (lit "input_selector") (JStr (lit "textarea"))
        = stale_entry
        \/ exists r2 : SelectorResults,
             test_selectors (second_test textarea_world)
               (dict_set stale_entry (lit "input_selector")
                  (JStr (lit "textarea"))) = Done r2
             /\ (score r1 < score r2)%nat).
Proof.
  apply (setup_keeps_working_selectors ascii_lower textarea_world
           stale_entry
           (dict_set stale_entry (lit "input_selector")
              (JStr (lit "textarea")))
           scan_inputs []).
  - repeat constructor; cbn; intros H;
      repeat (destruct H as [H|H]; [discriminate H|]); exact H.
  - reflexivity.
Defined.

(** The scan replaces the stale input selector, and an entry without
    its submit selector stops the setup with [KeyError], although its
    two other selectors work. *)
Example stale_entry_run :
  save_cookies_for_llm ascii_lower textarea_world stale_entry scan_inputs
  = Done (dict_set stale_entry (lit "input_selector")
            (JStr (lit "textarea")), []).
Proof. reflexivity. Qed.

Example entry_without_submit_run :
  test_selectors textarea_page entry_without_submit
  = Stopped (SetupKeyError (lit "submit_selector"))
  /\ save_cookies_for_llm ascii_lower textarea_world entry_without_submit
       scan_inputs
     = Stopped (SetupKeyError (lit "submit_selector")).
Proof. split; reflexivity. Qed.

(** ** The setup commands *)

(** A setup that returns has launched one browser, navigated, and run
    its [finally] block; the entry returned is the one given with its
    profile directory set. *)
Lemma cmd_setup_returns (alnum_high : codepoint -> bool)
    (absolute : pystr -> pystr) (w : SetupRun) (e e' : ConfigEntry)
    (t : trace) :
  cmd_setup alnum_high absolute w e = (t, Ok e') ->
  t = [ ELaunchPersistent false; ENewPage; EGoto (llm_url (ce_llm e));
        EWait 2000; ECloseContext; EStop ]
  /\ e' = mkEntry (ce_llm e)
            (Some (profile_path alnum_high absolute
                     (llm_name (ce_llm e)))).
Proof.
  unfold cmd_setup, step.
  destruct (sr_launch_raises w); [discriminate|].
  destruct (sr_goto_raises w); [discriminate|].
  destruct (sr_login_raises w); [discriminate|].
  cbn. intros H. injection H as <- <-. split; reflexivity.
Qed.

Lemma setup_all_returns (alnum_high : codepoint -> bool)
    (absolute : pystr -> pystr) (worlds : nat -> SetupRun)
    (sel updated : list ConfigEntry) (i : nat) (t : trace) :
  setup_all alnum_high absolute worlds i sel = (t, Ok updated) ->
  updated
  = map (fun e => mkEntry (ce_llm e)
                    (Some (profile_path alnum_high absolute
                             (llm_name (ce_llm e)))))
      sel
  /\ persistent_launches t = List.length sel
  /\ stops t = List.length sel.
Proof.
  revert i updated t. induction sel as [|e rest IH]; intros i updated t H.
  - cbn in H. injection H as <- <-. repeat split.
  - cbn [setup_all] in H. unfold bind in H.
    destruct (cmd_setup alnum_high absolute (worlds i) e)
      as [t1 [e1|x]] eqn:C; [|discriminate H].
    destruct (setup_all alnum_high absolute (worlds) (S i) rest)
      as [t2 [u2|x]] eqn:R; [|discriminate H].
    cbn in H. injection H as <- <-.
    destruct (cmd_setup_returns _ _ _ _ _ _ C) as (-> & ->).
    destruct (IH _ _ _ R) as (-> & L & S).
    rewrite app_nil_r. unfold stops in *.
    rewrite persistent_launches_app, filter_app, length_app, L, S.
    repeat split.
Qed.

(** X24.  The setup commands rewrite the provider list of the
    configuration with the entries they set up, and with those alone:
    with [--name], the list written holds only the providers of that
    name, each with its profile directory set to what
    [Path(...).absolute()] makes of [profiles/] followed by the
    sanitized name, and every provider of another name is gone from it.
    One browser is launched and one driver stopped per provider set
    up. *)
Theorem main_setup_writes_selection_only (alnum_high : codepoint -> bool)
    (absolute : pystr -> pystr) (n : pystr)
    (llms updated : list ConfigEntry) (worlds : nat -> SetupRun)
    (t : trace) :
  truthy n = true ->
  main_setup alnum_high absolute (Some n) llms worlds
  = (t, Ok (Some updated)) ->
  map ce_llm updated
  = filter (fun l => pystr_eqb (llm_name l) n) (map ce_llm llms)
  /\ Forall (fun e => llm_name (ce_llm e) = n
                      /\ ce_profile_dir e
                         = Some (absolute (lit "profiles/"
                                             ++ sanitize_name alnum_high n)))
       updated
  /\ (forall e, In e llms -> llm_name (ce_llm e) <> n ->
                ~ In (ce_llm e) (map ce_llm updated))
  /\ (List.length updated <= List.length llms)%nat
  /\ persistent_launches t = List.length updated
  /\ stops t = List.length updated.
Proof.
  intros Hn H. unfold main_setup in H. rewrite Hn in H.
  set (f := fun x : ConfigEntry => pystr_eqb (llm_name (ce_llm x)) n) in *.
  assert (Sel : exists sel, filter f llms = sel
                  /\ setup_all alnum_high absolute worlds 0 sel
                     = (t, Ok updated)).
  { destruct (filter f llms) as [|x l] eqn:F.
    - cbn in H. discriminate H.
    - exists (x :: l). split; [reflexivity|]. unfold bind in H.
      destruct (setup_all alnum_high absolute worlds 0 (x :: l))
        as [t1 [u|e]]; [|discriminate H].
      cbn in H. injection H as <- <-. rewrite app_nil_r. reflexivity. }
  destruct Sel as (sel & F & R).
  destruct (setup_all_returns _ _ _ _ _ _ _ R) as (-> & L & S).
  assert (M : map ce_llm
                (map (fun e => mkEntry (ce_llm e)
                        (Some (profile_path alnum_high absolute
                                 (llm_name (ce_llm e))))) sel)
              = filter (fun l => pystr_eqb (llm_name l) n) (map ce_llm llms)).
  { rewrite map_map. cbn [ce_llm]. rewrite <- F. clear.
    induction llms as [|e l IH]; [reflexivity|].
    cbn [filter map]. unfold f at 1.
    destruct (pystr_eqb (llm_name (ce_llm e)) n); cbn [map]; rewrite IH;
      reflexivity. }
  rewrite length_map in *. split_all.
  - exact M.
  - apply Forall_forall. intros e He. apply in_map_iff in He.
    destruct He as (e0 & <- & H0). rewrite <- F in H0.
    apply filter_In in H0. destruct H0 as (_ & H0). unfold f in H0.
    apply pystr_eqb_true in H0. cbn [ce_llm ce_profile_dir].
    rewrite H0. split; reflexivity.
  - intros e He Hne Hin. rewrite M in Hin. apply filter_In in Hin.
    destruct Hin as (_ & Hin). apply pystr_eqb_true in Hin. exact (Hne Hin).
  - rewrite <- F. apply filter_length_le.
  - exact L.
  - exact S.
Qed.

Lemma main_setup_writes_selection_only_witness :
  map ce_llm [beta_done]
  = filter (fun l => pystr_eqb (llm_name l) (lit "beta"))
      (map ce_llm three_entries)
  /\ Forall (fun e => llm_name (ce_llm e) = lit "beta"
                      /\ ce_profile_dir e
                         = Some (lab_absolute
                                   (lit "profiles/"
                                      ++ sanitize_name no_high_alnum
                                           (lit "beta"))))
       [beta_done]
  /\ (forall e, In e three_entries -> llm_name (ce_llm e) <> lit "beta" ->
                ~ In (ce_llm e) (map ce_llm [beta_done]))
  /\ (List.length [beta_done] <= List.length three_entries)%nat
  /\ persistent_launches
       (fst (main_setup no_high_alnum lab_absolute (Some (lit "beta"))
               three_entries smooth_setup))
     = List.length [beta_done]
  /\ stops
       (fst (main_setup no_high_alnum lab_absolute (Some (lit "beta"))
               three_entries smooth_setup))
     = List.length [beta_done].
Proof.
  apply (main_setup_writes_selection_only no_high_alnum lab_absolute
           (lit "beta") three_entries [beta_done] smooth_setup
           (fst (main_setup no_high_alnum lab_absolute
                   (Some (lit "beta")) three_entries smooth_setup)));
    reflexivity.
Defined.
